(** * SOLID talk snippets (solid.py, solid/talk.py): model and properties

    The repository holds two Python files of paired "problem" and
    "solution" class definitions, one pair or more for each of the five
    SOLID principles.  The development is laid out as follows.

    - [Lex], [Ast], [Grammar]: tokens, the abstract syntax of the
      snippets, and a recogniser for the statement grammar they are
      written in.
    - [Solid], [Talk]: the two files, snippet by snippet, as syntax
      trees; the three method bodies that are not Python are kept as
      lines of tokens.
    - [Program]: what the files define (names, methods, attribute
      resolution along the bases, compilation of a whole file).
    - [Py]: the run-time model (values, objects with an attribute
      dictionary, a heap, exceptions, a trace of the calls made on
      collaborators) as a state-and-error monad; [Interp]: the meaning
      of a parsed body in that monad.
    - One module per snippet, with the methods translated statement by
      statement into the monad and named after their class and method;
      each translation is proved equal to the interpretation of the
      parsed body.
    - The properties of the snippets. *)

From Stdlib Require Import ZArith String List Lia.
From stdpp Require Import base gmap strings list.

Set Warnings "-register-all".
Set Default Proof Using "Type".

Local Open Scope string_scope.
Local Open Scope Z_scope.
Local Open Scope list_scope.

(** ** Lexical layer

    Two methods of solid.py and one of talk.py are not Python: they are
    kept as the lines of tokens the tokenizer yields for them. *)

Module Lex.

Inductive token : Type :=
| TName (s : string)
| TStr (s : string)
| TInt (n : Z)
| TOp (s : string).

(** A logical line: its number in the file, its indentation in columns
    and its tokens. *)
Record line : Type := mkLine { lineno : nat; indent : nat; toks : list token }.

End Lex.

(** ** Abstract syntax of the snippets *)

Module Ast.

Import Lex.

Inductive binop : Type := OpAdd | OpSub | OpMul | OpEq.

Inductive expr : Type :=
| ENone
| ETrue
| EFalse
| EInt (n : Z)
| EStr (s : string)
| EName (x : string)
| EAttr (e : expr) (a : string)
| ECall (f : expr) (args : list expr)
| EBin (op : binop) (l r : expr)
| EDict (items : list (expr * expr))
| EGen (elt : expr) (x : string) (iter : expr).

(** [elif] is an [SIf] alone in the [else] branch, as in Python's own
    syntax trees; a missing [else] is the empty list. *)
Inductive stmt : Type :=
| SPass
| SExpr (e : expr)
| SAssign (target e : expr)
| SReturn (e : expr)
| SRaise (e : expr)
| SIf (c : expr) (body orelse : list stmt)
| SFor (x : string) (iter : expr) (body : list stmt)
| SWith (mgr : expr) (x : string) (body : list stmt).

(** What a class body holds.  [MBroken] is a [def] whose header is fine
    and whose body does not parse. *)
Inductive member : Type :=
| MPass
| MAttr (name : string) (e : expr)
| MDef (name : string) (params : list string) (body : list stmt)
| MBroken (name : string) (params : list string) (body : list line).

Inductive item : Type :=
| Class (name : string) (bases : list string) (body : list member)
| Def (name : string) (params : list string) (body : list stmt)
| FromImport (module name : string).

Inductive principle : Type := SRP | OCP | LSP | ISP | DIP.

Inductive kind : Type := Problem | Solution.

(** The unit of the files: the definitions under one
    [# PROBLEM #n] or [# SOLUTION #n] comment of one principle. *)
Record snippet : Type := mkSnippet {
  sprinciple : principle;
  skind : kind;
  snumber : nat;
  sitems : list item }.

End Ast.

(** ** Statement grammar of a method body

    A recogniser for the part of Python's grammar the snippets are
    written in: expressions built from names, literals, attribute
    access, calls, comparisons and arithmetic; simple statements; and
    the compound statements [if]/[elif]/[else], [for] and [with], each
    with its suite on the following, deeper indented lines. *)

Module Grammar.

Import Lex Ast.

Definition keywords : list string :=
  ["if"; "elif"; "else"; "for"; "in"; "with"; "as"; "while"; "def";
   "class"; "return"; "raise"; "pass"; "from"; "import"; "and"; "or";
   "not"; "is"; "lambda"; "try"; "except"; "finally"; "del"; "global";
   "nonlocal"; "assert"; "break"; "continue"; "yield"; "async"; "await"].

Definition is_keyword (s : string) : bool := existsb (String.eqb s) keywords.

Definition is_op (s : string) (t : token) : bool :=
  match t with TOp o => String.eqb o s | _ => false end.

Definition is_word (s : string) (t : token) : bool :=
  match t with TName o => String.eqb o s | _ => false end.

Definition is_ident (t : token) : bool :=
  match t with TName x => negb (is_keyword x) | _ => false end.

(** Binary operators by binding strength: comparisons, sums, products. *)
Definition binops (lvl : nat) : list string :=
  match lvl with
  | 0%nat => ["=="; "!="; "<"; ">"; "<="; ">="]
  | 1%nat => ["+"; "-"]
  | 2%nat => ["*"; "/"; "//"; "%"]
  | _ => []
  end.

Inductive goal : Type :=
| GExpr (lvl : nat)   (* an expression of binding strength [lvl] or more *)
| GTrailers           (* [.name] and [(args)] after an atom *)
| GArgs               (* the arguments of a call, one at least *)
| GItems.             (* the [key: value] items of a dict display *)

(** [parse fuel g ts] reads the longest [g] at the head of [ts] and
    returns the tokens left, or [None] where no [g] starts. *)
Fixpoint parse (fuel : nat) (g : goal) (ts : list token)
  : option (list token) :=
  match fuel with
  | O => None
  | S f =>
      let closing (c : string) (r : option (list token)) :=
        match r with
        | Some (t :: r') => if is_op c t then parse f GTrailers r' else None
        | _ => None
        end in
      match g with
      | GExpr lvl =>
          if (3 <=? lvl)%nat then
            match ts with
            | TName x :: r =>
                if is_keyword x then None else parse f GTrailers r
            | TStr _ :: r => parse f GTrailers r
            | TInt _ :: r => parse f GTrailers r
            | TOp o :: r =>
                if String.eqb o "(" then closing ")" (parse f (GExpr 0) r)
                else if String.eqb o "{" then
                  match r with
                  | t :: r' =>
                      if is_op "}" t then parse f GTrailers r'
                      else closing "}" (parse f GItems r)
                  | [] => None
                  end
                else None
            | [] => None
            end
          else
            match parse f (GExpr (S lvl)) ts with
            | Some (TOp o :: r) =>
                if existsb (String.eqb o) (binops lvl)
                then parse f (GExpr lvl) r
                else Some (TOp o :: r)
            | res => res
            end
      | GTrailers =>
          match ts with
          | TOp o :: r =>
              if String.eqb o "." then
                match r with
                | t :: r' => if is_ident t then parse f GTrailers r' else None
                | [] => None
                end
              else if String.eqb o "(" then
                match r with
                | t :: r' =>
                    if is_op ")" t then parse f GTrailers r'
                    else closing ")" (parse f GArgs r)
                | [] => None
                end
              else Some ts
          | _ => Some ts
          end
      | GArgs =>
          match parse f (GExpr 0) ts with
          | Some (TOp o :: r) =>
              if String.eqb o "," then parse f GArgs r
              else Some (TOp o :: r)
          | Some (TName k :: x :: i :: r) =>
              (* a generator expression as the only argument *)
              if (String.eqb k "for" && is_ident x && is_word "in" i)%bool
              then parse f (GExpr 0) r
              else Some (TName k :: x :: i :: r)
          | res => res
          end
      | GItems =>
          match parse f (GExpr 0) ts with
          | Some (c :: r) =>
              if is_op ":" c then
                match parse f (GExpr 0) r with
                | Some (TOp o :: r') =>
                    if String.eqb o "," then parse f GItems r'
                    else Some (TOp o :: r')
                | res => res
                end
              else None
          | _ => None
          end
      end
  end.

(** The expression at the head of [ts]; the fuel covers every token at
    every binding strength. *)
Definition expression (ts : list token) : option (list token) :=
  parse (8 * length ts + 8) (GExpr 0) ts.

(** [expr] or [target = expr]. *)
Definition expr_stmt (ts : list token) : option (list token) :=
  match expression ts with
  | Some (t :: r) => if is_op "=" t then expression r else Some (t :: r)
  | res => res
  end.

Definition small_stmt (ts : list token) : option (list token) :=
  match ts with
  | TName k :: r =>
      if String.eqb k "pass" then Some r
      else if (String.eqb k "return" || String.eqb k "raise")%bool then
        match r with
        | [] => Some []
        | t :: _ => if is_op ";" t then Some r else expression r
        end
      else expr_stmt ts
  | _ => expr_stmt ts
  end.

(** [small_stmt (';' small_stmt)* [';']] up to the end of the line. *)
Fixpoint simple_line (n : nat) (ts : list token) : bool :=
  match n with
  | O => false
  | S n' =>
      match small_stmt ts with
      | Some [] => true
      | Some (t :: r) =>
          (is_op ";" t && match r with [] => true | _ => simple_line n' r end)%bool
      | None => false
      end
  end.

Definition ends_with_colon (r : option (list token)) : bool :=
  match r with
  | Some [t] => is_op ":" t
  | _ => false
  end.

(** The rest of a compound statement's header, after its keyword [k]. *)
Definition header_ok (k : string) (r : list token) : bool :=
  if (String.eqb k "if" || String.eqb k "elif")%bool then
    ends_with_colon (expression r)
  else if String.eqb k "else" then
    ends_with_colon (Some r)
  else if String.eqb k "for" then
    match r with
    | x :: i :: r' =>
        (is_ident x && is_word "in" i && ends_with_colon (expression r'))%bool
    | _ => false
    end
  else if String.eqb k "with" then
    match expression r with
    | Some [a; x; c] => (is_word "as" a && is_ident x && is_op ":" c)%bool
    | res => ends_with_colon res
    end
  else false.

Definition compound (k : string) : bool :=
  existsb (String.eqb k) ["if"; "elif"; "else"; "for"; "with"].

Definition continues_if (k : string) : bool :=
  (String.eqb k "elif" || String.eqb k "else")%bool.

Definition opens_if (k : string) : bool :=
  (String.eqb k "if" || String.eqb k "elif")%bool.

Inductive verdict : Type :=
| Accept
| SyntaxError (line : nat).

(** [block fuel ind after_if ls] reads the statements at indentation
    [ind] at the head of [ls]; [after_if] tells whether an [elif] or
    [else] may come next.  It returns the lines left, the first of which
    (if any) is indented less than [ind]. *)
Fixpoint block (fuel ind : nat) (after_if : bool) (ls : list line)
  : verdict * list line :=
  match fuel with
  | O => (SyntaxError 0, ls)
  | S f =>
      match ls with
      | [] => (Accept, [])
      | l :: rest =>
          if (indent l <? ind)%nat then (Accept, ls)
          else if (ind <? indent l)%nat then (SyntaxError (lineno l), ls)
          else
            let simple :=
              if simple_line (S (length (toks l))) (toks l)
              then block f ind false rest
              else (SyntaxError (lineno l), ls) in
            match toks l with
            | TName k :: r =>
                if compound k then
                  if (continues_if k && negb after_if)%bool
                  then (SyntaxError (lineno l), ls)
                  else if header_ok k r then
                    match rest with
                    | l' :: _ =>
                        if (ind <? indent l')%nat then
                          match block f (indent l') false rest with
                          | (Accept, rest') => block f ind (opens_if k) rest'
                          | bad => bad
                          end
                        else (SyntaxError (lineno l'), rest)
                    | [] => (SyntaxError (S (lineno l)), [])
                    end
                  else (SyntaxError (lineno l), ls)
                else simple
            | _ => simple
            end
      end
  end.

(** The body of a [def]: one block at the indentation of its first
    line, with nothing left over. *)
Definition check_body (ls : list line) : verdict :=
  match ls with
  | [] => Accept
  | l :: _ =>
      match block (2 * length ls + 2) (indent l) false ls with
      | (Accept, []) => Accept
      | (Accept, l' :: _) => SyntaxError (lineno l')
      | (bad, _) => bad
      end
  end.

(** *** Printing a parsed body back to lines *)

Definition prec (e : expr) : nat :=
  match e with
  | EBin OpEq _ _ => 0
  | EBin OpAdd _ _ | EBin OpSub _ _ => 1
  | EBin OpMul _ _ => 2
  | EGen _ _ _ => 0
  | _ => 3
  end.

Definition op_symbol (op : binop) : string :=
  match op with OpAdd => "+" | OpSub => "-" | OpMul => "*" | OpEq => "==" end.

Definition paren (b : bool) (ts : list token) : list token :=
  if b then TOp "(" :: ts ++ [TOp ")"] else ts.

Fixpoint print_expr (e : expr) : list token :=
  let sub (lvl : nat) (e' : expr) :=
    paren (prec e' <? lvl)%nat (print_expr e') in
  match e with
  | ENone => [TName "None"]
  | ETrue => [TName "True"]
  | EFalse => [TName "False"]
  | EInt n => [TInt n]
  | EStr s => [TStr s]
  | EName x => [TName x]
  | EAttr e' a => sub 3%nat e' ++ [TOp "."; TName a]
  | ECall f args =>
      sub 3%nat f ++ TOp "(" ::
        (fix commas (es : list expr) : list token :=
           match es with
           | [] => []
           | [a] => print_expr a
           | a :: es' => print_expr a ++ TOp "," :: commas es'
           end) args ++ [TOp ")"]
  | EBin op l r =>
      sub (prec e) l ++ TOp (op_symbol op) :: sub (S (prec e)) r
  | EDict items =>
      TOp "{" ::
        (fix commas (kvs : list (expr * expr)) : list token :=
           match kvs with
           | [] => []
           | [(k, v)] => print_expr k ++ TOp ":" :: print_expr v
           | (k, v) :: kvs' =>
               print_expr k ++ TOp ":" :: print_expr v ++ TOp "," :: commas kvs'
           end) items ++ [TOp "}"]
  | EGen elt x iter =>
      print_expr elt ++ TName "for" :: TName x :: TName "in" :: sub 1%nat iter
  end.

(** Statements to (indentation, tokens) pairs, four columns a level. *)
Fixpoint print_stmt (ind : nat) (s : stmt) : list (nat * list token) :=
  let suite :=
    fix suite (ss : list stmt) : list (nat * list token) :=
      match ss with
      | [] => []
      | s' :: ss' => print_stmt (4 + ind) s' ++ suite ss'
      end in
  match s with
  | SPass => [(ind, [TName "pass"])]
  | SExpr e => [(ind, print_expr e)]
  | SAssign t e => [(ind, print_expr t ++ TOp "=" :: print_expr e)]
  | SReturn e => [(ind, TName "return" :: print_expr e)]
  | SRaise e => [(ind, TName "raise" :: print_expr e)]
  | SIf c body orelse =>
      (ind, TName "if" :: print_expr c ++ [TOp ":"]) :: suite body ++
      match orelse with
      | [] => []
      | _ => (ind, [TName "else"; TOp ":"]) :: suite orelse
      end
  | SFor x iter body =>
      (ind, TName "for" :: TName x :: TName "in" :: print_expr iter ++ [TOp ":"])
        :: suite body
  | SWith mgr x body =>
      (ind, TName "with" :: print_expr mgr ++ [TName "as"; TName x; TOp ":"])
        :: suite body
  end.

Fixpoint number_lines (n : nat) (ls : list (nat * list token)) : list line :=
  match ls with
  | [] => []
  | (ind, ts) :: ls' => mkLine n ind ts :: number_lines (S n) ls'
  end.

Definition print_body (ss : list stmt) : list line :=
  number_lines 1 (flat_map (print_stmt 8) ss).

End Grammar.

(** ** The two files, snippet by snippet

    Every class and function of solid.py and solid/talk.py, in file
    order.  Classes are redefined from snippet to snippet, so each
    snippet is its own small program. *)

Import Lex Ast.

Module Solid.

(** solid.py, SRP problem #1: lines 30-41. *)
Definition srp_problem1 : snippet :=
  mkSnippet SRP Problem 1
    [Class "Employee" ["object"]
       [MDef "calculate_pay" ["self"]
          [SReturn (ECall (EAttr (EName "self") "calculate") [])];
        MDef "report_hours" ["self"; "hours"]
          [SReturn
             (EBin OpMul (ECall (EAttr (EName "self") "calculate") [])
                (EName "hours"))];
        MDef "save" ["self"] [SPass];
        MDef "calculate" ["self"] [SPass]]].

(** solid.py, SRP solution #1: lines 45-55. *)
Definition srp_solution1 : snippet :=
  mkSnippet SRP Solution 1
    [Class "PaymentCalculator" ["object"]
       [MDef "calculate_pay" ["self"; "employee"]
          [SReturn
             (ECall (EAttr (EName "self") "calculate") [EName "employee"])]];
     Class "Reporter" ["object"]
       [MDef "report_hours" ["self"; "employee"]
          [SReturn
             (ECall (EAttr (EName "self") "calculate") [EName "employee"])]];
     Class "EmployeeRepository" ["object"]
       [MDef "save" ["self"; "employee"] [SPass]]].

(** solid.py, OCP problem #1: lines 62-78. *)
Definition ocp_problem1 : snippet :=
  mkSnippet OCP Problem 1
    [Class "Operation" ["object"]
       [MDef "__init__" ["self"; "x"; "y"]
          [SAssign (EAttr (EName "self") "x") (EName "x");
           SAssign (EAttr (EName "self") "y") (EName "y")]];
     Class "Addition" ["Operation"] [MPass];
     Class "Subtraction" ["Operation"] [MPass];
     Class "BasicCalculator" ["Calculator"]
       [MDef "calculate" ["self"; "operation"]
          [SIf
             (ECall (EName "isinstance")
                [EName "operation"; EName "Addition"])
             [SReturn
                (EBin OpAdd (EAttr (EName "operation") "x")
                   (EAttr (EName "operation") "y"))]
             [SIf
                (ECall (EName "isinstance")
                   [EName "operation"; EName "Subtraction"])
                [SReturn
                   (EBin OpSub (EAttr (EName "operation") "x")
                      (EAttr (EName "operation") "y"))]
                []]]]].

(** solid.py, OCP solution #1: lines 82-97. *)
Definition ocp_solution1 : snippet :=
  mkSnippet OCP Solution 1
    [Class "Operation" ["object"]
       [MDef "__init__" ["self"; "x"; "y"]
          [SAssign (EAttr (EName "self") "x") (EName "x");
           SAssign (EAttr (EName "self") "y") (EName "y")]];
     Class "Addition" ["Operation"]
       [MDef "peform_operation" ["self"]
          [SReturn
             (EBin OpAdd (EAttr (EName "self") "x")
                (EAttr (EName "self") "y"))]];
     Class "Subtraction" ["Operation"]
       [MDef "peform_operation" ["self"]
          [SReturn
             (EBin OpSub (EAttr (EName "self") "x")
                (EAttr (EName "self") "y"))]];
     Class "BasicCalculator" ["Calculator"]
       [MDef "calculate" ["self"; "operation"]
          [SReturn (ECall (EAttr (EName "operation") "perform_operation") [])]]].

(** solid.py, OCP problem #2: lines 101-120. *)
Definition ocp_problem2 : snippet :=
  mkSnippet OCP Problem 2
    [Class "Printer" ["object"] [MDef "print" ["self"; "filename"] [SPass]];
     Class "ColorPrinter" ["Printer"]
       [MDef "print" ["self"; "filename"]
          [SExpr
             (ECall (EAttr (EName "HPLASER") "print_file") [EName "filename"])]];
     Class "BWPrinter" ["Printer"]
       [MDef "print" ["self"; "filename"]
          [SExpr
             (ECall (EAttr (EName "HPINKJET") "print_file")
                [EName "filename"])]];
     Class "ReportGenerator" ["object"]
       [MBroken "print" ["self"; "filename"; "ink_type"]
          [mkLine 115 8
             [TName "if"; TName "ink_type"; TOp "=="; TStr "BLACK"; TOp ":"];
           mkLine 116 12
             [TName "BWPrinter"; TOp "."; TName "print_file"; TOp "(";
              TName "filename"; TOp ")"];
           mkLine 117 8
             [TName "else"; TName "ink_type"; TOp "=="; TStr "COLOR"; TOp ":"];
           mkLine 118 12
             [TName "ColorPrinter"; TOp "."; TName "print_file"; TOp "(";
              TName "filename"; TOp ")"];
           mkLine 119 8 [TName "else"; TOp ":"];
           mkLine 120 12
             [TName "raise"; TName "BaseException"; TOp "(";
              TStr "There is no printer for that type"; TOp ")"]]]].

(** solid.py, OCP solution #2: lines 124-141. *)
Definition ocp_solution2 : snippet :=
  mkSnippet OCP Solution 2
    [Class "Printer" ["object"] [MDef "print" ["self"; "filename"] [SPass]];
     Class "ColorPrinter" ["Printer"]
       [MDef "print" ["self"; "filename"]
          [SExpr
             (ECall (EAttr (EName "HPLASER") "print_file") [EName "filename"])]];
     Class "BWPrinter" ["Printer"]
       [MDef "print" ["self"; "filename"]
          [SExpr
             (ECall (EAttr (EName "HPINKJET") "print_file")
                [EName "filename"])]];
     Class "ReportGenerator" ["object"]
       [MDef "__init__" ["self"; "printer"]
          [SAssign (EAttr (EName "self") "printer") (EName "printer")];
        MDef "print" ["self"; "filename"; "ink_type"]
          [SExpr
             (ECall (EAttr (EAttr (EName "self") "printer") "print_file")
                [EName "filename"])]]].

(** solid.py, LSP problem #1: lines 157-165. *)
Definition lsp_problem1 : snippet :=
  mkSnippet LSP Problem 1
    [Class "Rectangle" ["object"] [MPass];
     Class "Square" ["Rectangle"] [MPass];
     Class "ShapeCalculator" ["object"]
       [MDef "calculate_perimeter" ["self"; "shapes"]
          [SReturn
             (EBin OpMul
                (EBin OpMul (ECall (EName "len") [EName "shapes"])
                   (EAttr (EName "shapes") "x"))
                (EInt 2))]]].

(** solid.py, LSP solution #1: lines 170-182. *)
Definition lsp_solution1 : snippet :=
  mkSnippet LSP Solution 1
    [Class "Shape" ["object"]
       [MDef "get_perimeter" ["self"]
          [SReturn
             (EBin OpAdd (EBin OpMul (EAttr (EName "self") "x") (EInt 2))
                (EBin OpMul (EAttr (EName "self") "y") (EInt 2)))]];
     Class "Rectangle" ["Shape"] [MPass];
     Class "Square" ["object"] [MPass];
     Class "ShapeCalculator" ["object"]
       [MDef "calculate_perimeter" ["self"; "shapes"]
          [SReturn
             (ECall (EName "sum")
                [EGen (ECall (EAttr (EName "shape") "get_perimeter") [])
                   "shape"
                   (EName "shapes")])]]].

(** solid.py, LSP problem #2: lines 186-198. *)
Definition lsp_problem2 : snippet :=
  mkSnippet LSP Problem 2
    [Class "Task" ["object"]
       [MAttr "status" ENone;
        MDef "close" ["self"]
          [SAssign (EAttr (EName "self") "status") (EStr "CLOSED")]];
     Class "BasicTask" ["Task"] [MPass];
     Class "ProjectTask" ["Task"]
       [MBroken "close" ["self"]
          [mkLine 197 8
             [TName "if"; TOp "("; TName "self"; TOp "."; TName "status";
              TOp "=="; TStr "STARTED"; TOp ")"];
           mkLine 198 14
             [TName "raise"; TName "Exception"; TOp "(";
              TStr "Cannot close a started Project Task"; TOp ")"; TOp ";"]]]].

(** solid.py, ISP problem #1: lines 205-217. *)
Definition isp_problem1 : snippet :=
  mkSnippet ISP Problem 1
    [Class "Charger" ["object"]
       [MDef "charge_usb1" ["self"]
          [SExpr (ECall (EAttr (EName "IOUSB1") "connect") [EName "phone"])];
        MDef "charge_usb2" ["self"]
          [SExpr (ECall (EAttr (EName "IOUSB2") "connect") [EName "phone"])];
        MDef "charge_apple" ["self"]
          [SExpr (ECall (EAttr (EName "IOAPPLE") "connect") [EName "phone"])]];
     Class "AndroidCharger" ["Charger"] [MPass];
     Class "AppleCharger" ["Charger"] [MPass]].

(** solid.py, ISP solution #1: lines 221-235. *)
Definition isp_solution1 : snippet :=
  mkSnippet ISP Solution 1
    [Class "Charger" ["object"]
       [MDef "connect" ["self"] [SPass];
        MDef "disconnect" ["self"] [SPass];
        MDef "charge" ["self"] [SPass]];
     Class "AndroidCharger" ["object"]
       [MDef "connect" ["self"]
          [SExpr (ECall (EAttr (EName "IOUSB2") "connect") [EName "phone"])]];
     Class "AppleCharger" ["object"]
       [MDef "connect" ["self"]
          [SExpr (ECall (EAttr (EName "IOAPPLE") "connect") [EName "phone"])]]].

(** solid.py, ISP problem #2: lines 240-252. *)
Definition isp_problem2 : snippet :=
  mkSnippet ISP Problem 2
    [Class "CoffeeMachine" ["object"]
       [MDef "brew_filter_coffee" ["self"] [SPass];
        MDef "add_ground_coffee" ["self"] [SPass];
        MDef "brew_espresso" ["self"] [SPass]];
     Class "BasicCoffeeMachine" ["CoffeeMachine"] [MPass];
     Class "EspressoMachine" ["CoffeeMachine"] [MPass]].

(** solid.py, ISP solution #2: lines 256-272. *)
Definition isp_solution2 : snippet :=
  mkSnippet ISP Solution 2
    [Class "CoffeeMachine" ["object"]
       [MDef "add_ground_coffee" ["self"] [SPass]];
     Class "FilterCoffeeMachine" ["CoffeeMachine"]
       [MDef "brew_filter_coffee" ["self"] [SPass]];
     Class "EspressoCoffeeMachine" ["CoffeeMachine"]
       [MDef "brew_espresso" ["self"] [SPass]];
     Class "BasicCoffeeMachine" ["FilterCoffeeMachine"] [MPass];
     Class "EspressoMachine" ["EspressoCoffeeMachine"] [MPass]].

(** solid.py, DIP problem #1: lines 279-290. *)
Definition dip_problem1 : snippet :=
  mkSnippet DIP Problem 1
    [Class "CopyProgram" ["object"]
       [MAttr "devices"
          (EDict
             [(EStr "printer", EName "Printer"); (EStr "disk", EName "Disk")]);
        MDef "__init__" ["self"; "device"]
          [SAssign (EAttr (EName "self") "device") (EName "device")];
        MDef "copy" ["self"]
          [SWith (ECall (EName "ReadKeyboard") []) "c"
             [SIf
                (EBin OpEq (EAttr (EName "self") "device")
                   (ECall (EAttr (EAttr (EName "self") "devices") "get")
                      [EStr "printer"]))
                [SExpr (ECall (EName "WritePrinter") [EName "c"])]
                [SExpr (ECall (EName "WriteDisk") [EName "c"])]]]]].

(** solid.py, DIP solution #1: lines 294-309. *)
Definition dip_solution1 : snippet :=
  mkSnippet DIP Solution 1
    [Class "Reader" ["object"] [MPass];
     Class "Writer" ["object"] [MPass];
     Class "KeyboardReader" ["object"] [MPass];
     Class "PrinterWriter" ["object"] [MPass];
     Class "CopyProgram" ["object"]
       [MDef "copy" ["self"; "reader"; "writer"]
          [SWith (ECall (EName "reader") []) "c"
             [SExpr (ECall (EName "writer") [EName "c"])]]]].

(** solid.py, DIP problem #2: lines 313-331. *)
Definition dip_problem2 : snippet :=
  mkSnippet DIP Problem 2
    [Class "Lamp" ["object"]
       [MDef "turn_on" ["self"] [SPass]; MDef "turn_off" ["self"] [SPass]];
     Class "Button" ["object"]
       [MDef "__init__" ["self"; "lamp"]
          [SAssign (EAttr (EName "self") "lamp") (EName "lamp")];
        MDef "get_physical_state" ["self"] [SPass];
        MDef "detect" ["self"]
          [SAssign (EName "button_on")
             (ECall (EAttr (EName "self") "get_physical_state") []);
           SIf (EName "button_on")
             [SExpr (ECall (EAttr (EAttr (EName "self") "lamp") "turn_on") [])]
             [SExpr
                (ECall (EAttr (EAttr (EName "self") "lamp") "turn_off") [])]]]].

(** solid.py, DIP solution #2: lines 335-359. *)
Definition dip_solution2 : snippet :=
  mkSnippet DIP Solution 2
    [Class "ButtonClient" ["object"]
       [MDef "turn_on" ["self"] [SPass]; MDef "turn_off" ["self"] [SPass]];
     Class "Button" ["object"]
       [MDef "__init__" ["self"; "button_client"]
          [SAssign (EAttr (EName "self") "button_client")
             (EName "button_client")];
        MDef "detect" ["self"]
          [SAssign (EName "button_on")
             (ECall (EAttr (EName "self") "get_state") []);
           SIf (EName "button_on")
             [SExpr
                (ECall
                   (EAttr (EAttr (EName "self") "button_client") "turn_on")
                   [])]
             [SExpr
                (ECall
                   (EAttr (EAttr (EName "self") "button_client") "turn_off")
                   [])]];
        MDef "get_state" ["self"] [SPass]];
     Class "Lamp" ["ButtonClient"] [MPass];
     Class "ButtonImp" ["object"] [MPass]].

Definition file : list snippet :=
  [srp_problem1; srp_solution1; ocp_problem1; ocp_solution1; ocp_problem2;
   ocp_solution2; lsp_problem1; lsp_solution1; lsp_problem2; isp_problem1;
   isp_solution1; isp_problem2; isp_solution2; dip_problem1; dip_solution1;
   dip_problem2; dip_solution2].

End Solid.

Module Talk.

(** solid/talk.py, SRP problem #1: lines 36-47. *)
Definition srp_problem1 : snippet :=
  mkSnippet SRP Problem 1
    [Class "Employee" ["object"]
       [MDef "calculate_pay" ["self"]
          [SReturn (ECall (EAttr (EName "self") "calculate") [])];
        MDef "report_hours" ["self"; "hours"]
          [SReturn
             (EBin OpMul (ECall (EAttr (EName "self") "calculate") [])
                (EName "hours"))];
        MDef "save" ["self"] [SPass];
        MDef "calculate" ["self"] [SPass]]].

(** solid/talk.py, SRP solution #1: lines 51-61. *)
Definition srp_solution1 : snippet :=
  mkSnippet SRP Solution 1
    [Class "PaymentCalculator" ["object"]
       [MDef "calculate_pay" ["self"; "employee"]
          [SReturn
             (ECall (EAttr (EName "self") "calculate") [EName "employee"])]];
     Class "Reporter" ["object"]
       [MDef "report_hours" ["self"; "employee"]
          [SReturn
             (ECall (EAttr (EName "self") "calculate") [EName "employee"])]];
     Class "EmployeeRepository" ["object"]
       [MDef "save" ["self"; "employee"] [SPass]]].

(** solid/talk.py, SRP problem #2: lines 65-73. *)
Definition srp_problem2 : snippet :=
  mkSnippet SRP Problem 2
    [Class "Modem" ["object"]
       [MDef "dial" ["self"; "pno"] [SPass];
        MDef "hangup" ["self"] [SPass];
        MDef "send" ["self"; "c"] [SPass];
        MDef "recv" ["self"] [SPass]]].

(** solid/talk.py, SRP solution #2: lines 77-92. *)
Definition srp_solution2 : snippet :=
  mkSnippet SRP Solution 2
    [FromImport "abc" "ABC";
     Class "DataChannel" ["ABC"]
       [MDef "send" ["self"; "c"] [SPass]; MDef "recv" ["self"] [SPass]];
     Class "Connection" ["ABC"]
       [MDef "dial" ["self"; "pno"] [SPass]; MDef "hangup" ["self"] [SPass]];
     Class "Modem" ["DataChannel"; "Connection"] [MPass]].

(** solid/talk.py, OCP problem #1: lines 110-126. *)
Definition ocp_problem1 : snippet :=
  mkSnippet OCP Problem 1
    [Class "Operation" ["object"]
       [MDef "__init__" ["self"; "x"; "y"]
          [SAssign (EAttr (EName "self") "x") (EName "x");
           SAssign (EAttr (EName "self") "y") (EName "y")]];
     Class "Addition" ["Operation"] [MPass];
     Class "Subtraction" ["Operation"] [MPass];
     Class "BasicCalculator" ["Calculator"]
       [MDef "calculate" ["self"; "operation"]
          [SIf
             (ECall (EName "isinstance")
                [EName "operation"; EName "Addition"])
             [SReturn
                (EBin OpAdd (EAttr (EName "operation") "x")
                   (EAttr (EName "operation") "y"))]
             [SIf
                (ECall (EName "isinstance")
                   [EName "operation"; EName "Subtraction"])
                [SReturn
                   (EBin OpSub (EAttr (EName "operation") "x")
                      (EAttr (EName "operation") "y"))]
                []]]]].

(** solid/talk.py, OCP solution #1: lines 130-145. *)
Definition ocp_solution1 : snippet :=
  mkSnippet OCP Solution 1
    [Class "Operation" ["object"]
       [MDef "__init__" ["self"; "x"; "y"]
          [SAssign (EAttr (EName "self") "x") (EName "x");
           SAssign (EAttr (EName "self") "y") (EName "y")]];
     Class "Addition" ["Operation"]
       [MDef "peform_operation" ["self"]
          [SReturn
             (EBin OpAdd (EAttr (EName "self") "x")
                (EAttr (EName "self") "y"))]];
     Class "Subtraction" ["Operation"]
       [MDef "peform_operation" ["self"]
          [SReturn
             (EBin OpSub (EAttr (EName "self") "x")
                (EAttr (EName "self") "y"))]];
     Class "BasicCalculator" ["Calculator"]
       [MDef "calculate" ["self"; "operation"]
          [SReturn (ECall (EAttr (EName "operation") "perform_operation") [])]]].

(** solid/talk.py, OCP problem #2: lines 149-168. *)
Definition ocp_problem2 : snippet :=
  mkSnippet OCP Problem 2
    [Class "Printer" ["object"] [MDef "print" ["self"; "filename"] [SPass]];
     Class "ColorPrinter" ["Printer"]
       [MDef "print" ["self"; "filename"]
          [SExpr
             (ECall (EAttr (EName "HPLASER") "print_file") [EName "filename"])]];
     Class "BWPrinter" ["Printer"]
       [MDef "print" ["self"; "filename"]
          [SExpr
             (ECall (EAttr (EName "HPINKJET") "print_file")
                [EName "filename"])]];
     Class "ReportGenerator" ["object"]
       [MBroken "print" ["self"; "filename"; "ink_type"]
          [mkLine 163 8
             [TName "if"; TName "ink_type"; TOp "=="; TStr "BLACK"; TOp ":"];
           mkLine 164 12
             [TName "BWPrinter"; TOp "."; TName "print_file"; TOp "(";
              TName "filename"; TOp ")"];
           mkLine 165 8
             [TName "else"; TName "ink_type"; TOp "=="; TStr "COLOR"; TOp ":"];
           mkLine 166 12
             [TName "ColorPrinter"; TOp "."; TName "print_file"; TOp "(";
              TName "filename"; TOp ")"];
           mkLine 167 8 [TName "else"; TOp ":"];
           mkLine 168 12
             [TName "raise"; TName "BaseException"; TOp "(";
              TStr "There is no printer for that type"; TOp ")"]]]].

(** solid/talk.py, OCP solution #2: lines 172-189. *)
Definition ocp_solution2 : snippet :=
  mkSnippet OCP Solution 2
    [Class "Printer" ["object"] [MDef "print" ["self"; "filename"] [SPass]];
     Class "ColorPrinter" ["Printer"]
       [MDef "print" ["self"; "filename"]
          [SExpr
             (ECall (EAttr (EName "HPLASER") "print_file") [EName "filename"])]];
     Class "BWPrinter" ["Printer"]
       [MDef "print" ["self"; "filename"]
          [SExpr
             (ECall (EAttr (EName "HPINKJET") "print_file")
                [EName "filename"])]];
     Class "ReportGenerator" ["object"]
       [MDef "__init__" ["self"; "printer"]
          [SAssign (EAttr (EName "self") "printer") (EName "printer")];
        MDef "print" ["self"; "filename"]
          [SExpr
             (ECall (EAttr (EAttr (EName "self") "printer") "print_file")
                [EName "filename"])]]].

(** solid/talk.py, OCP problem #3: lines 193-204. *)
Definition ocp_problem3 : snippet :=
  mkSnippet OCP Problem 3
    [Class "Circle" ["object"] [MPass];
     Class "Square" ["object"] [MPass];
     Def "draw_all_shapes" ["shapes"]
       [SFor "shape" (EName "shapes")
          [SIf (ECall (EName "isinstance") [EName "shape"; EName "Square"])
             [SExpr (ECall (EName "draw_square") [EName "shape"])]
             [];
           SIf (ECall (EName "isinstance") [EName "shape"; EName "Circle"])
             [SExpr (ECall (EName "draw_circle") [EName "shape"])]
             []]]].

(** solid/talk.py, OCP solution #3: lines 208-220. *)
Definition ocp_solution3 : snippet :=
  mkSnippet OCP Solution 3
    [Class "Shape" ["object"] [MDef "draw" ["self"] [SPass]];
     Class "Circle" ["Shape"] [MPass];
     Class "Square" ["Shape"] [MPass];
     Def "draw_all_shapes" ["shapes"]
       [SFor "shape" (EName "shapes")
          [SExpr (ECall (EAttr (EName "shape") "draw") [])]]].

(** solid/talk.py, LSP problem #1: lines 276-298. *)
Definition lsp_problem1 : snippet :=
  mkSnippet LSP Problem 1
    [Class "Rectangle" ["object"]
       [MAttr "width" ENone;
        MAttr "height" ENone;
        MDef "set_width" ["self"; "w"]
          [SAssign (EAttr (EName "self") "width") (EName "w")];
        MDef "set_height" ["self"; "h"]
          [SAssign (EAttr (EName "self") "height") (EName "h")]];
     Class "Square" ["Rectangle"]
       [MDef "set_width" ["self"; "w"]
          [SAssign (EAttr (EName "self") "width") (EName "w");
           SExpr (ECall (EName "set_height") [EName "w"])];
        MDef "set_height" ["self"; "h"]
          [SAssign (EAttr (EName "self") "height") (EName "h");
           SExpr (ECall (EName "set_width") [EName "h"])]];
     Def "g" ["rectangle"]
       [SExpr (ECall (EAttr (EName "rectangle") "set_width") [EInt 5]);
        SExpr (ECall (EAttr (EName "rectangle") "set_height") [EInt 3])]].

(** solid/talk.py, LSP solution #1: lines 302-332. *)
Definition lsp_solution1 : snippet :=
  mkSnippet LSP Solution 1
    [Class "Quadrilateral" ["object"]
       [MAttr "x1" ENone;
        MAttr "x2" ENone;
        MAttr "y1" ENone;
        MAttr "y2" ENone;
        MAttr "width" ENone;
        MAttr "height" ENone;
        MDef "set_x1" ["self"; "x1"]
          [SAssign (EAttr (EName "self") "x1") (EName "x1")];
        MDef "get_width" ["self"]
          [SReturn
             (EBin OpSub (EAttr (EName "self") "x2")
                (EAttr (EName "self") "x1"))];
        MDef "get_height" ["self"]
          [SReturn
             (EBin OpSub (EAttr (EName "self") "y2")
                (EAttr (EName "self") "y1"))]];
     Class "Rectangle" ["Quadrilateral"] [MPass];
     Class "Square" ["Quadrilateral"] [MPass];
     Def "g" ["rectangle"]
       [SExpr (ECall (EAttr (EName "rectangle") "set_x1") [EInt 10]);
        SExpr (ECall (EAttr (EName "rectangle") "set_x2") [EInt 5]);
        SExpr (ECall (EAttr (EName "rectangle") "set_y1") [EInt 6]);
        SExpr (ECall (EAttr (EName "rectangle") "set_y2") [EInt 3])]].

(** solid/talk.py, LSP problem #2: lines 337-350. *)
Definition lsp_problem2 : snippet :=
  mkSnippet LSP Problem 2
    [Class "Task" ["object"]
       [MAttr "status" ENone;
        MDef "close" ["self"]
          [SAssign (EAttr (EName "self") "status") (EStr "CLOSED")]];
     Class "BasicTask" ["Task"] [MPass];
     Class "ProjectTask" ["Task"]
       [MDef "close" ["self"]
          [SIf (EBin OpEq (EAttr (EName "self") "status") (EStr "STARTED"))
             [SRaise (ECall (EName "Exception") [EStr "Cannot close Task"])]
             [];
           SExpr (ECall (EAttr (ECall (EName "super") []) "close") [])]]].

(** solid/talk.py, LSP solution #2: lines 354-370. *)
Definition lsp_solution2 : snippet :=
  mkSnippet LSP Solution 2
    [Class "Task" ["object"]
       [MAttr "status" ENone;
        MDef "can_close" ["self"] [SReturn ETrue];
        MDef "close" ["self"]
          [SIf (ECall (EAttr (EName "self") "can_close") [])
             [SAssign (EAttr (EName "self") "status") (EStr "CLOSED")]
             [];
           SRaise (ECall (EName "Exception") [EStr "Cannot close Task"])]];
     Class "BasicTask" ["Task"] [MPass];
     Class "ProjectTask" ["Task"]
       [MDef "can_close" ["self"]
          [SReturn
             (EBin OpEq (EAttr (EName "self") "status") (EStr "STARTED"))]]].

(** solid/talk.py, LSP problem #3: lines 376-386. *)
Definition lsp_problem3 : snippet :=
  mkSnippet LSP Problem 3
    [Class "ImmutablePoint" ["object"]
       [MDef "__init__" ["self"; "x"; "y"]
          [SAssign (EAttr (EName "self") "x") (EName "x");
           SAssign (EAttr (EName "self") "y") (EName "y")]];
     Class "MutablePoint" ["ImmutablePoint"]
       [MDef "set_x" ["self"; "x"]
          [SAssign (EAttr (EName "self") "x") (EName "x")];
        MDef "set_y" ["self"; "y"]
          [SAssign (EAttr (EName "self") "y") (EName "y")]]].

(** solid/talk.py, LSP solution #3: lines 390-403. *)
Definition lsp_solution3 : snippet :=
  mkSnippet LSP Solution 3
    [Class "Point" ["object"]
       [MDef "__init__" ["self"; "x"; "y"]
          [SAssign (EAttr (EName "self") "x") (EName "x");
           SAssign (EAttr (EName "self") "y") (EName "y")]];
     Class "ImmutablePoint" ["Point"] [MPass];
     Class "MutablePoint" ["Point"]
       [MDef "set_x" ["self"; "x"]
          [SAssign (EAttr (EName "self") "x") (EName "x")];
        MDef "set_y" ["self"; "y"]
          [SAssign (EAttr (EName "self") "y") (EName "y")]]].

(** solid/talk.py, ISP problem #1: lines 412-424. *)
Definition isp_problem1 : snippet :=
  mkSnippet ISP Problem 1
    [Class "Charger" ["object"]
       [MDef "charge_usb1" ["self"]
          [SExpr (ECall (EAttr (EName "IOUSB1") "connect") [EName "phone"])];
        MDef "charge_usb2" ["self"]
          [SExpr (ECall (EAttr (EName "IOUSB2") "connect") [EName "phone"])];
        MDef "charge_apple" ["self"]
          [SExpr (ECall (EAttr (EName "IOAPPLE") "connect") [EName "phone"])]];
     Class "AndroidCharger" ["Charger"] [MPass];
     Class "AppleCharger" ["Charger"] [MPass]].

(** solid/talk.py, ISP solution #1: lines 428-442. *)
Definition isp_solution1 : snippet :=
  mkSnippet ISP Solution 1
    [Class "Charger" ["object"]
       [MDef "connect" ["self"] [SPass];
        MDef "disconnect" ["self"] [SPass];
        MDef "charge" ["self"] [SPass]];
     Class "AndroidCharger" ["Charger"]
       [MDef "connect" ["self"]
          [SExpr (ECall (EAttr (EName "IOUSB2") "connect") [EName "phone"])]];
     Class "AppleCharger" ["Charger"]
       [MDef "connect" ["self"]
          [SExpr (ECall (EAttr (EName "IOAPPLE") "connect") [EName "phone"])]]].

(** solid/talk.py, ISP problem #2: lines 446-458. *)
Definition isp_problem2 : snippet :=
  mkSnippet ISP Problem 2
    [Class "CoffeeMachine" ["object"]
       [MDef "brew_filter_coffee" ["self"] [SPass];
        MDef "add_ground_coffee" ["self"] [SPass];
        MDef "brew_espresso" ["self"] [SPass]];
     Class "BasicCoffeeMachine" ["CoffeeMachine"] [MPass];
     Class "EspressoMachine" ["CoffeeMachine"] [MPass]].

(** solid/talk.py, ISP solution #2: lines 462-478. *)
Definition isp_solution2 : snippet :=
  mkSnippet ISP Solution 2
    [Class "CoffeeMachine" ["object"]
       [MDef "add_ground_coffee" ["self"] [SPass]];
     Class "FilterCoffeeMachine" ["CoffeeMachine"]
       [MDef "brew_filter_coffee" ["self"] [SPass]];
     Class "EspressoCoffeeMachine" ["CoffeeMachine"]
       [MDef "brew_espresso" ["self"] [SPass]];
     Class "BasicCoffeeMachine" ["FilterCoffeeMachine"] [MPass];
     Class "EspressoMachine" ["EspressoCoffeeMachine"] [MPass]].

(** solid/talk.py, DIP problem #1: lines 489-500. *)
Definition dip_problem1 : snippet :=
  mkSnippet DIP Problem 1
    [Class "CopyProgram" ["object"]
       [MAttr "devices"
          (EDict
             [(EStr "printer", EName "Printer"); (EStr "disk", EName "Disk")]);
        MDef "__init__" ["self"; "device"]
          [SAssign (EAttr (EName "self") "device") (EName "device")];
        MDef "copy" ["self"]
          [SWith (ECall (EName "ReadKeyboard") []) "c"
             [SIf
                (EBin OpEq (EAttr (EName "self") "device")
                   (ECall (EAttr (EAttr (EName "self") "devices") "get")
                      [EStr "printer"]))
                [SExpr (ECall (EName "WritePrinter") [EName "c"])]
                [SExpr (ECall (EName "WriteDisk") [EName "c"])]]]]].

(** solid/talk.py, DIP solution #1: lines 504-521. *)
Definition dip_solution1 : snippet :=
  mkSnippet DIP Solution 1
    [FromImport "abc" "ABC";
     Class "Reader" ["ABC"] [MPass];
     Class "Writer" ["ABC"] [MPass];
     Class "KeyboardReader" ["object"] [MPass];
     Class "PrinterWriter" ["object"] [MPass];
     Class "CopyProgram" ["object"]
       [MDef "copy" ["self"; "reader"; "writer"]
          [SWith (ECall (EName "reader") []) "c"
             [SExpr (ECall (EName "writer") [EName "c"])]]]].

(** solid/talk.py, DIP problem #2: lines 525-543. *)
Definition dip_problem2 : snippet :=
  mkSnippet DIP Problem 2
    [Class "Lamp" ["object"]
       [MDef "turn_on" ["self"] [SPass]; MDef "turn_off" ["self"] [SPass]];
     Class "Button" ["object"]
       [MDef "__init__" ["self"; "lamp"]
          [SAssign (EAttr (EName "self") "lamp") (EName "lamp")];
        MDef "get_physical_state" ["self"] [SPass];
        MDef "detect" ["self"]
          [SAssign (EName "button_on")
             (ECall (EAttr (EName "self") "get_physical_state") []);
           SIf (EName "button_on")
             [SExpr (ECall (EAttr (EAttr (EName "self") "lamp") "turn_on") [])]
             [SExpr
                (ECall (EAttr (EAttr (EName "self") "lamp") "turn_off") [])]]]].

(** solid/talk.py, DIP solution #2: lines 547-573. *)
Definition dip_solution2 : snippet :=
  mkSnippet DIP Solution 2
    [FromImport "abc" "ABC";
     Class "ButtonClient" ["ABC"]
       [MDef "turn_on" ["self"] [SPass]; MDef "turn_off" ["self"] [SPass]];
     Class "Button" ["object"]
       [MDef "__init__" ["self"; "button_client"]
          [SAssign (EAttr (EName "self") "button_client")
             (EName "button_client")];
        MDef "detect" ["self"]
          [SAssign (EName "button_on")
             (ECall (EAttr (EName "self") "get_state") []);
           SIf (EName "button_on")
             [SExpr
                (ECall
                   (EAttr (EAttr (EName "self") "button_client") "turn_on")
                   [])]
             [SExpr
                (ECall
                   (EAttr (EAttr (EName "self") "button_client") "turn_off")
                   [])]];
        MDef "get_state" ["self"] [SPass]];
     Class "Lamp" ["ButtonClient"] [MPass];
     Class "ButtonImp" ["object"] [MPass]].

Definition file : list snippet :=
  [srp_problem1; srp_solution1; srp_problem2; srp_solution2; ocp_problem1;
   ocp_solution1; ocp_problem2; ocp_solution2; ocp_problem3; ocp_solution3;
   lsp_problem1; lsp_solution1; lsp_problem2; lsp_solution2; lsp_problem3;
   lsp_solution3; isp_problem1; isp_solution1; isp_problem2; isp_solution2;
   dip_problem1; dip_solution1; dip_problem2; dip_solution2].

End Talk.

(** ** Reading the files: names, methods, resolution, compilation *)

Module Program.

Import Lex Ast Grammar.

(** The names of Python's [builtins] module. *)
Definition builtins : list string :=
  ["ArithmeticError"; "AssertionError"; "AttributeError"; "BaseException";
   "BaseExceptionGroup"; "BlockingIOError"; "BrokenPipeError"; "BufferError";
   "BytesWarning"; "ChildProcessError"; "ConnectionAbortedError";
   "ConnectionError"; "ConnectionRefusedError"; "ConnectionResetError";
   "DeprecationWarning"; "EOFError"; "Ellipsis"; "EncodingWarning";
   "EnvironmentError"; "Exception"; "ExceptionGroup"; "False";
   "FileExistsError"; "FileNotFoundError"; "FloatingPointError";
   "FutureWarning"; "GeneratorExit"; "IOError"; "ImportError";
   "ImportWarning"; "IndentationError"; "IndexError"; "InterruptedError";
   "IsADirectoryError"; "KeyError"; "KeyboardInterrupt"; "LookupError";
   "MemoryError"; "ModuleNotFoundError"; "NameError"; "None";
   "NotADirectoryError"; "NotImplemented"; "NotImplementedError"; "OSError";
   "OverflowError"; "PendingDeprecationWarning"; "PermissionError";
   "ProcessLookupError"; "RecursionError"; "ReferenceError";
   "ResourceWarning"; "RuntimeError"; "RuntimeWarning";
   "StopAsyncIteration"; "StopIteration"; "SyntaxError"; "SyntaxWarning";
   "SystemError"; "SystemExit"; "TabError"; "TimeoutError"; "True";
   "TypeError"; "UnboundLocalError"; "UnicodeDecodeError";
   "UnicodeEncodeError"; "UnicodeError"; "UnicodeTranslateError";
   "UnicodeWarning"; "UserWarning"; "ValueError"; "Warning";
   "ZeroDivisionError"; "abs"; "aiter"; "all"; "anext"; "any"; "ascii";
   "bin"; "bool"; "breakpoint"; "bytearray"; "bytes"; "callable"; "chr";
   "classmethod"; "compile"; "complex"; "copyright"; "credits"; "delattr";
   "dict"; "dir"; "divmod"; "enumerate"; "eval"; "exec"; "exit"; "filter";
   "float"; "format"; "frozenset"; "getattr"; "globals"; "hasattr"; "hash";
   "help"; "hex"; "id"; "input"; "int"; "isinstance"; "issubclass"; "iter";
   "len"; "license"; "list"; "locals"; "map"; "max"; "memoryview"; "min";
   "next"; "object"; "oct"; "open"; "ord"; "pow"; "print"; "property";
   "quit"; "range"; "repr"; "reversed"; "round"; "set"; "setattr"; "slice";
   "sorted"; "staticmethod"; "str"; "sum"; "super"; "tuple"; "type"; "vars";
   "zip"].

Definition member_name_of (m : member) : option string :=
  match m with
  | MPass => None
  | MAttr n _ => Some n
  | MDef n _ _ => Some n
  | MBroken n _ _ => Some n
  end.

Definition bound_name (it : item) : string :=
  match it with
  | Class n _ _ => n
  | Def n _ _ => n
  | FromImport _ n => n
  end.

(** Every name some top-level statement of the file binds: the most a
    method of the file can find in its module's globals. *)
Definition module_names (f : list snippet) : list string :=
  flat_map (fun s => map bound_name (sitems s)) f.

Definition is_bound (f : list snippet) (x : string) : bool :=
  existsb (String.eqb x) (module_names f ++ builtins).

Definition class_names (f : list snippet) : list string :=
  flat_map (fun s =>
    flat_map (fun it =>
      match it with Class n _ _ => [n] | _ => [] end) (sitems s)) f.

Definition defines_class (f : list snippet) (c : string) : bool :=
  existsb (String.eqb c) (class_names f).

(** A method that parses, with the class it is written in. *)
Record method : Type := mkMethod {
  mclass : string;
  mname : string;
  mparams : list string;
  mbody : list stmt }.

Definition methods_of_item (it : item) : list method :=
  match it with
  | Class c _ ms =>
      flat_map (fun m =>
        match m with
        | MDef n ps b => [mkMethod c n ps b]
        | _ => []
        end) ms
  | _ => []
  end.


(** The bodies that do not parse, in file order. *)
Definition broken_bodies (f : list snippet) : list (list line) :=
  flat_map (fun s =>
    flat_map (fun it =>
      match it with
      | Class _ _ ms =>
          flat_map (fun m =>
            match m with MBroken _ _ b => [b] | _ => [] end) ms
      | _ => []
      end) (sitems s)) f.

Fixpoint first_error (bs : list (list line)) : verdict :=
  match bs with
  | [] => Accept
  | b :: bs' =>
      match check_body b with
      | Accept => first_error bs'
      | bad => bad
      end
  end.

(** Python compiles a file as a whole before it runs its first
    statement: the file compiles when every body in it does. *)
Definition compile (f : list snippet) : verdict :=
  first_error (broken_bodies f).

(** Names an expression reads when it is evaluated, in order. *)
Fixpoint names_read (e : expr) : list string :=
  match e with
  | EName x => [x]
  | EAttr e' _ => names_read e'
  | ECall f args => names_read f ++ flat_map names_read args
  | EBin _ l r => names_read l ++ names_read r
  | EDict items =>
      flat_map (fun kv => names_read (fst kv) ++ names_read (snd kv)) items
  | EGen _ _ iter => names_read iter
  | _ => []
  end.

Definition first_unbound (bound xs : list string) : option string :=
  find (fun x => negb (existsb (String.eqb x) bound)) xs.

(** Running a class body binds its attributes in a namespace of its
    own, over the module's; the bodies of its methods do not run. *)
Fixpoint exec_members (bound : list string) (ms : list member)
  : option string :=
  match ms with
  | [] => None
  | MAttr n e :: ms' =>
      match first_unbound bound (names_read e) with
      | Some x => Some x
      | None => exec_members (n :: bound) ms'
      end
  | m :: ms' =>
      match member_name_of m with
      | Some n => exec_members (n :: bound) ms'
      | None => exec_members bound ms'
      end
  end.

Inductive load_error : Type :=
| NotCompiled (line : nat)   (* SyntaxError, before any statement runs *)
| Unbound (name : string).   (* NameError while the statements run *)

(** Runs the top-level statements in order; returns the names bound
    when it stops and the error that stopped it. *)
Fixpoint exec_items (bound : list string) (its : list item)
  : list string * option load_error :=
  match its with
  | [] => (bound, None)
  | Class n bases ms :: its' =>
      match first_unbound (bound ++ builtins) bases with
      | Some x => (bound, Some (Unbound x))
      | None =>
          match exec_members (bound ++ builtins) ms with
          | Some x => (bound, Some (Unbound x))
          | None => exec_items (bound ++ [n]) its'
          end
      end
  | it :: its' => exec_items (bound ++ [bound_name it]) its'
  end.

Definition run_module (f : list snippet) : list string * option load_error :=
  match compile f with
  | SyntaxError n => ([], Some (NotCompiled n))
  | Accept => exec_items [] (flat_map sitems f)
  end.

(** *** Attribute resolution in a snippet *)

Definition named (a : string) (m : member) : bool :=
  match member_name_of m with
  | Some n => String.eqb n a
  | None => false
  end.

(** The last binding of [a] in a class body wins. *)
Definition own (ms : list member) (a : string) : option member :=
  find (named a) (rev ms).

(** The first base, from left to right, on which [look] finds
    something. *)
Fixpoint through {A : Type} (look : string -> option A) (bs : list string)
  : option A :=
  match bs with
  | [] => None
  | b :: bs' =>
      match look b with
      | Some m => Some m
      | None => through look bs'
      end
  end.

(** [lookup_def env c a] resolves attribute [a] on class [c], where
    [env] lists the definitions made so far, the latest first: the
    class's own body, then its bases from left to right, each resolved
    among the definitions older than the class.  It returns the class
    the attribute is written in with its definition.  The hierarchies of
    the snippets have no diamond, so this is Python's resolution order
    on them. *)
Fixpoint lookup_def (env : list item) (c a : string)
  : option (string * member) :=
  match env with
  | [] => None
  | Class c' bases ms :: older =>
      if String.eqb c' c then
        match own ms a with
        | Some m => Some (c', m)
        | None => through (fun b => lookup_def older b a) bases
        end
      else lookup_def older c a
  | _ :: older => lookup_def older c a
  end.

Definition lookup (env : list item) (c a : string) : option member :=
  option_map snd (lookup_def env c a).

(** [super().a] inside a method written in class [c]: the bases of
    [c], not [c] itself. *)
Fixpoint lookup_super (env : list item) (c a : string)
  : option (string * member) :=
  match env with
  | [] => None
  | Class c' bases ms :: older =>
      if String.eqb c' c then through (fun b => lookup_def older b a) bases
      else lookup_super older c a
  | _ :: older => lookup_super older c a
  end.

Definition resolve_def (s : snippet) (c a : string)
  : option (string * member) :=
  lookup_def (rev (sitems s)) c a.

Definition resolve (s : snippet) (c a : string) : option member :=
  lookup (rev (sitems s)) c a.

Definition resolve_super (s : snippet) (c a : string)
  : option (string * member) :=
  lookup_super (rev (sitems s)) c a.

(** *** Headings *)

Definition principle_eqb (p q : principle) : bool :=
  match p, q with
  | SRP, SRP | OCP, OCP | LSP, LSP | ISP, ISP | DIP, DIP => true
  | _, _ => false
  end.

Definition kind_eqb (k l : kind) : bool :=
  match k, l with
  | Problem, Problem | Solution, Solution => true
  | _, _ => false
  end.

Definition heading : Type := principle * kind * nat.

Definition heading_of (s : snippet) : heading :=
  (sprinciple s, skind s, snumber s).

Definition heading_eqb (h k : heading) : bool :=
  let '(p, a, n) := h in
  let '(q, b, m) := k in
  (principle_eqb p q && kind_eqb a b && Nat.eqb n m)%bool.

(** The snippet of a file under a given heading. *)
Definition snippet_at (f : list snippet) (h : heading) : option snippet :=
  find (fun s => heading_eqb (heading_of s) h) f.

Definition headings (f : list snippet) : list heading := map heading_of f.

(** Line numbers are positions in one file; comparing snippets across
    files goes through [unnumbered]. *)
Definition unnumbered_member (m : member) : member :=
  match m with
  | MBroken n ps b =>
      MBroken n ps (map (fun l => mkLine 0 (indent l) (toks l)) b)
  | _ => m
  end.

Definition unnumbered_item (it : item) : item :=
  match it with
  | Class n bs ms => Class n bs (map unnumbered_member ms)
  | _ => it
  end.

Definition unnumbered (s : snippet) : snippet :=
  mkSnippet (sprinciple s) (skind s) (snumber s)
            (map unnumbered_item (sitems s)).

(** *** Shapes of method bodies *)








End Program.

(** ** Run-time model *)

Module Py.

Definition loc := nat.

(** Python values the snippets manipulate.  [VGlobal] is the value bound
    to a module-level or builtin name (a class or a function object). *)
Inductive value : Type :=
| VNone
| VBool (b : bool)
| VInt (n : Z)
| VStr (s : string)
| VRef (l : loc)
| VGlobal (name : string).

Inductive exn : Type :=
| NameError (name : string)
| AttributeError (attr : string)
| TypeError (what : string)
| RecursionError
| Exception_ (msg : string)
| BaseException_ (msg : string)
| NotModelled (construct : string).

(** An instance: its class and its [__dict__]. *)
Record object : Type := mkObject { ocls : string; oattrs : gmap string value }.

(** What a method does to its collaborators: calls of a callable, and
    method invocations on another object. *)
Inductive event : Type :=
| Called (callee : value) (args : list value)
| Invoke (target : value) (meth : string) (args : list value).

Record world : Type := mkWorld { heap : gmap loc object; trace : list event }.

(** The static surroundings of a method: the names the module binds
    (with the builtins), and the data attributes set in class bodies,
    already resolved along the bases of each class. *)
Record pyenv : Type := mkEnv {
  globals : string -> option value;
  class_attr : string -> string -> option value }.

Inductive outcome (A : Type) : Type :=
| Ok (a : A)
| Raise (e : exn).
Arguments Ok {A} a.
Arguments Raise {A} e.

(** A raised exception does not roll the world back. *)
Definition M (A : Type) : Type := pyenv -> world -> outcome A * world.

Definition ret {A} (a : A) : M A := fun _ w => (Ok a, w).

Definition bind {A B} (c : M A) (k : A -> M B) : M B :=
  fun env w =>
    match c env w with
    | (Ok a, w') => k a env w'
    | (Raise e, w') => (Raise e, w')
    end.

Definition raise {A} (e : exn) : M A := fun _ w => (Raise e, w).

Definition skip : M value := ret VNone.

(** [attempt c] runs [c] and hands its outcome back, as [with] needs
    it to run [__exit__] either way. *)
Definition attempt {A} (c : M A) : M (outcome A) :=
  fun env w => let (r, w') := c env w in (Ok r, w').

Definition log (e : event) : M unit :=
  fun _ w => (Ok tt, mkWorld (heap w) (trace w ++ [e])).

(** A bare name that is not a local: module globals, then builtins. *)
Definition global (name : string) : M value :=
  fun env w =>
    match globals env name with
    | Some v => (Ok v, w)
    | None => (Raise (NameError name), w)
    end.

(** Attribute read without effects: instance dictionary first, then the
    class.  Method names are resolved on the class by the translation
    itself, so only data attributes go through here. *)
Definition read_attr (env : pyenv) (w : world) (v : value) (a : string)
  : option value :=
  match v with
  | VRef l =>
      match heap w !! l with
      | Some o =>
          match oattrs o !! a with
          | Some x => Some x
          | None => class_attr env (ocls o) a
          end
      | None => None
      end
  | _ => None
  end.

Definition getattr (v : value) (a : string) : M value :=
  fun env w =>
    match read_attr env w v a with
    | Some x => (Ok x, w)
    | None => (Raise (AttributeError a), w)
    end.

Definition store_attr (w : world) (l : loc) (o : object) (a : string)
  (x : value) : world :=
  mkWorld (<[l := mkObject (ocls o) (<[a := x]> (oattrs o))]> (heap w))
          (trace w).

Definition setattr (v : value) (a : string) (x : value) : M value :=
  fun _ w =>
    match v with
    | VRef l =>
        match heap w !! l with
        | Some o => (Ok VNone, store_attr w l o a x)
        | None => (Raise (AttributeError a), w)
        end
    | _ => (Raise (AttributeError a), w)
    end.

(** The class of an instance on the heap, for the dispatch of a method;
    [None] for any other value. *)
Definition class_of (v : value) : M (option string) :=
  fun _ w =>
    match v with
    | VRef l => (Ok (ocls <$> heap w !! l), w)
    | _ => (Ok None, w)
    end.

Definition instance_of (name : string) (c : option string) : bool :=
  match c with
  | Some n => String.eqb n name
  | None => false
  end.

(** Numbers are Python ints; [bool] is a subclass of [int]. *)
Definition as_int (v : value) : option Z :=
  match v with
  | VInt n => Some n
  | VBool b => Some (if b then 1 else 0)
  | _ => None
  end.

Definition arith (sym : string) (op : Z -> Z -> Z) (a b : value) : M value :=
  match as_int a, as_int b with
  | Some x, Some y => ret (VInt (op x y))
  | _, _ => raise (TypeError sym)
  end.

Definition py_add (a b : value) : M value :=
  match a, b with
  | VStr s, VStr t => ret (VStr (String.append s t))
  | _, _ => arith "+" Z.add a b
  end.

Definition py_sub : value -> value -> M value := arith "-" Z.sub.

Definition py_mul : value -> value -> M value := arith "*" Z.mul.

(** [a == b] with the default [__eq__]: numbers by value, strings by
    contents, [None] with itself, objects by identity. *)
Definition py_eq (a b : value) : bool :=
  match as_int a, as_int b with
  | Some x, Some y => Z.eqb x y
  | _, _ =>
      match a, b with
      | VNone, VNone => true
      | VStr s, VStr t => String.eqb s t
      | VRef l, VRef k => Nat.eqb l k
      | VGlobal s, VGlobal t => String.eqb s t
      | _, _ => false
      end
  end.

(** Truth value: [None], [False], [0] and the empty string are false. *)
Definition truthy (v : value) : bool :=
  match v with
  | VNone => false
  | VBool b => b
  | VInt n => negb (Z.eqb n 0)
  | VStr s => negb (String.eqb s "")
  | VRef _ | VGlobal _ => true
  end.

(** The collaborators of a method: the callables it calls and the
    objects, other than [self], whose methods it calls.  What calling
    one does is left open (a [Lamp] of the snippet, a mock, a device):
    the properties hold whatever they do. *)
Class Externals : Type := {
  call : value -> list value -> M value;
  call_method : value -> string -> list value -> M value }.

(** Collaborators that do nothing and return [None], as the methods
    of the snippets whose body is [pass]. *)
Definition inert : Externals := {|
  call _ _ := ret VNone;
  call_method _ _ _ := ret VNone |}.

(** Collaborators that only leave a trace and return [None]. *)
Definition recording : Externals := {|
  call f args := bind (log (Called f args)) (fun _ => ret VNone);
  call_method t m args := bind (log (Invoke t m args)) (fun _ => ret VNone) |}.

(** [with mgr as c: body]: [__enter__], the body, then [__exit__] on
    every path; a true result of [__exit__] swallows the exception.
    The arguments of [__exit__] are left out. *)
Definition with_ `{Externals} (mgr : value) (body : value -> M value)
  : M value :=
  bind (call_method mgr "__enter__" []) (fun c =>
  bind (attempt (body c)) (fun r =>
  bind (call_method mgr "__exit__" []) (fun x =>
  match r with
  | Ok _ => ret VNone
  | Raise e => if truthy x then ret VNone else raise e
  end))).

Module Notations.
  Notation "x <- c1 ;; c2" := (bind c1 (fun x => c2))
    (at level 100, c1 at next level, right associativity).
  Notation "c1 ;; c2" := (bind c1 (fun _ => c2))
    (at level 100, right associativity).
End Notations.

End Py.

Import Py Py.Notations.

(** ** From a snippet to the surroundings of its methods *)

Module Env.

Import Ast Program.

Definition literal (e : expr) : option value :=
  match e with
  | ENone => Some VNone
  | ETrue => Some (VBool true)
  | EFalse => Some (VBool false)
  | EInt n => Some (VInt n)
  | EStr s => Some (VStr s)
  | _ => None
  end.

(** A data attribute set in a class body, found along the bases. *)
Definition class_attr_of (s : snippet) (c a : string) : option value :=
  match resolve s c a with
  | Some (MAttr _ e) => literal e
  | _ => None
  end.

(** A global name is bound when the file binds it at top level or it is
    a builtin. *)
Definition globals_of (f : list snippet) (x : string) : option value :=
  if is_bound f x then Some (VGlobal x) else None.

Definition env_of (f : list snippet) (s : snippet) : pyenv :=
  mkEnv (globals_of f) (class_attr_of s).

End Env.

(** ** The meaning of a parsed body

    A definitional interpreter for the statements and expressions of
    the snippets, over the same monad and the same primitives as the
    hand translations below, which it validates method by method.
    Iteration, dict displays and generator expressions are not
    interpreted. *)

Module Interp.

Import Ast Program.

Definition locals : Type := list (string * value).

Fixpoint assoc (x : string) (rho : locals) : option value :=
  match rho with
  | [] => None
  | (y, v) :: rho' => if String.eqb x y then Some v else assoc x rho'
  end.

(** How a block ends: at its end, with the locals it leaves, or at a
    [return]. *)
Inductive completion : Type :=
| Normal (rho : locals)
| Returned (v : value).

Definition binop_apply (op : binop) (a b : value) : M value :=
  match op with
  | OpAdd => py_add a b
  | OpSub => py_sub a b
  | OpMul => py_mul a b
  | OpEq => ret (VBool (py_eq a b))
  end.

(** The exception a [raise] statement raises, for the two builtin
    exception classes the files use (and never rebind). *)
Definition raised (e : expr) : option exn :=
  match e with
  | ECall (EName c) [EStr msg] =>
      if String.eqb c "Exception" then Some (Exception_ msg)
      else if String.eqb c "BaseException" then Some (BaseException_ msg)
      else None
  | _ => None
  end.

Definition is_super (e : expr) : bool :=
  match e with
  | ECall (EName f) [] => String.eqb f "super"
  | _ => false
  end.

Section Semantics.
Context `{Externals}.
Variable s : snippet.

(** The class of the receiver, when the snippet defines it. *)
Definition known (c : option string) : option string :=
  match c with
  | Some c' => if defines_class [s] c' then Some c' else None
  | None => None
  end.

(** Expressions and statements are interpreted by recursion on the
    syntax; only entering the body of a method of the snippet takes
    fuel, through [enter]. *)
Section Body.
Variable enter : string -> member -> value -> list value -> M value.

(** [eval cls rho e]: the value of [e] inside a method written in class
    [cls], with locals [rho]. *)
Fixpoint eval (cls : string) (rho : locals) (e : expr) : M value :=
  let eval_args :=
    fix eval_args (es : list expr) : M (list value) :=
      match es with
      | [] => ret []
      | e' :: es' =>
          v <- eval cls rho e' ;;
          vs <- eval_args es' ;;
          ret (v :: vs)
      end in
  match e with
  | ENone => ret VNone
  | ETrue => ret (VBool true)
  | EFalse => ret (VBool false)
  | EInt n => ret (VInt n)
  | EStr t => ret (VStr t)
  | EName x =>
      match assoc x rho with
      | Some v => ret v
      | None => global x
      end
  | EAttr e' a =>
      v <- eval cls rho e' ;;
      getattr v a
  | ECall (EAttr target m) args =>
      if is_super target then
        (* [super().m(args)]: [m] from the bases of [cls], on [self] *)
        match assoc "self" rho, resolve_super s cls m with
        | Some self, Some (owner, d) =>
            vs <- eval_args args ;;
            enter owner d self vs
        | Some _, None => raise (AttributeError m)
        | None, _ => raise (TypeError "super")
        end
      else
        v <- eval cls rho target ;;
        c <- class_of v ;;
        (* a method of a class of the snippet, or of an object from
           elsewhere *)
        match known c with
        | Some c' =>
            match resolve_def s c' m with
            | Some (owner, d) =>
                vs <- eval_args args ;;
                enter owner d v vs
            | None => raise (AttributeError m)
            end
        | None =>
            vs <- eval_args args ;;
            call_method v m vs
        end
  | ECall g args =>
      callee <- eval cls rho g ;;
      vs <- eval_args args ;;
      call callee vs
  | EBin op l r =>
      a <- eval cls rho l ;;
      b <- eval cls rho r ;;
      binop_apply op a b
  | EDict _ => raise (NotModelled "dict display")
  | EGen _ _ _ => raise (NotModelled "generator expression")
  end.

Fixpoint exec (cls : string) (rho : locals) (st : stmt) : M completion :=
  let block :=
    fix block (rho' : locals) (ss : list stmt) : M completion :=
      match ss with
      | [] => ret (Normal rho')
      | st' :: ss' =>
          r <- exec cls rho' st' ;;
          match r with
          | Normal rho'' => block rho'' ss'
          | Returned _ => ret r
          end
      end in
  match st with
  | SPass => ret (Normal rho)
  | SExpr e =>
      eval cls rho e ;;
      ret (Normal rho)
  | SAssign (EName x) e =>
      v <- eval cls rho e ;;
      ret (Normal ((x, v) :: rho))
  | SAssign (EAttr target a) e =>
      v <- eval cls rho e ;;
      o <- eval cls rho target ;;
      setattr o a v ;;
      ret (Normal rho)
  | SAssign _ _ => raise (NotModelled "assignment target")
  | SReturn e =>
      v <- eval cls rho e ;;
      ret (Returned v)
  | SRaise e =>
      match raised e with
      | Some x => raise x
      | None => raise (NotModelled "raise")
      end
  | SIf c body orelse =>
      v <- eval cls rho c ;;
      if truthy v then block rho body else block rho orelse
  | SWith mgr x body =>
      m <- eval cls rho mgr ;;
      c <- call_method m "__enter__" [] ;;
      r <- attempt (block ((x, c) :: rho) body) ;;
      quiet <- call_method m "__exit__" [] ;;
      match r with
      | Ok done => ret done
      | Raise x => if truthy quiet then ret (Normal rho) else raise x
      end
  | SFor _ _ _ => raise (NotModelled "for")
  end.

Fixpoint exec_block (cls : string) (rho : locals) (ss : list stmt)
  : M completion :=
  match ss with
  | [] => ret (Normal rho)
  | st :: ss' =>
      r <- exec cls rho st ;;
      match r with
      | Normal rho' => exec_block cls rho' ss'
      | Returned _ => ret r
      end
  end.

(** Binding the parameters and running the body of method [d], written
    in class [cls]. *)
Definition apply_method (cls : string) (d : member) (self : value)
  (args : list value) : M value :=
  match d with
  | MDef _ ps body =>
      if Nat.eqb (length ps) (S (length args)) then
        r <- exec_block cls (combine ps (self :: args)) body ;;
        match r with
        | Normal _ => ret VNone
        | Returned v => ret v
        end
      else raise (TypeError "arguments")
  | MBroken _ _ _ => raise (NotModelled "syntax error")
  | MAttr _ _ | MPass => raise (TypeError "not callable")
  end.

End Body.

(** [fuel] bounds the depth of the calls between methods. *)
Fixpoint enter (fuel : nat) (cls : string) (d : member) (self : value)
  (args : list value) : M value :=
  match fuel with
  | O => raise RecursionError
  | S f => apply_method (enter f) cls d self args
  end.

(** [obj.m(args)] from outside, with [obj] of class [c] and the
    arguments already evaluated. *)
Definition run_method (fuel : nat) (c m : string) (self : value)
  (args : list value) : M value :=
  match resolve_def s c m with
  | Some (owner, d) => enter fuel owner d self args
  | None => raise (AttributeError m)
  end.

End Semantics.

End Interp.

(** ** The methods, snippet by snippet

    [self.m()] on a method of the class at hand is the Rocq function of
    that method; a call on any other object goes through [call_method],
    a call of a global name through [global] and [call]. *)

(** *** OCP solution #1 (solid.py 82-97, talk.py 130-145) *)

Module OcpSolution1.

(** [def __init__(self, x, y): self.x = x; self.y = y] *)
Definition Operation_init (self x y : value) : M value :=
  setattr self "x" x ;;
  setattr self "y" y ;;
  ret VNone.

(** [def peform_operation(self): return self.x + self.y] *)
Definition Addition_peform_operation (self : value) : M value :=
  x <- getattr self "x" ;;
  y <- getattr self "y" ;;
  py_add x y.

(** [def peform_operation(self): return self.x - self.y] *)
Definition Subtraction_peform_operation (self : value) : M value :=
  x <- getattr self "x" ;;
  y <- getattr self "y" ;;
  py_sub x y.

End OcpSolution1.

(** *** LSP solution #1 of solid.py (170-182) *)

Module SolidLspSolution1.

(** [def get_perimeter(self): return self.x * 2 + self.y * 2] *)
Definition Shape_get_perimeter (self : value) : M value :=
  x <- getattr self "x" ;;
  a <- py_mul x (VInt 2) ;;
  y <- getattr self "y" ;;
  b <- py_mul y (VInt 2) ;;
  py_add a b.

End SolidLspSolution1.

(** *** LSP problem #1 of talk.py (276-298) *)

Module TalkLspProblem1.

Section Methods.
Context `{Externals}.

(** [def set_width(self, w): self.width = w] *)
Definition Rectangle_set_width (self w : value) : M value :=
  setattr self "width" w ;;
  ret VNone.

(** [def set_height(self, h): self.height = h] *)
Definition Rectangle_set_height (self h : value) : M value :=
  setattr self "height" h ;;
  ret VNone.

(** [def set_width(self, w): self.width = w; set_height(w)] *)
Definition Square_set_width (self w : value) : M value :=
  setattr self "width" w ;;
  set_height <- global "set_height" ;;
  call set_height [w] ;;
  ret VNone.

(** [def set_height(self, h): self.height = h; set_width(h)] *)
Definition Square_set_height (self h : value) : M value :=
  setattr self "height" h ;;
  set_width <- global "set_width" ;;
  call set_width [h] ;;
  ret VNone.

End Methods.

End TalkLspProblem1.

(** *** LSP solution #1 of talk.py (302-332) *)

Module TalkLspSolution1.

(** [def set_x1(self, x1): self.x1 = x1] *)
Definition Quadrilateral_set_x1 (self x1 : value) : M value :=
  setattr self "x1" x1 ;;
  ret VNone.

(** [def get_width(self): return self.x2 - self.x1] *)
Definition Quadrilateral_get_width (self : value) : M value :=
  x2 <- getattr self "x2" ;;
  x1 <- getattr self "x1" ;;
  py_sub x2 x1.

(** [def get_height(self): return self.y2 - self.y1] *)
Definition Quadrilateral_get_height (self : value) : M value :=
  y2 <- getattr self "y2" ;;
  y1 <- getattr self "y1" ;;
  py_sub y2 y1.

End TalkLspSolution1.

(** *** LSP problem #2 (solid.py 186-198, talk.py 337-350)

    [Task] is the same in both files; [ProjectTask.close] parses in
    talk.py only. *)

Module LspProblem2.

Section Methods.
Context `{Externals}.

(** [def close(self): self.status = 'CLOSED'] *)
Definition Task_close (self : value) : M value :=
  setattr self "status" (VStr "CLOSED") ;;
  ret VNone.

(** talk.py:
    [def close(self):
         if self.status == 'STARTED':
             raise Exception("Cannot close Task")
         super().close()] *)
Definition ProjectTask_close (self : value) : M value :=
  status <- getattr self "status" ;;
  (if py_eq status (VStr "STARTED")
   then raise (Exception_ "Cannot close Task")
   else skip) ;;
  Task_close self ;;
  ret VNone.

(** [task.close()] in talk.py: [ProjectTask] overrides [close], [Task]
    and [BasicTask] have [Task]'s. *)
Definition close (self : value) : M value :=
  c <- class_of self ;;
  if instance_of "ProjectTask" c then ProjectTask_close self
  else if (instance_of "Task" c || instance_of "BasicTask" c)%bool
       then Task_close self
       else call_method self "close" [].

End Methods.

End LspProblem2.

(** *** LSP solution #2 of talk.py (354-370) *)

Module TalkLspSolution2.

Section Methods.
Context `{Externals}.

(** [def can_close(self): return True] *)
Definition Task_can_close (self : value) : M value :=
  ret (VBool true).

(** [def can_close(self): return self.status == 'STARTED'] *)
Definition ProjectTask_can_close (self : value) : M value :=
  status <- getattr self "status" ;;
  ret (VBool (py_eq status (VStr "STARTED"))).

(** [self.can_close()]: [ProjectTask] overrides it, [Task] and
    [BasicTask] have [Task]'s; a class from elsewhere has its own. *)
Definition can_close (self : value) : M value :=
  c <- class_of self ;;
  if instance_of "ProjectTask" c then ProjectTask_can_close self
  else if (instance_of "Task" c || instance_of "BasicTask" c)%bool
       then Task_can_close self
       else call_method self "can_close" [].

(** [def close(self):
         if self.can_close():
             self.status = 'CLOSED'
         raise Exception("Cannot close Task")] *)
Definition Task_close (self : value) : M value :=
  ok <- can_close self ;;
  (if truthy ok
   then setattr self "status" (VStr "CLOSED")
   else skip) ;;
  raise (Exception_ "Cannot close Task").

End Methods.

End TalkLspSolution2.

(** *** DIP problem #1 (solid.py 279-290, talk.py 489-500) *)

Module DipProblem1.

Section Methods.
Context `{Externals}.

(** [def __init__(self, device): self.device = device] *)
Definition CopyProgram_init (self device : value) : M value :=
  setattr self "device" device ;;
  ret VNone.

(** [def copy(self):
         with ReadKeyboard() as c:
             if self.device == self.devices.get('printer'):
                 WritePrinter(c)
             else:
                 WriteDisk(c)] *)
Definition CopyProgram_copy (self : value) : M value :=
  ReadKeyboard <- global "ReadKeyboard" ;;
  mgr <- call ReadKeyboard [] ;;
  with_ mgr (fun c =>
    device <- getattr self "device" ;;
    devices <- getattr self "devices" ;;
    printer <- call_method devices "get" [VStr "printer"] ;;
    if py_eq device printer
    then (WritePrinter <- global "WritePrinter" ;; call WritePrinter [c])
    else (WriteDisk <- global "WriteDisk" ;; call WriteDisk [c])) ;;
  ret VNone.

End Methods.

End DipProblem1.

(** *** DIP solution #1 (solid.py 294-309, talk.py 504-521) *)

Module DipSolution1.

Section Methods.
Context `{Externals}.

(** [def copy(self, reader, writer):
         with reader() as c:
             writer(c)] *)
Definition CopyProgram_copy (self reader writer : value) : M value :=
  mgr <- call reader [] ;;
  with_ mgr (fun c => call writer [c]) ;;
  ret VNone.

End Methods.

End DipSolution1.

(** *** DIP problem #2 (solid.py 313-331, talk.py 525-543) *)

Module DipProblem2.

Section Methods.
Context `{Externals}.

(** [class Lamp]: [def turn_on(self): pass], [def turn_off(self): pass] *)
Definition Lamp_turn_on (self : value) : M value := skip.

Definition Lamp_turn_off (self : value) : M value := skip.

(** [def __init__(self, lamp): self.lamp = lamp] *)
Definition Button_init (self lamp : value) : M value :=
  setattr self "lamp" lamp ;;
  ret VNone.

(** [def get_physical_state(self): pass] *)
Definition Button_get_physical_state (self : value) : M value := skip.

(** [self.get_physical_state()]: [Button]'s own, unless [self] is of
    a class from elsewhere. *)
Definition get_physical_state (self : value) : M value :=
  c <- class_of self ;;
  if instance_of "Button" c then Button_get_physical_state self
  else call_method self "get_physical_state" [].

(** [def detect(self):
         button_on = self.get_physical_state()
         if button_on:
             self.lamp.turn_on()
         else:
             self.lamp.turn_off()] *)
Definition Button_detect (self : value) : M value :=
  button_on <- get_physical_state self ;;
  (if truthy button_on
   then (lamp <- getattr self "lamp" ;; call_method lamp "turn_on" [])
   else (lamp <- getattr self "lamp" ;; call_method lamp "turn_off" [])) ;;
  ret VNone.

End Methods.

End DipProblem2.

(** *** DIP solution #2 (solid.py 335-359, talk.py 547-573) *)

Module DipSolution2.

Section Methods.
Context `{Externals}.

(** [class ButtonClient]: [def turn_on(self): pass],
    [def turn_off(self): pass]; [Lamp] inherits both. *)
Definition ButtonClient_turn_on (self : value) : M value := skip.

Definition ButtonClient_turn_off (self : value) : M value := skip.

(** [def __init__(self, button_client): self.button_client = button_client] *)
Definition Button_init (self button_client : value) : M value :=
  setattr self "button_client" button_client ;;
  ret VNone.

(** [def get_state(self): pass] *)
Definition Button_get_state (self : value) : M value := skip.

(** [self.get_state()]: [Button]'s own, unless [self] is of a class
    from elsewhere. *)
Definition get_state (self : value) : M value :=
  c <- class_of self ;;
  if instance_of "Button" c then Button_get_state self
  else call_method self "get_state" [].

(** [def detect(self):
         button_on = self.get_state()
         if button_on:
             self.button_client.turn_on()
         else:
             self.button_client.turn_off()] *)
Definition Button_detect (self : value) : M value :=
  button_on <- get_state self ;;
  (if truthy button_on
   then (client <- getattr self "button_client" ;;
         call_method client "turn_on" [])
   else (client <- getattr self "button_client" ;;
         call_method client "turn_off" [])) ;;
  ret VNone.

End Methods.

End DipSolution2.

(** ** What to compare across the files, and what to list *)

Module Survey.

Import Lex Ast Grammar Program.

(** The lines of a body that does not parse. *)
Definition body_lines (m : option member) : list line :=
  match m with
  | Some (MBroken _ _ ls) => ls
  | _ => []
  end.

(** Every body that parses: of methods and of top-level functions. *)
Definition parsed_bodies (f : list snippet) : list (list stmt) :=
  flat_map (fun s =>
    flat_map (fun it =>
      match it with
      | Def _ _ b => [b]
      | _ => map mbody (methods_of_item it)
      end) (sitems s)) f.

(** The classes of the three examples talk.py adds. *)
Definition talk_only_classes : list string :=
  ["Modem"; "DataChannel"; "Connection"; "Quadrilateral";
   "ImmutablePoint"; "MutablePoint"; "Point"].

(** Headings both files have. *)
Definition shared_headings : list heading :=
  List.filter (fun h => existsb (heading_eqb h) (headings Talk.file))
         (headings Solid.file).

(** ... under which the two files hold the same definitions, *)
Definition same_in_both : list heading :=
  [(SRP, Problem, 1%nat); (SRP, Solution, 1%nat);
   (OCP, Problem, 1%nat); (OCP, Solution, 1%nat); (OCP, Problem, 2%nat);
   (ISP, Problem, 1%nat); (ISP, Problem, 2%nat); (ISP, Solution, 2%nat);
   (DIP, Problem, 1%nat); (DIP, Problem, 2%nat)].

(** ... and under which they do not. *)
Definition changed_in_talk : list heading :=
  [(OCP, Solution, 2%nat); (LSP, Problem, 1%nat); (LSP, Solution, 1%nat);
   (LSP, Problem, 2%nat); (ISP, Solution, 1%nat); (DIP, Solution, 1%nat);
   (DIP, Solution, 2%nat)].

(** Two snippets under one heading, equal up to line numbers. *)
Definition same_definitions (h : heading) : Prop :=
  exists s t,
    snippet_at Solid.file h = Some s
    /\ snippet_at Talk.file h = Some t
    /\ unnumbered s = unnumbered t.

Definition different_definitions (h : heading) : Prop :=
  exists s t,
    snippet_at Solid.file h = Some s
    /\ snippet_at Talk.file h = Some t
    /\ unnumbered s <> unnumbered t.

(** Two snippets resolve every attribute of every class alike. *)
Definition same_resolution (s t : snippet) : Prop :=
  forall c a,
    option_map unnumbered_member (resolve s c a)
    = option_map unnumbered_member (resolve t c a).



End Survey.

(** ** More of the two files

    The builtins and statements the remaining functions need
    ([isinstance], [sum], [for]), and the translations of those
    functions. *)

Module Classes.

Import Ast Program.

(** [subclass_in env c d]: class [c] is [d] or derives from it, with
    the bases of [c] resolved among the definitions older than [c]. *)
Fixpoint subclass_in (env : list item) (c d : string) : bool :=
  match env with
  | [] => String.eqb c d
  | Class c' bases _ :: older =>
      if String.eqb c' c
      then (String.eqb c d || existsb (fun b => subclass_in older b d) bases)%bool
      else subclass_in older c d
  | _ :: older => subclass_in older c d
  end.

Definition subclass (s : snippet) (c d : string) : bool :=
  subclass_in (rev (sitems s)) c d.

(** [isinstance(v, d)] for a class [d] of the snippet. *)
Definition instance (s : snippet) (w : world) (v : value) (d : string)
  : bool :=
  match v with
  | VRef l =>
      match heap w !! l with
      | Some o => subclass s (ocls o) d
      | None => false
      end
  | _ => false
  end.

(** The callable bound to [isinstance] is Python's builtin. *)
Definition isinstance_is_builtin `{Externals} (s : snippet) : Prop :=
  forall v d env w,
    call (VGlobal "isinstance") [v; VGlobal d] env w
    = (Ok (VBool (instance s w v d)), w).

(** Collaborators that record, with the builtin [isinstance]. *)
Definition recording_with_isinstance (s : snippet) : Externals := {|
  call f args :=
    match f, args with
    | VGlobal g, [v; VGlobal d] =>
        if String.eqb g "isinstance"
        then fun _ w => (Ok (VBool (instance s w v d)), w)
        else @call recording f args
    | _, _ => @call recording f args
    end;
  call_method := @call_method recording |}.

(** The top-level function [name] of a snippet, the last definition
    first. *)
Definition function_of (s : snippet) (name : string)
  : option (list string * list stmt) :=
  (fix pick (its : list item) : option (list string * list stmt) :=
     match its with
     | [] => None
     | Def n ps body :: its' =>
         if String.eqb n name then Some (ps, body) else pick its'
     | _ :: its' => pick its'
     end) (rev (sitems s)).

(** Calling a top-level function, with the arguments already
    evaluated: its body is not inside any class. *)
Definition run_function `{Externals} (s : snippet) (fuel : nat)
  (name : string) (args : list value) : M value :=
  match function_of s name with
  | Some (ps, body) =>
      if Nat.eqb (length ps) (length args) then
        r <- Interp.exec_block s (Interp.enter s fuel) "" (combine ps args)
               body ;;
        match r with
        | Interp.Normal _ => ret VNone
        | Interp.Returned v => ret v
        end
      else raise (TypeError "arguments")
  | None => raise (NameError name)
  end.

(** [for x in items: body], over a list. *)
Fixpoint for_each (body : value -> M value) (items : list value) : M value :=
  match items with
  | [] => ret VNone
  | x :: items' => body x ;; for_each body items'
  end.

(** [sum(term(x) for x in items)], from the running total [acc]: each
    term is computed when the sum reaches it. *)
Fixpoint sum_of (term : value -> M value) (items : list value) (acc : value)
  : M value :=
  match items with
  | [] => ret acc
  | x :: items' =>
      t <- term x ;;
      acc' <- py_add acc t ;;
      sum_of term items' acc'
  end.

End Classes.

Import Classes.

(** *** SRP problem #1 and solution #1 (solid.py 30-55, talk.py 36-61) *)

Module SrpProblem1.

Section Methods.
Context `{Externals}.

(** [def calculate(self): pass] *)
Definition Employee_calculate (self : value) : M value := skip.

(** [def save(self): pass] *)
Definition Employee_save (self : value) : M value := skip.

(** [self.calculate()]: [Employee]'s own, unless [self] is of a class
    from elsewhere. *)
Definition calculate (self : value) : M value :=
  c <- class_of self ;;
  if instance_of "Employee" c then Employee_calculate self
  else call_method self "calculate" [].

(** [def calculate_pay(self): return self.calculate()] *)
Definition Employee_calculate_pay (self : value) : M value :=
  calculate self.

(** [def report_hours(self, hours): return self.calculate() * hours] *)
Definition Employee_report_hours (self hours : value) : M value :=
  pay <- calculate self ;;
  py_mul pay hours.

End Methods.

End SrpProblem1.

Module SrpSolution1.

Section Methods.
Context `{Externals}.

(** [self.calculate(employee)]: none of the three classes of the
    snippet defines [calculate]. *)
Definition calculate (self employee : value) : M value :=
  c <- class_of self ;;
  if (instance_of "PaymentCalculator" c || instance_of "Reporter" c
      || instance_of "EmployeeRepository" c)%bool
  then raise (AttributeError "calculate")
  else call_method self "calculate" [employee].

(** [def calculate_pay(self, employee): return self.calculate(employee)] *)
Definition PaymentCalculator_calculate_pay (self employee : value)
  : M value :=
  calculate self employee.

(** [def report_hours(self, employee): return self.calculate(employee)] *)
Definition Reporter_report_hours (self employee : value) : M value :=
  calculate self employee.

(** [def save(self, employee): pass] *)
Definition EmployeeRepository_save (self employee : value) : M value := skip.

End Methods.

End SrpSolution1.

(** *** OCP problem #1 (solid.py 62-78, talk.py 110-126) *)

Module OcpProblem1.

Section Methods.
Context `{Externals}.

(** [def calculate(self, operation):
         if isinstance(operation, Addition):
             return operation.x + operation.y
         elif isinstance(operation, Subtraction):
             return operation.x - operation.y] *)
Definition BasicCalculator_calculate (self operation : value) : M value :=
  isinstance <- global "isinstance" ;;
  Addition <- global "Addition" ;;
  is_addition <- call isinstance [operation; Addition] ;;
  if truthy is_addition then
    x <- getattr operation "x" ;;
    y <- getattr operation "y" ;;
    py_add x y
  else
    isinstance <- global "isinstance" ;;
    Subtraction <- global "Subtraction" ;;
    is_subtraction <- call isinstance [operation; Subtraction] ;;
    if truthy is_subtraction then
      x <- getattr operation "x" ;;
      y <- getattr operation "y" ;;
      py_sub x y
    else ret VNone.

End Methods.

End OcpProblem1.

(** *** The calculator of OCP solution #1 (solid.py 95-97, talk.py 143-145) *)

Module OcpSolution1Calculator.

Section Methods.
Context `{Externals}.

(** [operation.perform_operation()]: the classes of the snippet define
    [peform_operation], not [perform_operation]. *)
Definition perform_operation (operation : value) : M value :=
  c <- class_of operation ;;
  if (instance_of "Operation" c || instance_of "Addition" c
      || instance_of "Subtraction" c || instance_of "BasicCalculator" c)%bool
  then raise (AttributeError "perform_operation")
  else call_method operation "perform_operation" [].

(** [def calculate(self, operation):
         return operation.perform_operation()] *)
Definition BasicCalculator_calculate (self operation : value) : M value :=
  perform_operation operation.

End Methods.

End OcpSolution1Calculator.

(** *** OCP solution #2 (solid.py 124-141, talk.py 172-189) *)

Module OcpSolution2.

Section Methods.
Context `{Externals}.

(** [class Printer]: [def print(self, filename): pass] *)
Definition Printer_print (self filename : value) : M value := skip.

(** [class ColorPrinter]:
    [def print(self, filename): HPLASER.print_file(filename)] *)
Definition ColorPrinter_print (self filename : value) : M value :=
  HPLASER <- global "HPLASER" ;;
  call_method HPLASER "print_file" [filename] ;;
  ret VNone.

(** [class BWPrinter]:
    [def print(self, filename): HPINKJET.print_file(filename)] *)
Definition BWPrinter_print (self filename : value) : M value :=
  HPINKJET <- global "HPINKJET" ;;
  call_method HPINKJET "print_file" [filename] ;;
  ret VNone.

(** [def __init__(self, printer): self.printer = printer] *)
Definition ReportGenerator_init (self printer : value) : M value :=
  setattr self "printer" printer ;;
  ret VNone.

(** [printer.print_file(filename)]: the classes of the snippet define
    [print], not [print_file]. *)
Definition print_file (printer filename : value) : M value :=
  c <- class_of printer ;;
  if (instance_of "Printer" c || instance_of "ColorPrinter" c
      || instance_of "BWPrinter" c || instance_of "ReportGenerator" c)%bool
  then raise (AttributeError "print_file")
  else call_method printer "print_file" [filename].

(** talk.py: [def print(self, filename):
                  self.printer.print_file(filename)];
    solid.py has the same body after
    [def print(self, filename, ink_type)]. *)
Definition ReportGenerator_print (self filename : value) : M value :=
  printer <- getattr self "printer" ;;
  print_file printer filename ;;
  ret VNone.

End Methods.

End OcpSolution2.

(** *** OCP problem #3 and solution #3 of talk.py (193-220) *)

Module OcpProblem3.

Section Methods.
Context `{Externals}.

(** The body of the loop:
    [if isinstance(shape, Square):
         draw_square(shape)
     if isinstance(shape, Circle):
         draw_circle(shape)] *)
Definition draw_shape (shape : value) : M value :=
  isinstance <- global "isinstance" ;;
  Square <- global "Square" ;;
  is_square <- call isinstance [shape; Square] ;;
  (if truthy is_square
   then (draw_square <- global "draw_square" ;; call draw_square [shape])
   else skip) ;;
  isinstance <- global "isinstance" ;;
  Circle <- global "Circle" ;;
  is_circle <- call isinstance [shape; Circle] ;;
  (if truthy is_circle
   then (draw_circle <- global "draw_circle" ;; call draw_circle [shape])
   else skip) ;;
  ret VNone.

(** [def draw_all_shapes(shapes):
         for shape in shapes: ...] *)
Definition draw_all_shapes (shapes : list value) : M value :=
  for_each draw_shape shapes.

End Methods.

End OcpProblem3.

Module OcpSolution3.

Section Methods.
Context `{Externals}.

(** [class Shape]: [def draw(self): pass] *)
Definition Shape_draw (self : value) : M value := skip.

(** [shape.draw()]: [Circle] and [Square] inherit [Shape.draw]. *)
Definition draw (shape : value) : M value :=
  c <- class_of shape ;;
  if (instance_of "Shape" c || instance_of "Circle" c
      || instance_of "Square" c)%bool
  then Shape_draw shape
  else call_method shape "draw" [].

(** [def draw_all_shapes(shapes):
         for shape in shapes:
             shape.draw()] *)
Definition draw_all_shapes (shapes : list value) : M value :=
  for_each (fun shape => draw shape ;; ret VNone) shapes.

End Methods.

End OcpSolution3.

(** *** The function [g] of LSP problem #1 of talk.py (296-298) *)

Module TalkLspProblem1G.

Section Methods.
Context `{Externals}.

(** [rectangle.set_width(w)], by the class of [rectangle]. *)
Definition set_width (rectangle w : value) : M value :=
  c <- class_of rectangle ;;
  if instance_of "Square" c then TalkLspProblem1.Square_set_width rectangle w
  else if instance_of "Rectangle" c
       then TalkLspProblem1.Rectangle_set_width rectangle w
       else call_method rectangle "set_width" [w].

(** [rectangle.set_height(h)], by the class of [rectangle]. *)
Definition set_height (rectangle h : value) : M value :=
  c <- class_of rectangle ;;
  if instance_of "Square" c then TalkLspProblem1.Square_set_height rectangle h
  else if instance_of "Rectangle" c
       then TalkLspProblem1.Rectangle_set_height rectangle h
       else call_method rectangle "set_height" [h].

(** [def g(rectangle):
         rectangle.set_width(5)
         rectangle.set_height(3)] *)
Definition g (rectangle : value) : M value :=
  set_width rectangle (VInt 5) ;;
  set_height rectangle (VInt 3) ;;
  ret VNone.

End Methods.

End TalkLspProblem1G.

(** *** The function [g] of LSP solution #1 of talk.py (328-332) *)

Module TalkLspSolution1G.

Section Methods.
Context `{Externals}.

Definition quadrilateral (c : option string) : bool :=
  (instance_of "Quadrilateral" c || instance_of "Rectangle" c
   || instance_of "Square" c)%bool.

(** [rectangle.set_x1(v)]: [Rectangle] and [Square] inherit it. *)
Definition set_x1 (rectangle v : value) : M value :=
  c <- class_of rectangle ;;
  if quadrilateral c then TalkLspSolution1.Quadrilateral_set_x1 rectangle v
  else call_method rectangle "set_x1" [v].

(** [rectangle.set_x2(v)] and the like: [Quadrilateral] defines
    [set_x1] only. *)
Definition missing_setter (name : string) (rectangle v : value) : M value :=
  c <- class_of rectangle ;;
  if quadrilateral c then raise (AttributeError name)
  else call_method rectangle name [v].

(** [def g(rectangle):
         rectangle.set_x1(10)
         rectangle.set_x2(5)
         rectangle.set_y1(6)
         rectangle.set_y2(3)] *)
Definition g (rectangle : value) : M value :=
  set_x1 rectangle (VInt 10) ;;
  missing_setter "set_x2" rectangle (VInt 5) ;;
  missing_setter "set_y1" rectangle (VInt 6) ;;
  missing_setter "set_y2" rectangle (VInt 3) ;;
  ret VNone.

End Methods.

End TalkLspSolution1G.

(** *** The calculator of LSP solution #1 of solid.py (180-182) *)

Module SolidLspSolution1Calculator.

Section Methods.
Context `{Externals}.

(** [shape.get_perimeter()]: [Rectangle] inherits [Shape]'s; [Square]
    derives from [object] and has none. *)
Definition get_perimeter (shape : value) : M value :=
  c <- class_of shape ;;
  if (instance_of "Shape" c || instance_of "Rectangle" c)%bool
  then SolidLspSolution1.Shape_get_perimeter shape
  else if (instance_of "Square" c || instance_of "ShapeCalculator" c)%bool
       then raise (AttributeError "get_perimeter")
       else call_method shape "get_perimeter" [].

(** [def calculate_perimeter(self, shapes):
         return sum(shape.get_perimeter() for shape in shapes)] *)
Definition ShapeCalculator_calculate_perimeter (self : value)
  (shapes : list value) : M value :=
  global "sum" ;;
  sum_of get_perimeter shapes (VInt 0).

End Methods.

End SolidLspSolution1Calculator.

(** A [Shape] or a [Rectangle] with the integers [x] and [y] in its
    fields. *)
Definition shape_with (env : pyenv) (w : world) (v : value) (d : Z * Z)
  : Prop :=
  exists l o,
    v = VRef l /\ heap w !! l = Some o
    /\ (ocls o = "Shape" \/ ocls o = "Rectangle")
    /\ read_attr env w v "x" = Some (VInt (fst d))
    /\ read_attr env w v "y" = Some (VInt (snd d)).

Definition perimeters (dims : list (Z * Z)) : Z :=
  foldr Z.add 0 (map (fun d => 2 * fst d + 2 * snd d) dims).

(** *** LSP problem #3 and solution #3 of talk.py (376-403) *)

Module TalkLspPoints.

(** [def __init__(self, x, y): self.x = x; self.y = y], of
    [ImmutablePoint] in the problem and of [Point] in the solution. *)
Definition Point_init (self x y : value) : M value :=
  setattr self "x" x ;;
  setattr self "y" y ;;
  ret VNone.

(** [def set_x(self, x): self.x = x] *)
Definition MutablePoint_set_x (self x : value) : M value :=
  setattr self "x" x ;;
  ret VNone.

(** [def set_y(self, y): self.y = y] *)
Definition MutablePoint_set_y (self y : value) : M value :=
  setattr self "y" y ;;
  ret VNone.

End TalkLspPoints.

(** ** Properties *)

Import Ast Program Env Interp.

(** *** Tools *)

#[local] Arguments read_attr : simpl never.

Ltac unfold_monad :=
  unfold bind, ret, raise, skip, getattr, setattr, global, class_of, log,
    attempt in *.

(** Runs a method body on a symbolic world, using the hypotheses about
    the heap and the attributes as computation rules. *)
Ltac run :=
  unfold_monad; cbn;
  repeat first
    [ progress simplify_map_eq
    | progress cbn
    | match goal with
      | H : read_attr _ _ _ _ = _ |- _ => rewrite H
      | H : ?x = _ |- context [match ?x with _ => _ end] => rewrite H
      end ].

#[local] Arguments known _ !_ /.
#[local] Arguments class_of : simpl never.
#[local] Arguments getattr : simpl never.
#[local] Arguments setattr : simpl never.
#[local] Arguments global : simpl never.

(** Splits on the innermost outcome a computation waits for. *)
Ltac split_run :=
  match goal with
  | |- context [match ?x with _ => _ end] =>
      lazymatch x with
      | context [match _ with _ => _ end] => fail
      | _ =>
          lazymatch type of x with
          | (outcome _ * world)%type => destruct x as [[? | ?] ?]
          | bool => destruct x
          | option _ => destruct x
          end
      end
  end.

Ltac agree_step :=
  first
    [ progress unfold bind, ret, raise, skip, attempt
    | progress cbn
    | match goal with H : class_of _ _ _ = _ |- _ => rewrite H end
    | match goal with H : getattr _ _ _ _ = _ |- _ => rewrite H end
    | match goal with H : known _ _ = _ |- _ => rewrite H end
    | split_run ].

Ltac agree := unfold run_method; repeat agree_step; try reflexivity.

Lemma py_eq_str (v : value) (s : string) :
  py_eq v (VStr s) = true <-> v = VStr s.
Proof.
  destruct v; cbn; try (split; discriminate).
  rewrite String.eqb_eq. split; congruence.
Qed.

Lemma read_attr_store_eq env w l o a x :
  read_attr env (store_attr w l o a x) (VRef l) a = Some x.
Proof. unfold read_attr, store_attr; cbn. by simplify_map_eq. Qed.

Lemma read_attr_store_ne env w l o a b x :
  heap w !! l = Some o -> a <> b ->
  read_attr env (store_attr w l o a x) (VRef l) b = read_attr env w (VRef l) b.
Proof.
  intros Hl Hab. unfold read_attr, store_attr; cbn.
  rewrite lookup_insert_eq, Hl; cbn. by rewrite lookup_insert_ne.
Qed.

Lemma heap_store_other w l o a x l' :
  l' <> l -> heap (store_attr w l o a x) !! l' = heap w !! l'.
Proof. intros Hne. unfold store_attr; cbn. by rewrite lookup_insert_ne. Qed.

Lemma class_of_instance env w l o :
  heap w !! l = Some o -> class_of (VRef l) env w = (Ok (Some (ocls o)), w).
Proof. intros Hl. unfold class_of. by rewrite Hl. Qed.

(** *** The translations are the meaning of the parsed bodies

    Each hand translation equals the interpretation of the body the
    snippet holds for that class and method, for every argument and
    world; the fuel covers the calls the body makes. *)

Section Agreement.
Context `{Externals}.

Lemma OcpSolution1_agrees k self x y env w :
  (run_method Talk.ocp_solution1 (S k) "Operation" "__init__" self [x; y] env w
     = OcpSolution1.Operation_init self x y env w
   /\ run_method Talk.ocp_solution1 (S k) "Addition" "peform_operation"
        self [] env w
      = OcpSolution1.Addition_peform_operation self env w
   /\ run_method Talk.ocp_solution1 (S k) "Subtraction" "peform_operation"
        self [] env w
      = OcpSolution1.Subtraction_peform_operation self env w)
  /\ Solid.ocp_solution1 = Talk.ocp_solution1.
Proof.
  unfold OcpSolution1.Operation_init, OcpSolution1.Addition_peform_operation,
    OcpSolution1.Subtraction_peform_operation.
  repeat split; agree.
Qed.

Lemma SolidLspSolution1_agrees k self env w :
  run_method Solid.lsp_solution1 (S k) "Shape" "get_perimeter" self [] env w
  = SolidLspSolution1.Shape_get_perimeter self env w.
Proof. unfold SolidLspSolution1.Shape_get_perimeter. agree. Qed.

Lemma TalkLspProblem1_agrees k self v env w :
  run_method Talk.lsp_problem1 (S k) "Rectangle" "set_width" self [v] env w
    = TalkLspProblem1.Rectangle_set_width self v env w
  /\ run_method Talk.lsp_problem1 (S k) "Rectangle" "set_height" self [v] env w
     = TalkLspProblem1.Rectangle_set_height self v env w
  /\ run_method Talk.lsp_problem1 (S k) "Square" "set_width" self [v] env w
     = TalkLspProblem1.Square_set_width self v env w
  /\ run_method Talk.lsp_problem1 (S k) "Square" "set_height" self [v] env w
     = TalkLspProblem1.Square_set_height self v env w.
Proof.
  unfold TalkLspProblem1.Rectangle_set_width,
    TalkLspProblem1.Rectangle_set_height, TalkLspProblem1.Square_set_width,
    TalkLspProblem1.Square_set_height.
  repeat split; agree.
Qed.

Lemma TalkLspSolution1_agrees k self v env w :
  run_method Talk.lsp_solution1 (S k) "Quadrilateral" "set_x1" self [v] env w
    = TalkLspSolution1.Quadrilateral_set_x1 self v env w
  /\ run_method Talk.lsp_solution1 (S k) "Rectangle" "get_width" self [] env w
     = TalkLspSolution1.Quadrilateral_get_width self env w
  /\ run_method Talk.lsp_solution1 (S k) "Square" "get_height" self [] env w
     = TalkLspSolution1.Quadrilateral_get_height self env w.
Proof.
  unfold TalkLspSolution1.Quadrilateral_set_x1,
    TalkLspSolution1.Quadrilateral_get_width,
    TalkLspSolution1.Quadrilateral_get_height.
  repeat split; agree.
Qed.

(** [Task.close] in both files, on a [Task] and inherited by a
    [BasicTask]; [ProjectTask.close] with its [super().close()]. *)
Lemma LspProblem2_agrees k self env w :
  run_method Solid.lsp_problem2 (S k) "Task" "close" self [] env w
    = LspProblem2.Task_close self env w
  /\ run_method Talk.lsp_problem2 (S k) "Task" "close" self [] env w
     = LspProblem2.Task_close self env w
  /\ run_method Talk.lsp_problem2 (S k) "BasicTask" "close" self [] env w
     = LspProblem2.Task_close self env w
  /\ run_method Talk.lsp_problem2 (S (S k)) "ProjectTask" "close" self [] env w
     = LspProblem2.ProjectTask_close self env w.
Proof.
  unfold LspProblem2.ProjectTask_close, LspProblem2.Task_close.
  repeat split; agree.
Qed.

(** The call [task.close()] itself: the dispatch of [close] is the
    interpreter's, on the three classes of the snippet and on a class
    from elsewhere. *)
Lemma LspProblem2_close_agrees k task c env w :
  class_of task env w = (Ok c, w) ->
  c = Some "Task" \/ c = Some "BasicTask" \/ c = Some "ProjectTask"
  \/ known Talk.lsp_problem2 c = None ->
  eval Talk.lsp_problem2 (enter Talk.lsp_problem2 (S (S k))) ""
       [("task", task)] (ECall (EAttr (EName "task") "close") []) env w
  = LspProblem2.close task env w.
Proof.
  intros Hc Hcases.
  unfold LspProblem2.close, LspProblem2.ProjectTask_close,
    LspProblem2.Task_close.
  destruct Hcases as [-> | [-> | [-> | Hk]]]; [agree .. |].
  destruct c as [c' |]; [| agree].
  assert (String.eqb c' "ProjectTask" = false /\ String.eqb c' "Task" = false
          /\ String.eqb c' "BasicTask" = false) as (E1 & E2 & E3).
  { unfold known in Hk.
    destruct (defines_class [Talk.lsp_problem2] c') eqn:E; [discriminate |].
    repeat split; apply String.eqb_neq; intros ->; vm_compute in E;
      discriminate. }
  cbn. unfold bind, ret. cbn. rewrite Hc. cbn -[known]. rewrite Hk, E1, E2, E3.
  agree.
Qed.

(** [Task.close] of the solution, with [self.can_close()] dispatched on
    the class of [self]. *)
Lemma TalkLspSolution2_agrees k self env w :
  (run_method Talk.lsp_solution2 (S k) "Task" "can_close" self [] env w
     = TalkLspSolution2.Task_can_close self env w
   /\ run_method Talk.lsp_solution2 (S k) "ProjectTask" "can_close" self []
        env w
      = TalkLspSolution2.ProjectTask_can_close self env w)
  /\ (forall c,
        class_of self env w = (Ok (Some c), w) ->
        c = "Task" \/ c = "BasicTask" \/ c = "ProjectTask" ->
        run_method Talk.lsp_solution2 (S (S k)) c "close" self [] env w
        = TalkLspSolution2.Task_close self env w).
Proof.
  unfold TalkLspSolution2.Task_close, TalkLspSolution2.can_close,
    TalkLspSolution2.Task_can_close, TalkLspSolution2.ProjectTask_can_close.
  split; [split; agree |].
  intros c Hc [-> | [-> | ->]]; agree.
Qed.

(** [CopyProgram.copy], with the globals of either file: both stop at
    [ReadKeyboard]. *)
Lemma DipProblem1_agrees k self device env w :
  run_method Talk.dip_problem1 (S k) "CopyProgram" "__init__" self [device]
    env w
  = DipProblem1.CopyProgram_init self device env w
  /\ run_method Talk.dip_problem1 (S k) "CopyProgram" "copy" self []
       (env_of Talk.file Talk.dip_problem1) w
     = DipProblem1.CopyProgram_copy self (env_of Talk.file Talk.dip_problem1) w
  /\ run_method Solid.dip_problem1 (S k) "CopyProgram" "copy" self []
       (env_of Solid.file Solid.dip_problem1) w
     = DipProblem1.CopyProgram_copy self
         (env_of Solid.file Solid.dip_problem1) w.
Proof.
  unfold DipProblem1.CopyProgram_init.
  split; [agree | split; reflexivity].
Qed.

Lemma DipSolution1_agrees k self reader writer env w :
  run_method Talk.dip_solution1 (S k) "CopyProgram" "copy" self
    [reader; writer] env w
  = DipSolution1.CopyProgram_copy self reader writer env w
  /\ run_method Solid.dip_solution1 (S k) "CopyProgram" "copy" self
       [reader; writer] env w
     = DipSolution1.CopyProgram_copy self reader writer env w.
Proof. unfold DipSolution1.CopyProgram_copy, with_. split; agree. Qed.

(** The one-line methods of the two Button snippets. *)
Lemma Dip2_stubs_agree k self v env w :
  (run_method Talk.dip_problem2 (S k) "Lamp" "turn_on" self [] env w
     = DipProblem2.Lamp_turn_on self env w
   /\ run_method Talk.dip_problem2 (S k) "Lamp" "turn_off" self [] env w
      = DipProblem2.Lamp_turn_off self env w
   /\ run_method Talk.dip_problem2 (S k) "Button" "__init__" self [v] env w
      = DipProblem2.Button_init self v env w
   /\ run_method Talk.dip_problem2 (S k) "Button" "get_physical_state" self []
        env w
      = DipProblem2.Button_get_physical_state self env w)
  /\ (run_method Talk.dip_solution2 (S k) "Lamp" "turn_on" self [] env w
        = DipSolution2.ButtonClient_turn_on self env w
      /\ run_method Talk.dip_solution2 (S k) "Lamp" "turn_off" self [] env w
         = DipSolution2.ButtonClient_turn_off self env w
      /\ run_method Talk.dip_solution2 (S k) "Button" "__init__" self [v] env w
         = DipSolution2.Button_init self v env w
      /\ run_method Talk.dip_solution2 (S k) "Button" "get_state" self [] env w
         = DipSolution2.Button_get_state self env w).
Proof.
  unfold DipProblem2.Button_init, DipSolution2.Button_init.
  repeat split; agree.
Qed.

End Agreement.

(** [Button.detect] on a [Button], with a client from elsewhere. *)
Lemma Button_detect_agrees `{Externals} k l o client c env w :
  heap w !! l = Some o ->
  ocls o = "Button" ->
  oattrs o !! "button_client" = Some client ->
  class_of client env w = (Ok c, w) ->
  known Talk.dip_solution2 c = None ->
  run_method Talk.dip_solution2 (S (S k)) "Button" "detect" (VRef l) [] env w
    = DipSolution2.Button_detect (VRef l) env w
  /\ run_method Solid.dip_solution2 (S (S k)) "Button" "detect" (VRef l) []
       env w
     = DipSolution2.Button_detect (VRef l) env w.
Proof.
  intros Hl Hcls Ha Hc Hk.
  pose proof (class_of_instance env w l o Hl) as Hself. rewrite Hcls in Hself.
  assert (known Solid.dip_solution2 c = None) as Hk' by exact Hk.
  assert (getattr (VRef l) "button_client" env w = (Ok client, w)) as Hget.
  { unfold getattr, read_attr. by rewrite Hl, Ha. }
  unfold DipSolution2.Button_detect, DipSolution2.get_state,
    DipSolution2.Button_get_state.
  split; agree.
Qed.

Lemma Button_detect_problem_agrees `{Externals} k l o lamp c env w :
  heap w !! l = Some o ->
  ocls o = "Button" ->
  oattrs o !! "lamp" = Some lamp ->
  class_of lamp env w = (Ok c, w) ->
  known Talk.dip_problem2 c = None ->
  run_method Talk.dip_problem2 (S (S k)) "Button" "detect" (VRef l) [] env w
  = DipProblem2.Button_detect (VRef l) env w.
Proof.
  intros Hl Hcls Ha Hc Hk.
  pose proof (class_of_instance env w l o Hl) as Hself. rewrite Hcls in Hself.
  assert (getattr (VRef l) "lamp" env w = (Ok lamp, w)) as Hget.
  { unfold getattr, read_attr. by rewrite Hl, Ha. }
  unfold DipProblem2.Button_detect, DipProblem2.get_physical_state,
    DipProblem2.Button_get_physical_state.
  agree.
Qed.

(** The same with a [Lamp] of the snippet attached: its [turn_off] is
    [pass], which is what an inert collaborator does. *)
Lemma Button_detect_agrees_with_Lamp k l o lamp lo env w :
  heap w !! l = Some o ->
  ocls o = "Button" ->
  oattrs o !! "button_client" = Some (VRef lamp) ->
  heap w !! lamp = Some lo ->
  ocls lo = "Lamp" ->
  @run_method inert Talk.dip_solution2 (S (S k)) "Button" "detect" (VRef l) []
    env w
  = @DipSolution2.Button_detect inert (VRef l) env w.
Proof.
  intros Hl Hcls Ha Hlamp Hlcls.
  pose proof (class_of_instance env w l o Hl) as Hself. rewrite Hcls in Hself.
  pose proof (class_of_instance env w lamp lo Hlamp) as Hc.
  rewrite Hlcls in Hc.
  assert (getattr (VRef l) "button_client" env w = (Ok (VRef lamp), w)) as Hget.
  { unfold getattr, read_attr. by rewrite Hl, Ha. }
  unfold DipSolution2.Button_detect, DipSolution2.get_state,
    DipSolution2.Button_get_state.
  agree.
Qed.

(** *** The dispatch tables agree with the resolution of the snippets *)

Lemma talk_lsp_problem2_resolution :
  resolve Talk.lsp_problem2 "ProjectTask" "close"
    = Some (MDef "close" ["self"]
        [SIf (EBin OpEq (EAttr (EName "self") "status") (EStr "STARTED"))
           [SRaise (ECall (EName "Exception") [EStr "Cannot close Task"])]
           [];
         SExpr (ECall (EAttr (ECall (EName "super") []) "close") [])])
  /\ resolve Talk.lsp_problem2 "BasicTask" "close"
       = resolve Talk.lsp_problem2 "Task" "close"
  /\ resolve Talk.lsp_problem2 "Task" "close"
       = Some (MDef "close" ["self"]
           [SAssign (EAttr (EName "self") "status") (EStr "CLOSED")])
  /\ class_attr_of Talk.lsp_problem2 "ProjectTask" "status" = Some VNone.
Proof. repeat split; reflexivity. Qed.

Lemma talk_lsp_solution2_resolution :
  resolve Talk.lsp_solution2 "ProjectTask" "can_close"
    = Some (MDef "can_close" ["self"]
        [SReturn (EBin OpEq (EAttr (EName "self") "status") (EStr "STARTED"))])
  /\ resolve Talk.lsp_solution2 "BasicTask" "can_close"
       = Some (MDef "can_close" ["self"] [SReturn ETrue])
  /\ resolve Talk.lsp_solution2 "Task" "can_close"
       = Some (MDef "can_close" ["self"] [SReturn ETrue])
  /\ resolve Talk.lsp_solution2 "ProjectTask" "close"
       = resolve Talk.lsp_solution2 "Task" "close"
  /\ class_attr_of Talk.lsp_solution2 "ProjectTask" "status" = Some VNone.
Proof. repeat split; reflexivity. Qed.

(** *** Task.close and ProjectTask.close, LSP problem #2 *)

Section LspProblem2Facts.
Context `{Externals}.
Import LspProblem2.

(** C5. [Task.close] (the same body in solid.py and talk.py) ends
    normally, sets [status] to ['CLOSED'] and changes nothing else: the
    object keeps its class and every other attribute, the other objects
    and the trace are untouched, and in talk.py [close()] on a [Task] or
    a [BasicTask] is that method. *)
Theorem Task_close_sets_status_only env w l o :
  heap w !! l = Some o ->
  exists w',
    Task_close (VRef l) env w = (Ok VNone, w')
    /\ heap w' !! l
         = Some (mkObject (ocls o) (<["status" := VStr "CLOSED"]> (oattrs o)))
    /\ read_attr env w' (VRef l) "status" = Some (VStr "CLOSED")
    /\ (forall a, a <> "status" ->
          read_attr env w' (VRef l) a = read_attr env w (VRef l) a)
    /\ (forall l', l' <> l -> heap w' !! l' = heap w !! l')
    /\ trace w' = trace w
    /\ (ocls o = "Task" \/ ocls o = "BasicTask" ->
          close (VRef l) env w = Task_close (VRef l) env w).
Proof.
  intros Hl. exists (store_attr w l o "status" (VStr "CLOSED")).
  split; [| split; [| split; [| split; [| split; [| split]]]]].
  - unfold Task_close. run. reflexivity.
  - unfold store_attr; cbn. by rewrite lookup_insert_eq.
  - apply read_attr_store_eq.
  - intros a Ha. apply read_attr_store_ne; [done | congruence].
  - intros l' Hne. by apply heap_store_other.
  - reflexivity.
  - intros [Hc | Hc]; unfold close; unfold_monad; cbn; rewrite Hl; cbn; rewrite Hc; reflexivity.
Qed.


End LspProblem2Facts.

(** *** The arithmetic stubs *)

(** C4. With integers in the fields, the arithmetic stubs return what
    is written in them: [x + y] and [x - y] for
    [Addition.peform_operation] and [Subtraction.peform_operation],
    [2*x + 2*y] for [Shape.get_perimeter], [x2 - x1] and [y2 - y1] for
    [Quadrilateral.get_width] and [get_height]; none changes the
    world. *)
Theorem arithmetic_stubs_compute env w self :
  (forall x y : Z,
     read_attr env w self "x" = Some (VInt x) ->
     read_attr env w self "y" = Some (VInt y) ->
     OcpSolution1.Addition_peform_operation self env w
       = (Ok (VInt (x + y)), w)
     /\ OcpSolution1.Subtraction_peform_operation self env w
          = (Ok (VInt (x - y)), w)
     /\ SolidLspSolution1.Shape_get_perimeter self env w
          = (Ok (VInt (2 * x + 2 * y)), w))
  /\ (forall x1 x2 y1 y2 : Z,
        read_attr env w self "x1" = Some (VInt x1) ->
        read_attr env w self "x2" = Some (VInt x2) ->
        read_attr env w self "y1" = Some (VInt y1) ->
        read_attr env w self "y2" = Some (VInt y2) ->
        TalkLspSolution1.Quadrilateral_get_width self env w
          = (Ok (VInt (x2 - x1)), w)
        /\ TalkLspSolution1.Quadrilateral_get_height self env w
             = (Ok (VInt (y2 - y1)), w)).
Proof.
  split.
  - intros x y Hx Hy.
    unfold OcpSolution1.Addition_peform_operation,
      OcpSolution1.Subtraction_peform_operation,
      SolidLspSolution1.Shape_get_perimeter.
    unfold_monad. rewrite Hx, Hy. cbn. rewrite Hy. cbn. unfold ret.
    repeat split. do 3 f_equal. lia.
  - intros x1 x2 y1 y2 Hx1 Hx2 Hy1 Hy2.
    unfold TalkLspSolution1.Quadrilateral_get_width,
      TalkLspSolution1.Quadrilateral_get_height.
    unfold_monad. rewrite Hx2, Hy2. cbn. rewrite Hx1, Hy1. cbn. by unfold ret.
Qed.

(** *** Task.close, LSP solution #2 of talk.py *)

Section TalkLspSolution2Facts.
Context `{Externals}.
Import TalkLspSolution2.

(** Whatever [can_close()] does, [Task.close] ends in an exception. *)
Lemma Task_close_never_returns self env w :
  exists e w', Task_close self env w = (Raise e, w').
Proof.
  unfold Task_close, bind.
  destruct (can_close self env w) as [[ok | e] w1]; [| eauto].
  destruct ((if truthy ok then setattr self "status" (VStr "CLOSED") else skip)
              env w1) as [[v | e] w2]; [| eauto].
  unfold raise. eauto.
Qed.

(** C8. [Task.close] of the solution never returns normally.  On a
    [Task] or a [BasicTask], and on a [ProjectTask] whose status is
    ['STARTED'], [can_close()] is true: [status] is set to ['CLOSED']
    and [Exception("Cannot close Task")] is raised all the same, so the
    error leaves the object changed.  On a [ProjectTask] with any other
    status the same exception is raised and nothing changes. *)
Theorem Task_close_always_raises w l o :
  let env := env_of Talk.file Talk.lsp_solution2 in
  heap w !! l = Some o ->
  (forall self env' w0, exists e w', Task_close self env' w0 = (Raise e, w'))
  /\ (ocls o = "Task" \/ ocls o = "BasicTask" ->
        can_close (VRef l) env w = (Ok (VBool true), w)
        /\ Task_close (VRef l) env w
             = (Raise (Exception_ "Cannot close Task"),
                store_attr w l o "status" (VStr "CLOSED")))
  /\ (ocls o = "ProjectTask" ->
        exists status,
          read_attr env w (VRef l) "status" = Some status
          /\ (status = VStr "STARTED" ->
                can_close (VRef l) env w = (Ok (VBool true), w)
                /\ Task_close (VRef l) env w
                     = (Raise (Exception_ "Cannot close Task"),
                        store_attr w l o "status" (VStr "CLOSED"))
                /\ read_attr env (store_attr w l o "status" (VStr "CLOSED"))
                     (VRef l) "status" <> read_attr env w (VRef l) "status")
          /\ (status <> VStr "STARTED" ->
                can_close (VRef l) env w = (Ok (VBool false), w)
                /\ Task_close (VRef l) env w
                     = (Raise (Exception_ "Cannot close Task"), w))).
Proof.
  intros env Hl. split; [| split].
  - apply Task_close_never_returns.
  - intros Hc.
    assert (can_close (VRef l) env w = (Ok (VBool true), w)) as Hcan.
    { unfold can_close, Task_can_close. unfold_monad. cbn. rewrite Hl. cbn.
      destruct Hc as [-> | ->]; reflexivity. }
    split; [done |].
    unfold Task_close, bind. rewrite Hcan. cbn.
    unfold setattr, raise. by rewrite Hl.
  - intros Hc.
    assert (exists status, read_attr env w (VRef l) "status" = Some status)
      as [status Hs].
    { unfold read_attr. rewrite Hl, Hc.
      destruct (oattrs o !! "status") as [v |]; [by exists v |].
      by exists VNone. }
    assert (can_close (VRef l) env w
              = (Ok (VBool (py_eq status (VStr "STARTED"))), w)) as Hcan.
    { unfold can_close, ProjectTask_can_close. unfold_monad. cbn.
      rewrite Hl; cbn; rewrite Hc. cbn. by rewrite Hs. }
    exists status. split; [done |]. split.
    + intros ->. rewrite Hcan. cbn. split; [done |]. split.
      * unfold Task_close, bind. rewrite Hcan. cbn.
        unfold setattr, raise. by rewrite Hl.
      * rewrite read_attr_store_eq, Hs. discriminate.
    + intros Hne.
      assert (py_eq status (VStr "STARTED") = false) as E.
      { destruct (py_eq status (VStr "STARTED")) eqn:E; [| done].
        apply py_eq_str in E. congruence. }
      rewrite Hcan, E. split; [done |].
      unfold Task_close, bind. rewrite Hcan, E. reflexivity.
Qed.

End TalkLspSolution2Facts.

(** *** Square.set_width and Square.set_height, LSP problem #1 of talk.py *)

Section TalkLspProblem1Facts.
Context `{Externals}.
Import TalkLspProblem1.

(** Neither [set_height] nor [set_width] is a global of talk.py: they
    are attributes of the classes only. *)
Lemma setters_are_not_globals :
  globals_of Talk.file "set_height" = None
  /\ globals_of Talk.file "set_width" = None.
Proof. split; reflexivity. Qed.

(** C9. [Square.set_width(w)] stores [w] in [width] and then raises
    [NameError] on [set_height], so that [height] is as it was; and
    [Square.set_height(h)] stores [h] in [height] and raises [NameError]
    on [set_width], with [width] as it was. *)
Theorem Square_setters_raise_NameError w l o v :
  let env := env_of Talk.file Talk.lsp_problem1 in
  heap w !! l = Some o ->
  (Square_set_width (VRef l) v env w
     = (Raise (NameError "set_height"), store_attr w l o "width" v)
   /\ read_attr env (store_attr w l o "width" v) (VRef l) "width" = Some v
   /\ read_attr env (store_attr w l o "width" v) (VRef l) "height"
        = read_attr env w (VRef l) "height")
  /\ (Square_set_height (VRef l) v env w
        = (Raise (NameError "set_width"), store_attr w l o "height" v)
      /\ read_attr env (store_attr w l o "height" v) (VRef l) "height" = Some v
      /\ read_attr env (store_attr w l o "height" v) (VRef l) "width"
           = read_attr env w (VRef l) "width").
Proof.
  intros env Hl. split; (split; [| split]).
  - unfold Square_set_width. unfold_monad. cbn. by rewrite Hl.
  - apply read_attr_store_eq.
  - by apply read_attr_store_ne.
  - unfold Square_set_height. unfold_monad. cbn. by rewrite Hl.
  - apply read_attr_store_eq.
  - by apply read_attr_store_ne.
Qed.

End TalkLspProblem1Facts.

(** *** CopyProgram.copy, DIP problem #1 *)

Section DipProblem1Facts.
Context `{Externals}.
Import DipProblem1.

(** C6. In both files [CopyProgram.copy] of the problem version stops
    at its first name: [ReadKeyboard] is bound neither by the file nor
    by the builtins (no more than [WritePrinter] and [WriteDisk]), so for
    every receiver, whatever its [device], [copy] raises [NameError] and
    leaves the world as it found it: nothing was called, entered or
    written. *)
Theorem CopyProgram_copy_stops_at_ReadKeyboard self w :
  (CopyProgram_copy self (env_of Solid.file Solid.dip_problem1) w
     = (Raise (NameError "ReadKeyboard"), w)
   /\ CopyProgram_copy self (env_of Talk.file Talk.dip_problem1) w
        = (Raise (NameError "ReadKeyboard"), w))
  /\ Forall (fun x => globals_of Solid.file x = None
                      /\ globals_of Talk.file x = None)
       ["ReadKeyboard"; "WritePrinter"; "WriteDisk"].
Proof.
  split; [split; reflexivity |].
  repeat constructor.
Qed.

End DipProblem1Facts.

(** With the three names bound and externals that only record, the same
    method does reach the device: the failure above comes from the
    names, not from the translation. *)
Example CopyProgram_copy_with_names_bound :
  let env := mkEnv (fun x => Some (VGlobal x)) (fun _ _ => None) in
  let self :=
    mkObject "CopyProgram"
      {[ "device" := VGlobal "Disk"; "devices" := VGlobal "devices" ]} in
  @DipProblem1.CopyProgram_copy recording (VRef 0%nat) env
     (mkWorld {[ 0%nat := self ]} [])
  = (Ok VNone,
     mkWorld {[ 0%nat := self ]}
       [Called (VGlobal "ReadKeyboard") [];
        Invoke VNone "__enter__" [];
        Invoke (VGlobal "devices") "get" [VStr "printer"];
        Called (VGlobal "WriteDisk") [VNone];
        Invoke VNone "__exit__" []]).
Proof. reflexivity. Qed.

(** *** Button.detect, DIP problem #2 and solution #2 *)

Lemma Button_resolution :
  resolve Talk.dip_solution2 "Button" "get_state"
    = Some (MDef "get_state" ["self"] [SPass])
  /\ resolve Talk.dip_problem2 "Button" "get_physical_state"
       = Some (MDef "get_physical_state" ["self"] [SPass])
  /\ resolve Talk.dip_solution2 "Lamp" "turn_off"
       = Some (MDef "turn_off" ["self"] [SPass])
  /\ resolve Solid.dip_solution2 "Button" = resolve Talk.dip_solution2 "Button"
  /\ Solid.dip_problem2 = Talk.dip_problem2.
Proof. repeat split; reflexivity. Qed.

Section ButtonFacts.
Context `{Externals}.


End ButtonFacts.

(** *** The shapes of the method bodies *)

Import Lex Grammar Survey.



(** *** Parsing *)

(** The recogniser accepts every body of the two files that parses,
    printed back to lines. *)
Lemma parsed_bodies_are_accepted :
  forallb (fun b => match check_body (print_body b) with
                    | Accept => true
                    | SyntaxError _ => false
                    end)
          (parsed_bodies Solid.file ++ parsed_bodies Talk.file) = true
  /\ length (parsed_bodies Solid.file ++ parsed_bodies Talk.file) = 131%nat.
Proof. split; vm_compute; reflexivity. Qed.

(** With [elif] for the first [else], the body of
    [ReportGenerator.print] would be accepted. *)
Lemma ReportGenerator_print_with_elif :
  let fix_line (l : line) :=
    match toks l with
    | TName "else" :: TName x :: r =>
        mkLine (lineno l) (indent l) (TName "elif" :: TName x :: r)
    | _ => l
    end in
  check_body
    (map fix_line
       (body_lines (resolve Talk.ocp_problem2 "ReportGenerator" "print")))
  = Accept.
Proof. vm_compute. reflexivity. Qed.

(** C2. The body of the problem version of [ReportGenerator.print] is
    not Python: its line [else ink_type == 'COLOR':] has tokens between
    [else] and the colon.  That is the first syntax error of solid.py
    (line 117) and of talk.py (line 165), so neither file compiles, and
    running either binds no name and runs no statement. *)
Theorem ReportGenerator_print_is_a_syntax_error :
  let solid_print :=
    body_lines (resolve Solid.ocp_problem2 "ReportGenerator" "print") in
  let talk_print :=
    body_lines (resolve Talk.ocp_problem2 "ReportGenerator" "print") in
  let else_line :=
    [TName "else"; TName "ink_type"; TOp "=="; TStr "COLOR"; TOp ":"] in
  (In (mkLine 117 8 else_line) solid_print
   /\ In (mkLine 165 8 else_line) talk_print)
  /\ (check_body solid_print = SyntaxError 117
      /\ check_body talk_print = SyntaxError 165)
  /\ (compile Solid.file = SyntaxError 117
      /\ compile Talk.file = SyntaxError 165)
  /\ (run_module Solid.file = ([], Some (NotCompiled 117))
      /\ run_module Talk.file = ([], Some (NotCompiled 165))).
Proof.
  cbv zeta. split; [| repeat split; vm_compute; reflexivity].
  split; vm_compute; tauto.
Qed.

(** *** The two files side by side *)

Lemma own_unnumbered (ms : list member) (a : string) :
  own (map unnumbered_member ms) a = option_map unnumbered_member (own ms a).
Proof.
  unfold own. rewrite <- map_rev.
  induction (rev ms) as [| m ms' IH]; [reflexivity |].
  cbn [map find].
  assert (named a (unnumbered_member m) = named a m) as ->.
  { by destruct m. }
  destruct (named a m); [reflexivity | exact IH].
Qed.

Lemma lookup_def_unnumbered (env : list item) (c a : string) :
  lookup_def (map unnumbered_item env) c a
  = option_map (fun d => (fst d, unnumbered_member (snd d)))
               (lookup_def env c a).
Proof.
  revert c. induction env as [| it env IH]; intros c; [reflexivity |].
  destruct it as [n bases ms | n ps b | md n];
    cbn [map unnumbered_item lookup_def]; try apply IH.
  destruct (String.eqb n c); [| apply IH].
  rewrite own_unnumbered.
  destruct (own ms a) as [m |]; [reflexivity |]. cbn [option_map].
  induction bases as [| b bases IHb]; [reflexivity |].
  cbn [through]. rewrite IH.
  destruct (lookup_def env b a); [reflexivity | exact IHb].
Qed.

Lemma lookup_unnumbered (env : list item) (c a : string) :
  lookup (map unnumbered_item env) c a
  = option_map unnumbered_member (lookup env c a).
Proof.
  unfold lookup. rewrite lookup_def_unnumbered.
  by destruct (lookup_def env c a).
Qed.

(** Snippets equal up to line numbers resolve alike. *)
Lemma same_definitions_same_resolution (s t : snippet) :
  unnumbered s = unnumbered t -> same_resolution s t.
Proof.
  intros Heq c a. unfold resolve.
  rewrite <- !lookup_unnumbered, !map_rev.
  change (map unnumbered_item (sitems s)) with (sitems (unnumbered s)).
  change (map unnumbered_item (sitems t)) with (sitems (unnumbered t)).
  by rewrite Heq.
Qed.

(** C7, as stated, fails on ISP solution #1, which both files have: in
    solid.py the chargers derive from [object], in talk.py from
    [Charger], whose [charge] and [disconnect] they inherit. *)
Lemma chargers_differ_between_the_files :
  snippet_at Solid.file (ISP, Solution, 1%nat) = Some Solid.isp_solution1
  /\ snippet_at Talk.file (ISP, Solution, 1%nat) = Some Talk.isp_solution1
  /\ resolve Solid.isp_solution1 "AndroidCharger" "charge" = None
  /\ resolve Talk.isp_solution1 "AndroidCharger" "charge"
       = Some (MDef "charge" ["self"] [SPass])
  /\ ~ same_resolution Solid.isp_solution1 Talk.isp_solution1.
Proof.
  repeat split; try reflexivity.
  intros Hsame. specialize (Hsame "AndroidCharger" "charge"). discriminate.
Qed.

(** C7, amended.  The classes of the Modem, Quadrilateral and
    immutable-point examples are defined in talk.py and not in solid.py
    (which alone has [ShapeCalculator]).  Of the seventeen headings the
    files share, ten hold the same definitions in both, which therefore
    resolve every attribute alike; under the other seven the definitions
    differ. *)
Theorem talk_extends_solid_up_to_seven_snippets :
  Forall (fun c => defines_class Talk.file c = true
                   /\ defines_class Solid.file c = false) talk_only_classes
  /\ (defines_class Solid.file "ShapeCalculator" = true
      /\ defines_class Talk.file "ShapeCalculator" = false)
  /\ (forall h, In h shared_headings <->
                In h same_in_both \/ In h changed_in_talk)
  /\ Forall same_definitions same_in_both
  /\ Forall (fun h => forall s t,
               snippet_at Solid.file h = Some s ->
               snippet_at Talk.file h = Some t ->
               same_resolution s t) same_in_both
  /\ Forall different_definitions changed_in_talk.
Proof.
  split; [repeat constructor |].
  split; [split; reflexivity |].
  split.
  { intros h. rewrite <- in_app_iff. unfold shared_headings, same_in_both,
      changed_in_talk. cbn. intuition (subst; tauto). }
  assert (Forall same_definitions same_in_both) as Hsame.
  { repeat constructor; eexists _, _;
      (split; [reflexivity | split; [reflexivity | reflexivity]]). }
  split; [exact Hsame |]. split.
  - eapply Forall_impl; [exact Hsame |].
    intros h (s & t & Hs & Ht & Heq) s' t' Hs' Ht'.
    rewrite Hs in Hs'. rewrite Ht in Ht'.
    injection Hs' as <-. injection Ht' as <-.
    by apply same_definitions_same_resolution.
  - repeat constructor; eexists _, _;
      (split; [reflexivity | split; [reflexivity | discriminate]]).
Qed.

(** *** The properties at concrete objects *)

Lemma Task_close_sets_status_only_witness :
  let o := mkObject "Task" {[ "owner" := VStr "ann" ]} in
  let w := mkWorld {[ 0%nat := o ]} [] in
  let env := env_of Talk.file Talk.lsp_problem2 in
  heap w !! 0%nat = Some o
  /\ exists w',
       LspProblem2.Task_close (VRef 0%nat) env w = (Ok VNone, w')
       /\ read_attr env w' (VRef 0%nat) "status" = Some (VStr "CLOSED")
       /\ read_attr env w' (VRef 0%nat) "owner" = Some (VStr "ann").
Proof.
  intros o w env.
  assert (heap w !! 0%nat = Some o) as Hl by reflexivity.
  split; [exact Hl |].
  destruct (@Task_close_sets_status_only recording env w 0%nat o Hl)
    as (w' & Hrun & _ & Hstatus & Hframe & _).
  exists w'. split; [exact Hrun |]. split; [exact Hstatus |].
  rewrite (Hframe "owner"); [reflexivity | discriminate].
Defined.


Lemma arithmetic_stubs_compute_witness :
  let env := env_of Talk.file Talk.ocp_solution1 in
  let o := mkObject "Addition" {[ "x" := VInt 7; "y" := VInt 5 ]} in
  let q :=
    mkObject "Quadrilateral"
      {[ "x1" := VInt 10; "x2" := VInt 5; "y1" := VInt 6; "y2" := VInt 3 ]} in
  let w := mkWorld {[ 0%nat := o; 1%nat := q ]} [] in
  (read_attr env w (VRef 0%nat) "x" = Some (VInt 7)
   /\ read_attr env w (VRef 0%nat) "y" = Some (VInt 5)
   /\ read_attr env w (VRef 1%nat) "x1" = Some (VInt 10)
   /\ read_attr env w (VRef 1%nat) "x2" = Some (VInt 5)
   /\ read_attr env w (VRef 1%nat) "y1" = Some (VInt 6)
   /\ read_attr env w (VRef 1%nat) "y2" = Some (VInt 3))
  /\ OcpSolution1.Addition_peform_operation (VRef 0%nat) env w
     = (Ok (VInt 12), w)
  /\ OcpSolution1.Subtraction_peform_operation (VRef 0%nat) env w
     = (Ok (VInt 2), w)
  /\ SolidLspSolution1.Shape_get_perimeter (VRef 0%nat) env w
     = (Ok (VInt 24), w)
  /\ TalkLspSolution1.Quadrilateral_get_width (VRef 1%nat) env w
     = (Ok (VInt (-5)), w)
  /\ TalkLspSolution1.Quadrilateral_get_height (VRef 1%nat) env w
     = (Ok (VInt (-3)), w).
Proof.
  intros env o q w.
  assert (read_attr env w (VRef 0%nat) "x" = Some (VInt 7)) as Hx by reflexivity.
  assert (read_attr env w (VRef 0%nat) "y" = Some (VInt 5)) as Hy by reflexivity.
  assert (read_attr env w (VRef 1%nat) "x1" = Some (VInt 10)) as Hx1
    by reflexivity.
  assert (read_attr env w (VRef 1%nat) "x2" = Some (VInt 5)) as Hx2
    by reflexivity.
  assert (read_attr env w (VRef 1%nat) "y1" = Some (VInt 6)) as Hy1
    by reflexivity.
  assert (read_attr env w (VRef 1%nat) "y2" = Some (VInt 3)) as Hy2
    by reflexivity.
  split; [repeat split; assumption |].
  destruct (proj1 (arithmetic_stubs_compute env w (VRef 0%nat)) 7 5 Hx Hy)
    as (Hadd & Hsub & Hper).
  destruct (proj2 (arithmetic_stubs_compute env w (VRef 1%nat)) 10 5 6 3
              Hx1 Hx2 Hy1 Hy2) as (Hwidth & Hheight).
  repeat split; assumption.
Defined.

Lemma Task_close_always_raises_witness :
  let env := env_of Talk.file Talk.lsp_solution2 in
  let o := mkObject "ProjectTask" {[ "status" := VStr "STARTED" ]} in
  let w := mkWorld {[ 0%nat := o ]} [] in
  (heap w !! 0%nat = Some o /\ ocls o = "ProjectTask")
  /\ @TalkLspSolution2.Task_close recording (VRef 0%nat) env w
     = (Raise (Exception_ "Cannot close Task"),
        store_attr w 0%nat o "status" (VStr "CLOSED")).
Proof.
  intros env o w.
  assert (heap w !! 0%nat = Some o) as Hl by reflexivity.
  assert (ocls o = "ProjectTask") as Hc by reflexivity.
  split; [split; assumption |].
  destruct (@Task_close_always_raises recording w 0%nat o Hl)
    as (_ & _ & Hproject).
  destruct (Hproject Hc) as (status & Hs & Hstarted & _).
  change (Some (VStr "STARTED") = Some status) in Hs.
  injection Hs as <-.
  exact (proj1 (proj2 (Hstarted (Logic.eq_refl _)))).
Defined.

Lemma Square_setters_raise_NameError_witness :
  let env := env_of Talk.file Talk.lsp_problem1 in
  let o := mkObject "Square" {[ "height" := VInt 3 ]} in
  let w := mkWorld {[ 0%nat := o ]} [] in
  heap w !! 0%nat = Some o
  /\ @TalkLspProblem1.Square_set_width recording (VRef 0%nat) (VInt 5) env w
     = (Raise (NameError "set_height"), store_attr w 0%nat o "width" (VInt 5))
  /\ read_attr env (store_attr w 0%nat o "width" (VInt 5)) (VRef 0%nat) "height"
     = Some (VInt 3).
Proof.
  intros env o w.
  assert (heap w !! 0%nat = Some o) as Hl by reflexivity.
  split; [exact Hl |].
  destruct (@Square_setters_raise_NameError recording w 0%nat o (VInt 5) Hl)
    as ((Hrun & _ & Hheight) & _).
  split; [exact Hrun |].
  fold env in Hheight. rewrite Hheight. reflexivity.
Defined.


Lemma talk_extends_solid_up_to_seven_snippets_witness :
  (snippet_at Solid.file (OCP, Problem, 2%nat) = Some Solid.ocp_problem2
   /\ snippet_at Talk.file (OCP, Problem, 2%nat) = Some Talk.ocp_problem2)
  /\ same_resolution Solid.ocp_problem2 Talk.ocp_problem2.
Proof.
  assert (snippet_at Solid.file (OCP, Problem, 2%nat) = Some Solid.ocp_problem2)
    as Hs by reflexivity.
  assert (snippet_at Talk.file (OCP, Problem, 2%nat) = Some Talk.ocp_problem2)
    as Ht by reflexivity.
  split; [split; assumption |].
  destruct talk_extends_solid_up_to_seven_snippets
    as (_ & _ & _ & _ & Hres & _).
  refine (proj1 (Forall_forall _ _) Hres (OCP, Problem, 2%nat) _ _ _ Hs Ht).
  unfold same_in_both. rewrite !list_elem_of_In. cbn. tauto.
Defined.

(** ** More properties of the two files *)

(** *** The further translations are the meaning of the parsed bodies *)

Section MoreAgreement.
Context `{Externals}.

Lemma SrpProblem1_agrees k self hours env w :
  (run_method Talk.srp_problem1 (S k) "Employee" "calculate" self [] env w
     = SrpProblem1.Employee_calculate self env w
   /\ run_method Talk.srp_problem1 (S k) "Employee" "save" self [] env w
      = SrpProblem1.Employee_save self env w)
  /\ (class_of self env w = (Ok (Some "Employee"), w) ->
      run_method Talk.srp_problem1 (S (S k)) "Employee" "calculate_pay" self []
        env w
      = SrpProblem1.Employee_calculate_pay self env w
      /\ run_method Talk.srp_problem1 (S (S k)) "Employee" "report_hours" self
           [hours] env w
         = SrpProblem1.Employee_report_hours self hours env w)
  /\ Solid.srp_problem1 = Talk.srp_problem1.
Proof.
  unfold SrpProblem1.Employee_calculate_pay,
    SrpProblem1.Employee_report_hours, SrpProblem1.calculate,
    SrpProblem1.Employee_calculate.
  split; [split; agree |]. split; [| reflexivity].
  intros Hc. split; agree.
Qed.

Lemma SrpSolution1_agrees k self employee env w :
  (class_of self env w = (Ok (Some "PaymentCalculator"), w) ->
   run_method Talk.srp_solution1 (S k) "PaymentCalculator" "calculate_pay"
     self [employee] env w
   = SrpSolution1.PaymentCalculator_calculate_pay self employee env w)
  /\ (class_of self env w = (Ok (Some "Reporter"), w) ->
      run_method Talk.srp_solution1 (S k) "Reporter" "report_hours"
        self [employee] env w
      = SrpSolution1.Reporter_report_hours self employee env w)
  /\ run_method Talk.srp_solution1 (S k) "EmployeeRepository" "save"
       self [employee] env w
     = SrpSolution1.EmployeeRepository_save self employee env w
  /\ Solid.srp_solution1 = Talk.srp_solution1.
Proof.
  unfold SrpSolution1.PaymentCalculator_calculate_pay,
    SrpSolution1.Reporter_report_hours, SrpSolution1.calculate.
  split; [intros Hc; agree |]. split; [intros Hc; agree |].
  split; [agree | reflexivity].
Qed.

Lemma OcpProblem1_agrees k self operation env w :
  run_method Talk.ocp_problem1 (S k) "BasicCalculator" "calculate" self
    [operation] env w
  = OcpProblem1.BasicCalculator_calculate self operation env w
  /\ Solid.ocp_problem1 = Talk.ocp_problem1.
Proof.
  unfold OcpProblem1.BasicCalculator_calculate. split; [agree | reflexivity].
Qed.

Lemma OcpSolution1Calculator_agrees k self operation c env w :
  class_of operation env w = (Ok (Some c), w) ->
  c = "Operation" \/ c = "Addition" \/ c = "Subtraction" ->
  run_method Talk.ocp_solution1 (S k) "BasicCalculator" "calculate" self
    [operation] env w
  = OcpSolution1Calculator.BasicCalculator_calculate self operation env w.
Proof.
  unfold OcpSolution1Calculator.BasicCalculator_calculate,
    OcpSolution1Calculator.perform_operation.
  intros Hc [-> | [-> | ->]]; agree.
Qed.

Lemma OcpSolution2_agrees k self v env w :
  (run_method Talk.ocp_solution2 (S k) "ReportGenerator" "__init__" self [v]
     env w
   = OcpSolution2.ReportGenerator_init self v env w
   /\ run_method Talk.ocp_solution2 (S k) "Printer" "print" self [v] env w
      = OcpSolution2.Printer_print self v env w
   /\ run_method Talk.ocp_solution2 (S k) "ColorPrinter" "print" self [v]
        (env_of Talk.file Talk.ocp_solution2) w
      = OcpSolution2.ColorPrinter_print self v
          (env_of Talk.file Talk.ocp_solution2) w
   /\ run_method Talk.ocp_solution2 (S k) "BWPrinter" "print" self [v]
        (env_of Talk.file Talk.ocp_solution2) w
      = OcpSolution2.BWPrinter_print self v
          (env_of Talk.file Talk.ocp_solution2) w)
  /\ (forall printer c,
        getattr self "printer" env w = (Ok printer, w) ->
        class_of printer env w = (Ok (Some c), w) ->
        c = "Printer" \/ c = "ColorPrinter" \/ c = "BWPrinter" ->
        run_method Talk.ocp_solution2 (S k) "ReportGenerator" "print" self [v]
          env w
        = OcpSolution2.ReportGenerator_print self v env w
        /\ run_method Solid.ocp_solution2 (S k) "ReportGenerator" "print" self
             [v; VNone] env w
           = OcpSolution2.ReportGenerator_print self v env w).
Proof.
  unfold OcpSolution2.ReportGenerator_init, OcpSolution2.Printer_print,
    OcpSolution2.ReportGenerator_print, OcpSolution2.print_file.
  split.
  - split; [agree |]. split; [agree |]. split; reflexivity.
  - intros printer c Hget Hc [-> | [-> | ->]]; split; agree.
Qed.

(** The body of the loop of [draw_all_shapes], problem version. *)
Lemma OcpProblem3_body_agrees k shape env w :
  match function_of Talk.ocp_problem3 "draw_all_shapes" with
  | Some (_, [SFor x _ body]) =>
      (r <- exec_block Talk.ocp_problem3 (enter Talk.ocp_problem3 k) ""
              [(x, shape)] body ;;
       match r with
       | Normal _ => ret VNone
       | Returned v => ret v
       end) env w
      = OcpProblem3.draw_shape shape env w
  | _ => False
  end.
Proof. unfold OcpProblem3.draw_shape. agree. Qed.

Lemma TalkLspPoints_agree k self x y env w :
  run_method Talk.lsp_problem3 (S k) "MutablePoint" "__init__" self [x; y]
    env w
  = TalkLspPoints.Point_init self x y env w
  /\ run_method Talk.lsp_solution3 (S k) "MutablePoint" "__init__" self [x; y]
       env w
     = TalkLspPoints.Point_init self x y env w
  /\ run_method Talk.lsp_solution3 (S k) "ImmutablePoint" "__init__" self
       [x; y] env w
     = TalkLspPoints.Point_init self x y env w
  /\ run_method Talk.lsp_problem3 (S k) "MutablePoint" "set_x" self [x] env w
     = TalkLspPoints.MutablePoint_set_x self x env w
  /\ run_method Talk.lsp_solution3 (S k) "MutablePoint" "set_x" self [x] env w
     = TalkLspPoints.MutablePoint_set_x self x env w
  /\ run_method Talk.lsp_problem3 (S k) "MutablePoint" "set_y" self [y] env w
     = TalkLspPoints.MutablePoint_set_y self y env w
  /\ run_method Talk.lsp_solution3 (S k) "MutablePoint" "set_y" self [y] env w
     = TalkLspPoints.MutablePoint_set_y self y env w.
Proof.
  unfold TalkLspPoints.Point_init, TalkLspPoints.MutablePoint_set_x,
    TalkLspPoints.MutablePoint_set_y.
  repeat split; agree.
Qed.

End MoreAgreement.

(** *** Employee and its split, SRP #1 *)

Section SrpFacts.
Context `{Externals}.

(** X1. On an [Employee], [calculate_pay()] returns [None], the result
    of the empty [calculate], and [report_hours(hours)] with a number of
    hours raises [TypeError]: it multiplies that [None] by [hours].
    Neither changes the world. *)
Theorem Employee_pay_is_None_and_hours_fail env w l o (hours : Z) :
  heap w !! l = Some o ->
  ocls o = "Employee" ->
  SrpProblem1.Employee_calculate_pay (VRef l) env w = (Ok VNone, w)
  /\ SrpProblem1.Employee_report_hours (VRef l) (VInt hours) env w
     = (Raise (TypeError "*"), w).
Proof.
  intros Hl Hc.
  pose proof (class_of_instance env w l o Hl) as Hself. rewrite Hc in Hself.
  unfold SrpProblem1.Employee_calculate_pay,
    SrpProblem1.Employee_report_hours, SrpProblem1.calculate,
    SrpProblem1.Employee_calculate.
  split; unfold bind; rewrite Hself; reflexivity.
Qed.

(** X2. After the split, [PaymentCalculator.calculate_pay] and
    [Reporter.report_hours] call [self.calculate(employee)], which none
    of the new classes defines: on a [PaymentCalculator] and on a
    [Reporter] they raise [AttributeError], whatever the employee, and
    change nothing. *)
Theorem split_classes_lack_calculate env w l o employee :
  heap w !! l = Some o ->
  (ocls o = "PaymentCalculator" ->
     SrpSolution1.PaymentCalculator_calculate_pay (VRef l) employee env w
     = (Raise (AttributeError "calculate"), w))
  /\ (ocls o = "Reporter" ->
        SrpSolution1.Reporter_report_hours (VRef l) employee env w
        = (Raise (AttributeError "calculate"), w)).
Proof.
  intros Hl.
  pose proof (class_of_instance env w l o Hl) as Hself.
  unfold SrpSolution1.PaymentCalculator_calculate_pay,
    SrpSolution1.Reporter_report_hours, SrpSolution1.calculate.
  split; intros Hc; rewrite Hc in Hself; unfold bind; rewrite Hself;
    reflexivity.
Qed.

End SrpFacts.

Lemma Employee_pay_is_None_and_hours_fail_witness :
  let o := mkObject "Employee" ∅ in
  let w := mkWorld {[ 0%nat := o ]} [] in
  (heap w !! 0%nat = Some o /\ ocls o = "Employee")
  /\ @SrpProblem1.Employee_report_hours inert (VRef 0%nat) (VInt 8)
       (env_of Talk.file Talk.srp_problem1) w
     = (Raise (TypeError "*"), w).
Proof.
  intros o w.
  assert (heap w !! 0%nat = Some o) as Hl by reflexivity.
  assert (ocls o = "Employee") as Hc by reflexivity.
  split; [split; assumption |].
  exact (proj2 (@Employee_pay_is_None_and_hours_fail inert
                  (env_of Talk.file Talk.srp_problem1) w 0%nat o 8 Hl Hc)).
Defined.

Lemma split_classes_lack_calculate_witness :
  let o := mkObject "PaymentCalculator" ∅ in
  let w := mkWorld {[ 0%nat := o ]} [] in
  (heap w !! 0%nat = Some o /\ ocls o = "PaymentCalculator")
  /\ @SrpSolution1.PaymentCalculator_calculate_pay inert (VRef 0%nat) VNone
       (env_of Talk.file Talk.srp_solution1) w
     = (Raise (AttributeError "calculate"), w).
Proof.
  intros o w.
  assert (heap w !! 0%nat = Some o) as Hl by reflexivity.
  assert (ocls o = "PaymentCalculator") as Hc by reflexivity.
  split; [split; assumption |].
  exact (proj1 (@split_classes_lack_calculate inert
                  (env_of Talk.file Talk.srp_solution1) w 0%nat o VNone Hl)
           Hc).
Defined.

(** *** The calculators, OCP #1 *)

Section OcpCalculatorFacts.
Context `{Externals}.

(** X3. With the builtin [isinstance], [BasicCalculator.calculate] of
    the problem version returns [x + y] on an instance of [Addition]
    and [x - y] on an instance of [Subtraction]; on anything else (an
    [Operation] of a new kind) it falls off its [if] and returns [None]
    without an error.  The world is unchanged in all three cases. *)
Theorem calculate_by_type f self operation w (x y : Z) :
  f = Solid.file \/ f = Talk.file ->
  isinstance_is_builtin Talk.ocp_problem1 ->
  let env := env_of f Talk.ocp_problem1 in
  let is_a := instance Talk.ocp_problem1 w operation in
  (is_a "Addition" = true ->
     read_attr env w operation "x" = Some (VInt x) ->
     read_attr env w operation "y" = Some (VInt y) ->
     OcpProblem1.BasicCalculator_calculate self operation env w
     = (Ok (VInt (x + y)), w))
  /\ (is_a "Addition" = false -> is_a "Subtraction" = true ->
        read_attr env w operation "x" = Some (VInt x) ->
        read_attr env w operation "y" = Some (VInt y) ->
        OcpProblem1.BasicCalculator_calculate self operation env w
        = (Ok (VInt (x - y)), w))
  /\ (is_a "Addition" = false -> is_a "Subtraction" = false ->
        OcpProblem1.BasicCalculator_calculate self operation env w
        = (Ok VNone, w)).
Proof.
  intros Hf Hbuiltin env is_a.
  assert (globals env "isinstance" = Some (VGlobal "isinstance")
          /\ globals env "Addition" = Some (VGlobal "Addition")
          /\ globals env "Subtraction" = Some (VGlobal "Subtraction"))
    as (Hg1 & Hg2 & Hg3).
  { subst env. by destruct Hf as [-> | ->]. }
  unfold OcpProblem1.BasicCalculator_calculate, bind, global.
  rewrite Hg1, Hg2, Hbuiltin. fold is_a. cbn [truthy].
  split; [| split].
  - intros -> Hx Hy. unfold getattr. by rewrite Hx, Hy.
  - intros -> Hs Hx Hy. rewrite Hg1, Hg3, Hbuiltin. fold is_a.
    rewrite Hs. cbn [truthy]. unfold getattr. by rewrite Hx, Hy.
  - intros -> Hs. rewrite Hg1, Hg3, Hbuiltin. fold is_a. by rewrite Hs.
Qed.

(** X4. [BasicCalculator.calculate] of the solution calls
    [perform_operation], and the operations define [peform_operation]:
    on an [Operation], an [Addition] or a [Subtraction] it raises
    [AttributeError] and changes nothing. *)
Theorem calculate_misses_peform_operation env w self l o :
  heap w !! l = Some o ->
  ocls o = "Operation" \/ ocls o = "Addition" \/ ocls o = "Subtraction" ->
  OcpSolution1Calculator.BasicCalculator_calculate self (VRef l) env w
  = (Raise (AttributeError "perform_operation"), w).
Proof.
  intros Hl Hc.
  pose proof (class_of_instance env w l o Hl) as Hself.
  unfold OcpSolution1Calculator.BasicCalculator_calculate,
    OcpSolution1Calculator.perform_operation, bind.
  rewrite Hself. by destruct Hc as [-> | [-> | ->]].
Qed.

End OcpCalculatorFacts.

Lemma calculate_by_type_witness :
  let E := recording_with_isinstance Talk.ocp_problem1 in
  let env := env_of Talk.file Talk.ocp_problem1 in
  let add := mkObject "Addition" {[ "x" := VInt 7; "y" := VInt 5 ]} in
  let other := mkObject "Operation" {[ "x" := VInt 7; "y" := VInt 5 ]} in
  let w := mkWorld {[ 0%nat := add; 1%nat := other ]} [] in
  (@isinstance_is_builtin E Talk.ocp_problem1
   /\ instance Talk.ocp_problem1 w (VRef 0%nat) "Addition" = true
   /\ instance Talk.ocp_problem1 w (VRef 1%nat) "Addition" = false
   /\ instance Talk.ocp_problem1 w (VRef 1%nat) "Subtraction" = false)
  /\ @OcpProblem1.BasicCalculator_calculate E VNone (VRef 0%nat) env w
     = (Ok (VInt 12), w)
  /\ @OcpProblem1.BasicCalculator_calculate E VNone (VRef 1%nat) env w
     = (Ok VNone, w).
Proof.
  intros E env add other w.
  assert (@isinstance_is_builtin E Talk.ocp_problem1) as HE.
  { intros v d env' w'. reflexivity. }
  assert (instance Talk.ocp_problem1 w (VRef 0%nat) "Addition" = true) as Ha
    by reflexivity.
  assert (instance Talk.ocp_problem1 w (VRef 1%nat) "Addition" = false) as Hna
    by reflexivity.
  assert (instance Talk.ocp_problem1 w (VRef 1%nat) "Subtraction" = false)
    as Hns by reflexivity.
  assert (read_attr env w (VRef 0%nat) "x" = Some (VInt 7)) as Hx
    by reflexivity.
  assert (read_attr env w (VRef 0%nat) "y" = Some (VInt 5)) as Hy
    by reflexivity.
  split; [repeat split; assumption |]. split.
  - exact (proj1 (@calculate_by_type E Talk.file VNone (VRef 0%nat) w 7 5
                    (or_intror (Logic.eq_refl _)) HE) Ha Hx Hy).
  - exact (proj2 (proj2 (@calculate_by_type E Talk.file VNone (VRef 1%nat) w
                           0 0 (or_intror (Logic.eq_refl _)) HE)) Hna Hns).
Defined.

Lemma calculate_misses_peform_operation_witness :
  let o := mkObject "Addition" {[ "x" := VInt 7; "y" := VInt 5 ]} in
  let w := mkWorld {[ 0%nat := o ]} [] in
  let env := env_of Talk.file Talk.ocp_solution1 in
  (heap w !! 0%nat = Some o /\ ocls o = "Addition")
  /\ @OcpSolution1Calculator.BasicCalculator_calculate inert VNone
       (VRef 0%nat) env w
     = (Raise (AttributeError "perform_operation"), w)
  /\ OcpSolution1.Addition_peform_operation (VRef 0%nat) env w
     = (Ok (VInt 12), w).
Proof.
  intros o w env.
  assert (heap w !! 0%nat = Some o) as Hl by reflexivity.
  assert (ocls o = "Addition") as Hc by reflexivity.
  split; [split; assumption |]. split; [| reflexivity].
  exact (@calculate_misses_peform_operation inert env w VNone 0%nat o Hl
           (or_intror (or_introl Hc))).
Defined.

(** *** Constructing an operation and performing it *)

(** X5. After [__init__(x, y)] with two numbers, [peform_operation]
    returns their sum on an [Addition] and their difference on a
    [Subtraction], whatever the fields held before; the object keeps its
    class and its other attributes. *)
Theorem init_then_peform_operation env w l o (x y : Z) :
  heap w !! l = Some o ->
  let built :=
    mkObject (ocls o) (<["y" := VInt y]> (<["x" := VInt x]> (oattrs o))) in
  let w' := mkWorld (<[l := built]> (heap w)) (trace w) in
  (OcpSolution1.Operation_init (VRef l) (VInt x) (VInt y) ;;
   OcpSolution1.Addition_peform_operation (VRef l)) env w
  = (Ok (VInt (x + y)), w')
  /\ (OcpSolution1.Operation_init (VRef l) (VInt x) (VInt y) ;;
      OcpSolution1.Subtraction_peform_operation (VRef l)) env w
     = (Ok (VInt (x - y)), w').
Proof.
  intros Hl built w'.
  assert (OcpSolution1.Operation_init (VRef l) (VInt x) (VInt y) env w
          = (Ok VNone, w')) as Hinit.
  { unfold OcpSolution1.Operation_init, bind, setattr, ret, store_attr.
    rewrite Hl. cbn. rewrite lookup_insert_eq. cbn.
    by rewrite insert_insert_eq. }
  assert (read_attr env w' (VRef l) "x" = Some (VInt x)
          /\ read_attr env w' (VRef l) "y" = Some (VInt y)) as [Hx Hy].
  { unfold read_attr, w', built. cbn. rewrite lookup_insert_eq. cbn.
    rewrite lookup_insert_eq.
    rewrite lookup_insert_ne by discriminate. by rewrite lookup_insert_eq. }
  assert (OcpSolution1.Addition_peform_operation (VRef l) env w'
          = (Ok (VInt (x + y)), w')
          /\ OcpSolution1.Subtraction_peform_operation (VRef l) env w'
             = (Ok (VInt (x - y)), w')) as [Ha Hs].
  { unfold OcpSolution1.Addition_peform_operation,
      OcpSolution1.Subtraction_peform_operation, bind, getattr.
    by rewrite Hx, Hy. }
  split; unfold bind at 1; rewrite Hinit; [exact Ha | exact Hs].
Qed.

Lemma init_then_peform_operation_witness :
  let env := env_of Talk.file Talk.ocp_solution1 in
  let o := mkObject "Addition" {[ "x" := VStr "old"; "note" := VStr "kept" ]} in
  let w := mkWorld {[ 0%nat := o ]} [] in
  heap w !! 0%nat = Some o
  /\ fst ((OcpSolution1.Operation_init (VRef 0%nat) (VInt 7) (VInt 5) ;;
           OcpSolution1.Addition_peform_operation (VRef 0%nat)) env w)
     = Ok (VInt 12).
Proof.
  intros env o w.
  assert (heap w !! 0%nat = Some o) as Hl by reflexivity.
  split; [exact Hl |].
  rewrite (proj1 (init_then_peform_operation env w 0%nat o 7 5 Hl)).
  reflexivity.
Defined.

(** *** Printing a report, OCP solution #2 *)

Section ReportFacts.
Context `{Externals}.

(** X6. [ReportGenerator.print] calls [print_file] on its printer, and
    the printers of the snippet define [print]: with a [Printer], a
    [ColorPrinter] or a [BWPrinter] attached it raises [AttributeError]
    and changes nothing, in both files. *)
Theorem report_is_never_printed env w l o p po filename :
  heap w !! l = Some o ->
  oattrs o !! "printer" = Some (VRef p) ->
  heap w !! p = Some po ->
  ocls po = "Printer" \/ ocls po = "ColorPrinter" \/ ocls po = "BWPrinter" ->
  OcpSolution2.ReportGenerator_print (VRef l) filename env w
  = (Raise (AttributeError "print_file"), w).
Proof.
  intros Hl Ha Hp Hc.
  pose proof (class_of_instance env w p po Hp) as Hcls.
  unfold OcpSolution2.ReportGenerator_print, OcpSolution2.print_file, bind,
    getattr, read_attr.
  rewrite Hl, Ha, Hcls. by destruct Hc as [-> | [-> | ->]].
Qed.

End ReportFacts.

Lemma report_is_never_printed_witness :
  let env := env_of Talk.file Talk.ocp_solution2 in
  let report := mkObject "ReportGenerator" {[ "printer" := VRef 1%nat ]} in
  let printer := mkObject "ColorPrinter" ∅ in
  let w := mkWorld {[ 0%nat := report; 1%nat := printer ]} [] in
  (heap w !! 0%nat = Some report
   /\ oattrs report !! "printer" = Some (VRef 1%nat)
   /\ heap w !! 1%nat = Some printer
   /\ ocls printer = "ColorPrinter")
  /\ @OcpSolution2.ReportGenerator_print recording (VRef 0%nat)
       (VStr "report.txt") env w
     = (Raise (AttributeError "print_file"), w).
Proof.
  intros env report printer w.
  assert (heap w !! 0%nat = Some report) as Hl by reflexivity.
  assert (oattrs report !! "printer" = Some (VRef 1%nat)) as Ha by reflexivity.
  assert (heap w !! 1%nat = Some printer) as Hp by reflexivity.
  assert (ocls printer = "ColorPrinter") as Hc by reflexivity.
  split; [repeat split; assumption |].
  exact (@report_is_never_printed recording env w 0%nat report 1%nat printer
           (VStr "report.txt") Hl Ha Hp (or_intror (or_introl Hc))).
Defined.

(** *** The methods that name a device *)

(** X7. No method reaches a device: [HPLASER], [HPINKJET], [IOUSB1],
    [IOUSB2] and [IOAPPLE] are bound neither by the files nor by the
    builtins, so the [print] of the two printers and every charging
    method raise [NameError] on the device before any call, on every
    receiver and in every world. *)
Theorem device_methods_raise_NameError `{Externals} k self filename w :
  Forall (fun '(s, c, m, args, device) =>
            run_method s (S k) c m self args (env_of Talk.file s) w
              = (Raise (NameError device), w)
            /\ globals_of Talk.file device = None
            /\ globals_of Solid.file device = None)
    [(Talk.ocp_problem2, "ColorPrinter", "print", [filename], "HPLASER");
     (Talk.ocp_problem2, "BWPrinter", "print", [filename], "HPINKJET");
     (Talk.ocp_solution2, "ColorPrinter", "print", [filename], "HPLASER");
     (Talk.ocp_solution2, "BWPrinter", "print", [filename], "HPINKJET");
     (Talk.isp_problem1, "Charger", "charge_usb1", [], "IOUSB1");
     (Talk.isp_problem1, "AndroidCharger", "charge_usb2", [], "IOUSB2");
     (Talk.isp_problem1, "AppleCharger", "charge_apple", [], "IOAPPLE");
     (Talk.isp_solution1, "AndroidCharger", "connect", [], "IOUSB2");
     (Talk.isp_solution1, "AppleCharger", "connect", [], "IOAPPLE");
     (Solid.isp_solution1, "AndroidCharger", "connect", [], "IOUSB2");
     (Solid.isp_solution1, "AppleCharger", "connect", [], "IOAPPLE")].
Proof. repeat constructor. Qed.

(** *** draw_all_shapes, OCP #3 of talk.py *)

Section DrawFacts.
Context `{Externals}.

(** One turn of the loop of the problem version. *)
Lemma draw_shape_outcome shape w :
  isinstance_is_builtin Talk.ocp_problem3 ->
  let env := env_of Talk.file Talk.ocp_problem3 in
  let is_a := instance Talk.ocp_problem3 w shape in
  OcpProblem3.draw_shape shape env w
  = if is_a "Square" then (Raise (NameError "draw_square"), w)
    else if is_a "Circle" then (Raise (NameError "draw_circle"), w)
         else (Ok VNone, w).
Proof.
  intros Hbuiltin env is_a.
  unfold OcpProblem3.draw_shape, bind, global. cbn.
  rewrite Hbuiltin. fold is_a. destruct (is_a "Square"); [reflexivity |].
  cbn. rewrite Hbuiltin. fold is_a. by destruct (is_a "Circle").
Qed.

(** X8. With the builtin [isinstance], [draw_all_shapes] of the problem
    version draws nothing: [draw_square] and [draw_circle] are not
    defined.  On a list without squares and circles (the empty list
    too) it returns [None]; otherwise it raises [NameError] at the first
    square or circle, on [draw_square] for a square and on [draw_circle]
    for a circle.  The world is unchanged in every case. *)
Theorem draw_all_shapes_draws_nothing w before shape after :
  isinstance_is_builtin Talk.ocp_problem3 ->
  let env := env_of Talk.file Talk.ocp_problem3 in
  let is_a := instance Talk.ocp_problem3 w in
  Forall (fun v => is_a v "Square" = false /\ is_a v "Circle" = false)
         before ->
  OcpProblem3.draw_all_shapes before env w = (Ok VNone, w)
  /\ (is_a shape "Square" = true ->
        OcpProblem3.draw_all_shapes (before ++ shape :: after) env w
        = (Raise (NameError "draw_square"), w))
  /\ (is_a shape "Square" = false -> is_a shape "Circle" = true ->
        OcpProblem3.draw_all_shapes (before ++ shape :: after) env w
        = (Raise (NameError "draw_circle"), w)).
Proof.
  intros Hbuiltin. cbv zeta. intros Hbefore.
  pose proof (fun v => draw_shape_outcome v w Hbuiltin) as Hstep.
  cbv zeta in Hstep.
  unfold OcpProblem3.draw_all_shapes.
  induction Hbefore as [| v before [Hs Hc] _ IH].
  - split; [reflexivity |]. cbn [app for_each]. unfold bind.
    rewrite Hstep.
    split; [intros -> | intros -> ->]; reflexivity.
  - cbn [app for_each]. unfold bind at 1 2 3.
    rewrite Hstep, Hs, Hc. exact IH.
Qed.

(** X9. [draw_all_shapes] of the solution returns [None] and leaves the
    world unchanged on every list of [Shape]s, [Circle]s and [Square]s,
    of any length: [Shape.draw], which they share, is empty. *)
Theorem draw_all_shapes_of_the_solution env w shapes :
  Forall (fun v => exists l o,
            v = VRef l /\ heap w !! l = Some o
            /\ (ocls o = "Shape" \/ ocls o = "Circle" \/ ocls o = "Square"))
         shapes ->
  OcpSolution3.draw_all_shapes shapes env w = (Ok VNone, w).
Proof.
  unfold OcpSolution3.draw_all_shapes.
  induction 1 as [| v shapes (l & o & -> & Hl & Hc) _ IH]; [reflexivity |].
  cbn [for_each]. unfold bind at 1.
  assert (OcpSolution3.draw (VRef l) env w = (Ok VNone, w)) as Hdraw.
  { pose proof (class_of_instance env w l o Hl) as Hcls.
    unfold OcpSolution3.draw, bind. rewrite Hcls.
    by destruct Hc as [-> | [-> | ->]]. }
  unfold bind at 1. rewrite Hdraw. exact IH.
Qed.

End DrawFacts.

Lemma draw_all_shapes_draws_nothing_witness :
  let E := recording_with_isinstance Talk.ocp_problem3 in
  let env := env_of Talk.file Talk.ocp_problem3 in
  let w :=
    mkWorld {[ 0%nat := mkObject "Triangle" ∅; 1%nat := mkObject "Circle" ∅;
               2%nat := mkObject "Square" ∅ ]} [] in
  (@isinstance_is_builtin E Talk.ocp_problem3
   /\ Forall (fun v => instance Talk.ocp_problem3 w v "Square" = false
                       /\ instance Talk.ocp_problem3 w v "Circle" = false)
        [VRef 0%nat; VInt 3]
   /\ instance Talk.ocp_problem3 w (VRef 1%nat) "Square" = false
   /\ instance Talk.ocp_problem3 w (VRef 1%nat) "Circle" = true)
  /\ @OcpProblem3.draw_all_shapes E
       ([VRef 0%nat; VInt 3] ++ VRef 1%nat :: [VRef 2%nat]) env w
     = (Raise (NameError "draw_circle"), w).
Proof.
  intros E env w.
  assert (@isinstance_is_builtin E Talk.ocp_problem3) as HE.
  { intros v d env' w'. reflexivity. }
  assert (Forall (fun v => instance Talk.ocp_problem3 w v "Square" = false
                           /\ instance Talk.ocp_problem3 w v "Circle" = false)
            [VRef 0%nat; VInt 3]) as Hbefore.
  { repeat constructor. }
  assert (instance Talk.ocp_problem3 w (VRef 1%nat) "Square" = false) as Hs
    by reflexivity.
  assert (instance Talk.ocp_problem3 w (VRef 1%nat) "Circle" = true) as Hc
    by reflexivity.
  split; [repeat split; assumption |].
  exact (proj2 (proj2 (@draw_all_shapes_draws_nothing E w
                         [VRef 0%nat; VInt 3] (VRef 1%nat) [VRef 2%nat]
                         HE Hbefore)) Hs Hc).
Defined.

Lemma draw_all_shapes_of_the_solution_witness :
  let env := env_of Talk.file Talk.ocp_solution3 in
  let w :=
    mkWorld {[ 0%nat := mkObject "Circle" ∅; 1%nat := mkObject "Square" ∅ ]}
            [] in
  Forall (fun v => exists l o,
            v = VRef l /\ heap w !! l = Some o
            /\ (ocls o = "Shape" \/ ocls o = "Circle" \/ ocls o = "Square"))
         [VRef 0%nat; VRef 1%nat; VRef 0%nat]
  /\ @OcpSolution3.draw_all_shapes inert [VRef 0%nat; VRef 1%nat; VRef 0%nat]
       env w
     = (Ok VNone, w).
Proof.
  intros env w.
  assert (Forall (fun v => exists l o,
            v = VRef l /\ heap w !! l = Some o
            /\ (ocls o = "Shape" \/ ocls o = "Circle" \/ ocls o = "Square"))
         [VRef 0%nat; VRef 1%nat; VRef 0%nat]) as Hshapes.
  { repeat constructor.
    - exists 0%nat, (mkObject "Circle" ∅). repeat split. tauto.
    - exists 1%nat, (mkObject "Square" ∅). repeat split. tauto.
    - exists 0%nat, (mkObject "Circle" ∅). repeat split. tauto. }
  split; [exact Hshapes |].
  exact (@draw_all_shapes_of_the_solution inert env w _ Hshapes).
Defined.

(** *** The function g, LSP #1 of talk.py *)

Lemma class_of_after_store env w l o a x :
  class_of (VRef l) env (store_attr w l o a x)
  = (Ok (Some (ocls o)), store_attr w l o a x).
Proof. unfold class_of, store_attr. cbn. by rewrite lookup_insert_eq. Qed.

Lemma setattr_instance env w l o a x :
  heap w !! l = Some o ->
  setattr (VRef l) a x env w = (Ok VNone, store_attr w l o a x).
Proof. intros Hl. unfold setattr. by rewrite Hl. Qed.

Lemma heap_after_store w l o a x :
  heap (store_attr w l o a x) !! l
  = Some (mkObject (ocls o) (<[a := x]> (oattrs o))).
Proof. unfold store_attr. cbn. by rewrite lookup_insert_eq. Qed.

Section GFacts.
Context `{Externals}.

(** [g] of the problem version is the meaning of its parsed body, on a
    [Rectangle] and, where no global [set_height] exists, on a
    [Square]. *)
Lemma TalkLspProblem1G_agrees k l o env w :
  heap w !! l = Some o ->
  ocls o = "Rectangle"
  \/ (ocls o = "Square" /\ globals env "set_height" = None) ->
  run_function Talk.lsp_problem1 (S (S k)) "g" [VRef l] env w
  = TalkLspProblem1G.g (VRef l) env w.
Proof.
  intros Hl Hc.
  pose proof (class_of_instance env w l o Hl) as Hself.
  pose proof (fun a x => class_of_after_store env w l o a x) as Hself'.
  pose proof (fun a x => setattr_instance env w l o a x Hl) as Hset.
  pose proof (fun a x b y =>
                setattr_instance env _ l _ b y (heap_after_store w l o a x))
    as Hset'.
  unfold run_function, TalkLspProblem1G.g, TalkLspProblem1G.set_width,
    TalkLspProblem1G.set_height, TalkLspProblem1.Rectangle_set_width,
    TalkLspProblem1.Rectangle_set_height, TalkLspProblem1.Square_set_width,
    TalkLspProblem1.Square_set_height.
  destruct Hc as [Hc | [Hc Hg]]; rewrite Hc in Hself, Hself';
    repeat first
      [ progress unfold bind, ret, raise, skip, global
      | progress cbn
      | rewrite Hself | rewrite Hself' | rewrite Hset | rewrite Hset'
      | rewrite Hg ];
    reflexivity.
Qed.

(** X10. [g] sets the width to 5 and the height to 3 on a [Rectangle]
    and returns [None]; on a [Square] it stops in [set_width] with
    [NameError] on [set_height], the width set to 5 and the height as it
    was: the function "works for a rectangle but not for a square". *)
Theorem g_works_for_a_rectangle_only w l o :
  let env := env_of Talk.file Talk.lsp_problem1 in
  heap w !! l = Some o ->
  (ocls o = "Rectangle" ->
     exists w',
       TalkLspProblem1G.g (VRef l) env w = (Ok VNone, w')
       /\ heap w' !! l
            = Some (mkObject "Rectangle"
                      (<["height" := VInt 3]>
                         (<["width" := VInt 5]> (oattrs o))))
       /\ (forall l', l' <> l -> heap w' !! l' = heap w !! l')
       /\ trace w' = trace w)
  /\ (ocls o = "Square" ->
        TalkLspProblem1G.g (VRef l) env w
        = (Raise (NameError "set_height"), store_attr w l o "width" (VInt 5))
        /\ read_attr env (store_attr w l o "width" (VInt 5)) (VRef l) "height"
           = read_attr env w (VRef l) "height").
Proof.
  intros env Hl.
  pose proof (class_of_instance env w l o Hl) as Hself.
  pose proof (fun a x => setattr_instance env w l o a x Hl) as Hset.
  unfold TalkLspProblem1G.g, TalkLspProblem1G.set_width,
    TalkLspProblem1G.set_height, TalkLspProblem1.Rectangle_set_width,
    TalkLspProblem1.Rectangle_set_height, TalkLspProblem1.Square_set_width,
    TalkLspProblem1.Square_set_height.
  split; intros Hc; rewrite Hc in Hself.
  - pose proof (heap_after_store w l o "width" (VInt 5)) as Hl'.
    eexists. split; [| split; [| split]].
    + unfold bind, ret. rewrite Hself. cbn. rewrite Hset.
      rewrite class_of_after_store, Hc. cbn.
      rewrite (setattr_instance env _ l _ "height" (VInt 3) Hl').
      reflexivity.
    + rewrite heap_after_store. cbn. by rewrite Hc.
    + intros l' Hne. by rewrite !heap_store_other.
    + reflexivity.
  - split.
    + unfold bind, ret. rewrite Hself. cbn. by rewrite Hset.
    + by apply read_attr_store_ne.
Qed.

(** [g] of the solution is the meaning of its parsed body, on the three
    classes of the snippet. *)
Lemma TalkLspSolution1G_agrees k l o env w :
  heap w !! l = Some o ->
  ocls o = "Quadrilateral" \/ ocls o = "Rectangle" \/ ocls o = "Square" ->
  run_function Talk.lsp_solution1 (S k) "g" [VRef l] env w
  = TalkLspSolution1G.g (VRef l) env w.
Proof.
  intros Hl Hc.
  pose proof (class_of_instance env w l o Hl) as Hself.
  pose proof (fun a x => class_of_after_store env w l o a x) as Hself'.
  pose proof (fun a x => setattr_instance env w l o a x Hl) as Hset.
  unfold run_function, TalkLspSolution1G.g, TalkLspSolution1G.set_x1,
    TalkLspSolution1G.missing_setter, TalkLspSolution1.Quadrilateral_set_x1.
  destruct Hc as [Hc | [Hc | Hc]]; rewrite Hc in Hself, Hself';
    repeat first
      [ progress unfold bind, ret, raise, skip
      | progress cbn
      | rewrite Hself | rewrite Hself' | rewrite Hset
      | split_run ];
    reflexivity.
Qed.


End GFacts.

(** X12. On a [Quadrilateral], [Rectangle] or [Square] of the solution
    that lacks [x1] or [x2] in its own dictionary, such as a new
    instance or one [g] has been through, [get_width] raises
    [TypeError]: the class attribute [None] is read in its place; and so
    does [get_height] without [y1] or [y2]. *)
Theorem get_width_of_a_new_quadrilateral w l o :
  let env := env_of Talk.file Talk.lsp_solution1 in
  heap w !! l = Some o ->
  ocls o = "Quadrilateral" \/ ocls o = "Rectangle" \/ ocls o = "Square" ->
  (oattrs o !! "x1" = None \/ oattrs o !! "x2" = None ->
     TalkLspSolution1.Quadrilateral_get_width (VRef l) env w
     = (Raise (TypeError "-"), w))
  /\ (oattrs o !! "y1" = None \/ oattrs o !! "y2" = None ->
        TalkLspSolution1.Quadrilateral_get_height (VRef l) env w
        = (Raise (TypeError "-"), w)).
Proof.
  intros env Hl Hc.
  assert (forall a, In a ["x1"; "x2"; "y1"; "y2"] ->
            class_attr env (ocls o) a = Some VNone) as Hdefault.
  { intros a Ha. cbn in Ha.
    destruct Hc as [-> | [-> | ->]];
      destruct Ha as [<- | [<- | [<- | [<- | []]]]]; reflexivity. }
  assert (forall a b,
            In a ["x1"; "x2"; "y1"; "y2"] -> In b ["x1"; "x2"; "y1"; "y2"] ->
            oattrs o !! b = None \/ oattrs o !! a = None ->
            (u <- getattr (VRef l) a ;; v <- getattr (VRef l) b ;; py_sub u v)
              env w
            = (Raise (TypeError "-"), w)) as Hsub.
  { intros a b Ha Hb Hmissing.
    assert (forall c, In c ["x1"; "x2"; "y1"; "y2"] ->
              getattr (VRef l) c env w
              = (Ok (default VNone (oattrs o !! c)), w)) as Hget.
    { intros c Hin. unfold getattr, read_attr. rewrite Hl, (Hdefault c Hin).
      by destruct (oattrs o !! c). }
    unfold bind. rewrite (Hget a Ha), (Hget b Hb).
    unfold py_sub, arith.
    destruct Hmissing as [-> | ->]; cbn.
    - by destruct (as_int (default VNone (oattrs o !! a))).
    - reflexivity. }
  split; intros Hmissing.
  - apply (Hsub "x2" "x1"); cbn; tauto.
  - apply (Hsub "y2" "y1"); cbn; tauto.
Qed.

Lemma g_works_for_a_rectangle_only_witness :
  let env := env_of Talk.file Talk.lsp_problem1 in
  let o := mkObject "Square" {[ "height" := VInt 9 ]} in
  let w := mkWorld {[ 0%nat := o ]} [] in
  (heap w !! 0%nat = Some o /\ ocls o = "Square")
  /\ @TalkLspProblem1G.g inert (VRef 0%nat) env w
     = (Raise (NameError "set_height"), store_attr w 0%nat o "width" (VInt 5)).
Proof.
  intros env o w.
  assert (heap w !! 0%nat = Some o) as Hl by reflexivity.
  assert (ocls o = "Square") as Hc by reflexivity.
  split; [split; assumption |].
  exact (proj1 (proj2 (@g_works_for_a_rectangle_only inert w 0%nat o Hl) Hc)).
Defined.


Lemma get_width_of_a_new_quadrilateral_witness :
  let env := env_of Talk.file Talk.lsp_solution1 in
  let o := mkObject "Rectangle" {[ "x1" := VInt 10 ]} in
  let w := mkWorld {[ 0%nat := o ]} [] in
  (heap w !! 0%nat = Some o /\ ocls o = "Rectangle"
   /\ oattrs o !! "x2" = None)
  /\ TalkLspSolution1.Quadrilateral_get_width (VRef 0%nat) env w
     = (Raise (TypeError "-"), w).
Proof.
  intros env o w.
  assert (heap w !! 0%nat = Some o) as Hl by reflexivity.
  assert (ocls o = "Rectangle") as Hc by reflexivity.
  assert (oattrs o !! "x2" = None) as Hx by reflexivity.
  split; [repeat split; assumption |].
  exact (proj1 (get_width_of_a_new_quadrilateral w 0%nat o Hl
                  (or_intror (or_introl Hc))) (or_intror Hx)).
Defined.

(** *** ShapeCalculator.calculate_perimeter, LSP solution #1 of solid.py *)

Section PerimeterFacts.
Context `{Externals}.

Lemma get_perimeter_of_a_shape env w v d :
  shape_with env w v d ->
  SolidLspSolution1Calculator.get_perimeter v env w
  = (Ok (VInt (2 * fst d + 2 * snd d)), w).
Proof.
  intros (l & o & -> & Hl & Hc & Hx & Hy).
  pose proof (class_of_instance env w l o Hl) as Hcls.
  unfold SolidLspSolution1Calculator.get_perimeter, bind at 1. rewrite Hcls.
  assert ((instance_of "Shape" (Some (ocls o))
           || instance_of "Rectangle" (Some (ocls o)))%bool = true) as ->.
  { by destruct Hc as [-> | ->]. }
  unfold SolidLspSolution1.Shape_get_perimeter, bind, getattr.
  rewrite Hx. cbn. rewrite Hy. cbn. unfold ret. do 3 f_equal. lia.
Qed.

Lemma sum_of_perimeters env w shapes dims (acc : Z) :
  Forall2 (shape_with env w) shapes dims ->
  sum_of SolidLspSolution1Calculator.get_perimeter shapes (VInt acc) env w
  = (Ok (VInt (acc + perimeters dims)), w)
  /\ forall l o after,
       heap w !! l = Some o -> ocls o = "Square" ->
       sum_of SolidLspSolution1Calculator.get_perimeter
         (shapes ++ VRef l :: after) (VInt acc) env w
       = (Raise (AttributeError "get_perimeter"), w).
Proof.
  intros Hshapes. revert acc.
  induction Hshapes as [| v d shapes dims Hv _ IH]; intros acc.
  - split; [cbn; unfold ret; do 3 f_equal; unfold perimeters; cbn; lia |].
    intros l o after Hl Hc.
    pose proof (class_of_instance env w l o Hl) as Hcls.
    cbn [app sum_of].
    unfold bind at 1, SolidLspSolution1Calculator.get_perimeter, bind at 1.
    by rewrite Hcls, Hc.
  - cbn [app sum_of]. unfold bind at 1 3.
    rewrite (get_perimeter_of_a_shape env w v d Hv).
    unfold bind at 1 2. cbn [py_add arith as_int ret].
    destruct (IH (acc + (2 * fst d + 2 * snd d))) as [IHsum IHsquare].
    split; [| exact IHsquare].
    rewrite IHsum. do 3 f_equal. unfold perimeters. cbn. lia.
Qed.

(** X13. [calculate_perimeter] of the solution adds up [2*x + 2*y] over
    a list of [Shape]s and [Rectangle]s with integer fields, 0 for the
    empty list, and changes nothing; with a [Square] of the snippet in
    the list it raises [AttributeError] on [get_perimeter] when the sum
    reaches it: [Square] derives from [object], not from [Shape]. *)
Theorem calculate_perimeter_adds_up w self shapes dims :
  let env := env_of Solid.file Solid.lsp_solution1 in
  Forall2 (shape_with env w) shapes dims ->
  SolidLspSolution1Calculator.ShapeCalculator_calculate_perimeter self shapes
    env w
  = (Ok (VInt (perimeters dims)), w)
  /\ forall l o after,
       heap w !! l = Some o -> ocls o = "Square" ->
       SolidLspSolution1Calculator.ShapeCalculator_calculate_perimeter self
         (shapes ++ VRef l :: after) env w
       = (Raise (AttributeError "get_perimeter"), w).
Proof.
  intros env Hshapes.
  assert (forall w', global "sum" env w' = (Ok (VGlobal "sum"), w')) as Hsum.
  { intros w'. reflexivity. }
  destruct (sum_of_perimeters env w shapes dims 0 Hshapes) as [Hall Hsquare].
  unfold SolidLspSolution1Calculator.ShapeCalculator_calculate_perimeter.
  split.
  - unfold bind at 1. rewrite Hsum. exact Hall.
  - intros l o after Hl Hc. unfold bind at 1. rewrite Hsum.
    exact (Hsquare l o after Hl Hc).
Qed.

End PerimeterFacts.

Lemma calculate_perimeter_adds_up_witness :
  let env := env_of Solid.file Solid.lsp_solution1 in
  let r := mkObject "Rectangle" {[ "x" := VInt 2; "y" := VInt 3 ]} in
  let s := mkObject "Shape" {[ "x" := VInt 1; "y" := VInt 1 ]} in
  let w := mkWorld {[ 0%nat := r; 1%nat := s ]} [] in
  Forall2 (shape_with env w) [VRef 0%nat; VRef 1%nat] [(2, 3); (1, 1)]
  /\ @SolidLspSolution1Calculator.ShapeCalculator_calculate_perimeter inert
       VNone [VRef 0%nat; VRef 1%nat] env w
     = (Ok (VInt 14), w).
Proof.
  intros env r s w.
  assert (Forall2 (shape_with env w) [VRef 0%nat; VRef 1%nat]
                  [(2, 3); (1, 1)]) as Hshapes.
  { repeat constructor.
    - exists 0%nat, r. repeat split; [right; reflexivity].
    - exists 1%nat, s. repeat split; [left; reflexivity]. }
  split; [exact Hshapes |].
  exact (proj1 (@calculate_perimeter_adds_up inert w VNone _ _ Hshapes)).
Defined.

(** *** The points, LSP #3 of talk.py *)

Lemma store_twice w l o a x b y :
  store_attr (store_attr w l o a x) l
    (mkObject (ocls o) (<[a := x]> (oattrs o))) b y
  = mkWorld (<[l := mkObject (ocls o) (<[b := y]> (<[a := x]> (oattrs o)))]>
               (heap w))
            (trace w).
Proof. unfold store_attr. cbn. by rewrite insert_insert_eq. Qed.

(** X14. On a point, [__init__] followed by [set_x] leaves the new [x]
    and the [y] of [__init__]; [set_x] and [set_y] give the same world
    in either order; of two [set_x] the last one wins. *)
Theorem point_setters_compose env w l o (x y x' : value) :
  let p := VRef l in
  heap w !! l = Some o ->
  (exists w',
     (TalkLspPoints.Point_init p x y ;; TalkLspPoints.MutablePoint_set_x p x')
       env w = (Ok VNone, w')
     /\ read_attr env w' p "x" = Some x'
     /\ read_attr env w' p "y" = Some y
     /\ (forall l', l' <> l -> heap w' !! l' = heap w !! l')
     /\ trace w' = trace w)
  /\ (TalkLspPoints.MutablePoint_set_x p x ;; TalkLspPoints.MutablePoint_set_y p y)
       env w
     = (TalkLspPoints.MutablePoint_set_y p y ;; TalkLspPoints.MutablePoint_set_x p x)
         env w
  /\ (TalkLspPoints.MutablePoint_set_x p x ;; TalkLspPoints.MutablePoint_set_x p x')
       env w
     = TalkLspPoints.MutablePoint_set_x p x' env w.
Proof.
  intros p Hl. subst p.
  pose proof (fun a v => setattr_instance env w l o a v Hl) as Hset.
  pose proof (fun a v b u =>
                setattr_instance env _ l _ b u (heap_after_store w l o a v))
    as Hset'.
  unfold TalkLspPoints.Point_init, TalkLspPoints.MutablePoint_set_x,
    TalkLspPoints.MutablePoint_set_y.
  split; [| split].
  - eexists. split; [| split; [| split; [| split]]].
    + unfold bind, ret. rewrite Hset, Hset'. rewrite store_twice.
      unfold setattr. cbn. rewrite lookup_insert_eq. reflexivity.
    + unfold read_attr, store_attr. cbn. by simplify_map_eq.
    + unfold read_attr, store_attr. cbn. by simplify_map_eq.
    + intros l' Hne. unfold store_attr. cbn. by simplify_map_eq.
    + reflexivity.
  - unfold bind, ret. rewrite !Hset, !Hset', !store_twice.
    do 2 f_equal. f_equal. f_equal. by apply insert_insert_ne.
  - unfold bind, ret. rewrite !Hset, !Hset', !store_twice.
    by rewrite insert_insert_eq.
Qed.

Lemma point_setters_compose_witness :
  let env := env_of Talk.file Talk.lsp_solution3 in
  let o := mkObject "MutablePoint" ∅ in
  let w := mkWorld {[ 0%nat := o ]} [] in
  let p := VRef 0%nat in
  heap w !! 0%nat = Some o
  /\ (TalkLspPoints.MutablePoint_set_x p (VInt 1) ;;
      TalkLspPoints.MutablePoint_set_y p (VInt 2)) env w
     = (TalkLspPoints.MutablePoint_set_y p (VInt 2) ;;
        TalkLspPoints.MutablePoint_set_x p (VInt 1)) env w.
Proof.
  intros env o w p.
  assert (heap w !! 0%nat = Some o) as Hl by reflexivity.
  split; [exact Hl |].
  exact (proj1 (proj2 (point_setters_compose env w 0%nat o (VInt 1) (VInt 2)
                         (VInt 0) Hl))).
Defined.

Lemma ImmutablePoint_has_no_subclass c :
  subclass Talk.lsp_solution3 c "ImmutablePoint" = true ->
  c = "ImmutablePoint".
Proof.
  unfold subclass.
  set (items := rev (sitems Talk.lsp_solution3)). vm_compute in items.
  subst items. cbn [subclass_in existsb orb].
  destruct (String.eqb_spec "MutablePoint" c) as [<- | _];
    [vm_compute; discriminate |].
  destruct (String.eqb_spec "ImmutablePoint" c) as [<- | _]; [reflexivity |].
  destruct (String.eqb_spec "Point" c) as [<- | _];
    [vm_compute; discriminate |].
  intros Hc. by apply String.eqb_eq in Hc.
Qed.

(** X15. The history rule of the points.  In the problem version a
    [MutablePoint] is an [ImmutablePoint], and its [set_x] changes the
    [x] its [__init__] has set.  In the solution whatever is an
    [ImmutablePoint] has neither setter, [set_x] and [set_y] raise
    [AttributeError] on it, and a [MutablePoint] is not an
    [ImmutablePoint]. *)
Theorem points_and_the_history_rule `{Externals} k env w l o v args :
  heap w !! l = Some o ->
  (ocls o = "MutablePoint" ->
     instance Talk.lsp_problem3 w (VRef l) "ImmutablePoint" = true
     /\ run_method Talk.lsp_problem3 (S k) (ocls o) "set_x" (VRef l) [v] env w
        = (Ok VNone, store_attr w l o "x" v)
     /\ read_attr env (store_attr w l o "x" v) (VRef l) "x" = Some v
     /\ instance Talk.lsp_solution3 w (VRef l) "ImmutablePoint" = false)
  /\ (instance Talk.lsp_solution3 w (VRef l) "ImmutablePoint" = true ->
        run_method Talk.lsp_solution3 (S k) (ocls o) "set_x" (VRef l) args
          env w
        = (Raise (AttributeError "set_x"), w)
        /\ run_method Talk.lsp_solution3 (S k) (ocls o) "set_y" (VRef l) args
             env w
           = (Raise (AttributeError "set_y"), w)).
Proof.
  intros Hl. split.
  - intros Hc. unfold instance. rewrite Hl, Hc.
    split; [reflexivity |]. split; [| split; [| reflexivity]].
    + unfold run_method. cbn. unfold bind, ret. cbn.
      by rewrite (setattr_instance env w l o "x" v Hl).
    + apply read_attr_store_eq.
  - unfold instance. rewrite Hl. intros Hc.
    apply ImmutablePoint_has_no_subclass in Hc. rewrite Hc.
    split; reflexivity.
Qed.

Lemma points_and_the_history_rule_witness :
  let env := env_of Talk.file Talk.lsp_problem3 in
  let o := mkObject "MutablePoint" {[ "x" := VInt 1; "y" := VInt 2 ]} in
  let w := mkWorld {[ 0%nat := o ]} [] in
  (heap w !! 0%nat = Some o /\ ocls o = "MutablePoint")
  /\ @run_method inert Talk.lsp_problem3 1 (ocls o) "set_x" (VRef 0%nat)
       [VInt 7] env w
     = (Ok VNone, store_attr w 0%nat o "x" (VInt 7)).
Proof.
  intros env o w.
  assert (heap w !! 0%nat = Some o) as Hl by reflexivity.
  assert (ocls o = "MutablePoint") as Hc by reflexivity.
  split; [split; assumption |].
  exact (proj1 (proj2 (proj1
    (@points_and_the_history_rule inert 0 env w 0%nat o (VInt 7) [] Hl) Hc))).
Defined.

(** *** Modem, SRP #2 of talk.py *)

(** X16. Splitting [Modem] into [DataChannel] and [Connection] keeps
    what a modem answers: [dial], [hangup], [send] and [recv] return
    [None] and change nothing before and after the split, on every
    receiver; after it [dial] and [hangup] are [Connection]'s, [send]
    and [recv] are [DataChannel]'s. *)
Theorem Modem_split_keeps_its_methods `{Externals} k self pno c env w :
  Forall (fun '(m, args, owner) =>
            run_method Talk.srp_problem2 (S k) "Modem" m self args env w
              = (Ok VNone, w)
            /\ run_method Talk.srp_solution2 (S k) "Modem" m self args env w
               = (Ok VNone, w)
            /\ option_map fst (resolve_def Talk.srp_problem2 "Modem" m)
               = Some "Modem"
            /\ option_map fst (resolve_def Talk.srp_solution2 "Modem" m)
               = Some owner)
    [("dial", [pno], "Connection"); ("hangup", [], "Connection");
     ("send", [c], "DataChannel"); ("recv", [], "DataChannel")].
Proof. repeat constructor. Qed.

(** *** The coffee machines, ISP #2 *)

(** X17. In the problem version both machines answer the three methods
    of [CoffeeMachine].  In the solution each keeps [add_ground_coffee]
    and its own way of brewing, and the other one raises
    [AttributeError]: [brew_espresso] on a [BasicCoffeeMachine],
    [brew_filter_coffee] on an [EspressoMachine].  The snippets are the
    same in solid.py and talk.py. *)
Theorem coffee_machines_keep_what_they_use `{Externals} k self env w :
  Forall (fun '(c, m, after) =>
            run_method Talk.isp_problem2 (S k) c m self [] env w
              = (Ok VNone, w)
            /\ run_method Talk.isp_solution2 (S k) c m self [] env w
               = (after, w))
    [("BasicCoffeeMachine", "brew_filter_coffee", Ok VNone);
     ("BasicCoffeeMachine", "add_ground_coffee", Ok VNone);
     ("BasicCoffeeMachine", "brew_espresso",
      Raise (AttributeError "brew_espresso"));
     ("EspressoMachine", "brew_filter_coffee",
      Raise (AttributeError "brew_filter_coffee"));
     ("EspressoMachine", "add_ground_coffee", Ok VNone);
     ("EspressoMachine", "brew_espresso", Ok VNone)]
  /\ Solid.isp_problem2 = Talk.isp_problem2
  /\ Solid.isp_solution2 = Talk.isp_solution2.
Proof. split; [repeat constructor | split; reflexivity]. Qed.

(** *** CopyProgram.copy of the solution, DIP #1 *)



(** *** Loading the files *)


(** X20. solid.py has a second body that is not Python, which talk.py
    has repaired: the [if] of [ProjectTask.close] has no colon (line
    197).  The bodies that do not parse are those of
    [ReportGenerator.print] and [ProjectTask.close] in solid.py and of
    [ReportGenerator.print] alone in talk.py, where [ProjectTask.close]
    parses. *)
Theorem solid_has_a_second_syntax_error :
  let solid_close :=
    body_lines (resolve Solid.lsp_problem2 "ProjectTask" "close") in
  map check_body (broken_bodies Solid.file)
  = [SyntaxError 117; SyntaxError 197]
  /\ map check_body (broken_bodies Talk.file) = [SyntaxError 165]
  /\ nth_error solid_close 0
     = Some (mkLine 197 8
               [TName "if"; TOp "("; TName "self"; TOp "."; TName "status";
                TOp "=="; TStr "STARTED"; TOp ")"])
  /\ check_body solid_close = SyntaxError 197
  /\ body_lines (resolve Talk.lsp_problem2 "ProjectTask" "close") = [].
Proof. cbv zeta. repeat split; vm_compute; reflexivity. Qed.

(** *** A Button with a Lamp of the snippet, DIP #2 *)

Section ButtonAndLamp.
Context `{Externals}.

(** [detect] on a [Button] whose client is a [Lamp] of the snippet. *)
Lemma detect_with_a_Lamp k env w b lamp :
  class_of (VRef b) env w = (Ok (Some "Button"), w) ->
  class_of (VRef lamp) env w = (Ok (Some "Lamp"), w) ->
  (getattr (VRef b) "lamp" env w = (Ok (VRef lamp), w) ->
   run_method Talk.dip_problem2 (S (S k)) "Button" "detect" (VRef b) [] env w
   = (Ok VNone, w))
  /\ (getattr (VRef b) "button_client" env w = (Ok (VRef lamp), w) ->
      run_method Talk.dip_solution2 (S (S k)) "Button" "detect" (VRef b) []
        env w
      = (Ok VNone, w)).
Proof. intros Hb Hlamp. split; intros Hget; agree. Qed.

(** X21. A [Button] made with a [Lamp] of its snippet does nothing when
    it detects: [__init__] stores the lamp in the button, and [detect]
    then returns [None] and leaves every object as [__init__] left it,
    because [get_physical_state] ([get_state] in the solution) returns
    [None] and the [turn_off] it reaches, [Lamp]'s own in the problem
    and [ButtonClient]'s in the solution, is empty. *)
Theorem Button_with_a_Lamp_does_nothing k env w b ob lamp ol :
  heap w !! b = Some ob -> ocls ob = "Button" ->
  heap w !! lamp = Some ol -> ocls ol = "Lamp" ->
  (let w' := store_attr w b ob "lamp" (VRef lamp) in
   run_method Talk.dip_problem2 (S k) "Button" "__init__" (VRef b)
     [VRef lamp] env w
   = (Ok VNone, w')
   /\ run_method Talk.dip_problem2 (S (S k)) "Button" "detect" (VRef b) []
        env w'
      = (Ok VNone, w'))
  /\ (let w' := store_attr w b ob "button_client" (VRef lamp) in
      run_method Talk.dip_solution2 (S k) "Button" "__init__" (VRef b)
        [VRef lamp] env w
      = (Ok VNone, w')
      /\ run_method Talk.dip_solution2 (S (S k)) "Button" "detect" (VRef b) []
           env w'
         = (Ok VNone, w')).
Proof.
  intros Hb Hcb Hlamp Hcl.
  assert (b <> lamp) as Hne by (intros ->; congruence).
  assert (forall a,
            let w' := store_attr w b ob a (VRef lamp) in
            class_of (VRef b) env w' = (Ok (Some "Button"), w')
            /\ class_of (VRef lamp) env w' = (Ok (Some "Lamp"), w')
            /\ getattr (VRef b) a env w' = (Ok (VRef lamp), w'))
    as Hafter.
  { intros a w'. split; [| split].
    - subst w'. by rewrite class_of_after_store, Hcb.
    - rewrite <- Hcl. apply class_of_instance.
      subst w'. by rewrite heap_store_other.
    - unfold getattr. subst w'. by rewrite read_attr_store_eq. }
  pose proof (fun a => setattr_instance env w b ob a (VRef lamp) Hb) as Hset.
  split; intros w'.
  - destruct (Hafter "lamp") as (H1 & H2 & H3).
    split; [| exact (proj1 (detect_with_a_Lamp k env w' b lamp H1 H2) H3)].
    unfold run_method. cbn. unfold bind, ret. cbn. by rewrite Hset.
  - destruct (Hafter "button_client") as (H1 & H2 & H3).
    split; [| exact (proj2 (detect_with_a_Lamp k env w' b lamp H1 H2) H3)].
    unfold run_method. cbn. unfold bind, ret. cbn. by rewrite Hset.
Qed.

End ButtonAndLamp.

Lemma Button_with_a_Lamp_does_nothing_witness :
  let env := env_of Talk.file Talk.dip_solution2 in
  let button := mkObject "Button" ∅ in
  let lamp := mkObject "Lamp" ∅ in
  let w := mkWorld {[ 0%nat := button; 1%nat := lamp ]} [] in
  let w' := store_attr w 0%nat button "button_client" (VRef 1%nat) in
  (heap w !! 0%nat = Some button /\ ocls button = "Button"
   /\ heap w !! 1%nat = Some lamp /\ ocls lamp = "Lamp")
  /\ @run_method recording Talk.dip_solution2 2 "Button" "detect"
       (VRef 0%nat) [] env w'
     = (Ok VNone, w').
Proof.
  intros env button lamp w w'.
  assert (heap w !! 0%nat = Some button) as Hb by reflexivity.
  assert (ocls button = "Button") as Hcb by reflexivity.
  assert (heap w !! 1%nat = Some lamp) as Hl by reflexivity.
  assert (ocls lamp = "Lamp") as Hcl by reflexivity.
  split; [repeat split; assumption |].
  exact (proj2 (proj2 (@Button_with_a_Lamp_does_nothing recording 0 env w
                         0%nat button 1%nat lamp Hb Hcb Hl Hcl))).
Defined.
